(** * Netflix content analysis: a shallow embedding of [netflix_analysis.py]

    The development follows the class [NetflixAnalyzer]: the preprocessing
    step that derives columns from the raw table, the counting reports
    ([value_counts], [groupby(...).size().unstack(fill_value=0)]), the
    keyword and genre-pair counters, the content search and the
    recommender.

    Conventions of the embedding.
    - Text is ASCII: a Python [str] is a [string], case folding acts on the
      letters [A-Z]/[a-z], white space is the ASCII white space of
      [str.isspace].
    - A missing cell (NaN, NaT) of a column is [None].
    - The text columns have object dtype, so the [.str] accessor applies.
    - A data frame is the list of its rows, each with its index label.
    - A Python exception is the [Raise] outcome of the [result] monad.
    - The derived numeric cells are stored in integer or float64 columns and
      the dates in timestamps; the embedding covers the integers up to 2^53
      in magnitude and the years 1678 to 2261, which every such column holds
      exactly, and marks the others [NotModelled].
    - [int] is the one of an interpreter with the default limit of 4300
      digits. *)

From Stdlib Require Import String Ascii List ZArith Lia Bool Arith.
From Stdlib Require Import Sorted Permutation.
Import ListNotations.

Open Scope string_scope.
Open Scope list_scope.
Open Scope nat_scope.

(** ** Exceptions

    [ValueError], [AttributeError] and [ReError] ([re.error]) are the Python
    exceptions of the computing code; [PrintError] carries the exception of
    the printing code into the outcome of a method that prints before it
    computes.  [NotModelled] is no exception of Python: it marks a call
    whose behaviour the embedding does not fix. *)

(** [TypeError], the one exception of the printing code. *)
Inductive type_error : Type := TypeError.

Inductive exn : Type :=
| ValueError
| AttributeError
| ReError
| PrintError (e : type_error)
| NotModelled.

Inductive result (A : Type) : Type :=
| Ok (a : A)
| Raise (e : exn).

Arguments Ok {A} a.
Arguments Raise {A} e.

Definition bind {A B : Type} (c : result A) (k : A -> result B) : result B :=
  match c with
  | Ok a => k a
  | Raise e => Raise e
  end.

Notation "x <- c ;; k" := (bind c (fun x => k))
  (at level 61, c at next level, right associativity).

(** [Series.apply(f)]: the function is applied cell by cell, from the first
    row on; the first exception aborts the whole call. *)
Fixpoint apply_cells {A B : Type} (f : A -> result B) (col : list A)
  : result (list B) :=
  match col with
  | [] => Ok []
  | x :: rest =>
      y <- f x ;;
      ys <- apply_cells f rest ;;
      Ok (y :: ys)
  end.

(** ** Python strings *)

Module PyStr.

Definition code (c : ascii) : nat := nat_of_ascii c.

Definition is_upper (c : ascii) : bool := (65 <=? code c) && (code c <=? 90).
Definition is_lower (c : ascii) : bool := (97 <=? code c) && (code c <=? 122).
Definition is_digit (c : ascii) : bool := (48 <=? code c) && (code c <=? 57).
Definition is_alnum (c : ascii) : bool := is_upper c || is_lower c || is_digit c.

(** [str.isspace] on one ASCII character: tab, line feed, vertical tab,
    form feed, carriage return, the four separators 0x1c-0x1f, space. *)
Definition is_space (c : ascii) : bool :=
  ((9 <=? code c) && (code c <=? 13))
  || ((28 <=? code c) && (code c <=? 32)).

Definition to_lower (c : ascii) : ascii :=
  if is_upper c then ascii_of_nat (code c + 32) else c.

Definition to_upper (c : ascii) : ascii :=
  if is_lower c then ascii_of_nat (code c - 32) else c.

(** [s.lower()] and [s.upper()] *)
Fixpoint lower (s : string) : string :=
  match s with
  | EmptyString => EmptyString
  | String c s' => String (to_lower c) (lower s')
  end.

Fixpoint upper (s : string) : string :=
  match s with
  | EmptyString => EmptyString
  | String c s' => String (to_upper c) (upper s')
  end.

(** Every character of the text satisfies [p]. *)
Fixpoint all_chars (p : ascii -> bool) (s : string) : bool :=
  match s with
  | EmptyString => true
  | String c s' => p c && all_chars p s'
  end.

(** [sub in s] *)
Fixpoint contains (sub s : string) : bool :=
  prefix sub s
  || match s with
     | EmptyString => false
     | String _ s' => contains sub s'
     end.

Fixpoint drop (n : nat) (s : string) : string :=
  match n, s with
  | S k, String _ s' => drop k s'
  | _, _ => s
  end.

Fixpoint rev_string (acc : string) (s : string) : string :=
  match s with
  | EmptyString => acc
  | String c s' => rev_string (String c acc) s'
  end.

(** [s.split(sep)] for a non-empty separator.  [skip] counts the characters
    of a separator just found that are still to be passed over; [cur] is the
    current field, reversed. *)
Fixpoint split_go (sep : string) (skip : nat) (cur : string) (s : string)
  : list string :=
  match s with
  | EmptyString => [rev_string "" cur]
  | String c s' =>
      match skip with
      | S k => split_go sep k cur s'
      | O =>
          if prefix sep s
          then rev_string "" cur :: split_go sep (String.length sep - 1) "" s'
          else split_go sep 0 (String c cur) s'
      end
  end.

Definition split (sep s : string) : list string := split_go sep 0 "" s.

(** [s.split()]: fields separated by runs of white space, no empty field. *)
Fixpoint split_ws_go (cur : string) (s : string) : list string :=
  match s with
  | EmptyString =>
      match cur with
      | EmptyString => []
      | _ => [rev_string "" cur]
      end
  | String c s' =>
      if is_space c
      then match cur with
           | EmptyString => split_ws_go "" s'
           | _ => rev_string "" cur :: split_ws_go "" s'
           end
      else split_ws_go (String c cur) s'
  end.

Definition split_ws (s : string) : list string := split_ws_go "" s.

(** [s.strip()] *)
Fixpoint lstrip (s : string) : string :=
  match s with
  | EmptyString => EmptyString
  | String c s' => if is_space c then lstrip s' else s
  end.

Definition rstrip (s : string) : string :=
  rev_string "" (lstrip (rev_string "" s)).

Definition strip (s : string) : string := rstrip (lstrip s).

(** [sep.join(parts)] *)
Definition join (sep : string) (parts : list string) : string :=
  String.concat sep parts.

(** The white space that [int] passes over at both ends of an ASCII text:
    tab, line feed, vertical tab, form feed, carriage return and space (the
    separators 0x1c-0x1f, white space for [str.isspace], are not among
    them). *)
Definition is_c_space (c : ascii) : bool :=
  ((9 <=? code c) && (code c <=? 13)) || (code c =? 32).

Fixpoint lstrip_c (s : string) : string :=
  match s with
  | EmptyString => EmptyString
  | String c s' => if is_c_space c then lstrip_c s' else s
  end.

Definition strip_c (s : string) : string :=
  rev_string "" (lstrip_c (rev_string "" (lstrip_c s))).

(** The number of decimal digits of a text. *)
Fixpoint count_digits (s : string) : nat :=
  match s with
  | EmptyString => 0
  | String c s' => (if is_digit c then 1 else 0) + count_digits s'
  end.

(** [sys.get_int_max_str_digits()], as the interpreter starts. *)
Definition max_str_digits : nat := 4300.

(** [int(s)] in base 10: surrounding white space, an optional sign, then
    decimal digits in which single underscores may separate digits; a text
    of more than [max_str_digits] digits is refused. *)
Fixpoint digits_value (acc : Z) (after_digit : bool) (s : string) : option Z :=
  match s with
  | EmptyString => if after_digit then Some acc else None
  | String c s' =>
      if is_digit c
      then digits_value (10 * acc + Z.of_nat (code c - 48)) true s'
      else if Ascii.eqb c "_" && after_digit
           then digits_value acc false s'
           else None
  end.

Definition int_of_string (s : string) : option Z :=
  let body := strip_c s in
  if max_str_digits <? count_digits body then None
  else match body with
       | String "+" s' => digits_value 0 false s'
       | String "-" s' => option_map Z.opp (digits_value 0 false s')
       | s' => digits_value 0 false s'
       end.

Definition int (s : string) : result Z :=
  match int_of_string s with
  | Some n => Ok n
  | None => Raise ValueError
  end.

(** [str(x)] of a cell: the text itself, or ["nan"] for a missing cell. *)
Definition str (x : option string) : string :=
  match x with
  | Some s => s
  | None => "nan"
  end.

End PyStr.

(** ** Dates: [pd.to_datetime(..., format='%B %d, %Y', errors='coerce')]

    A text matches the format when it is a full English month name (in any
    case), white space, a day of one or two digits, a comma, white space and
    a year of four digits, and the date exists in the calendar.  Anything
    else is coerced to NaT.  A timestamp has a range that depends on its
    unit; the years 1678 to 2261 lie within it for every unit, and what
    becomes of a date outside these years is not modelled ([date_cell]). *)

Record Timestamp : Type := mkTimestamp {
  ts_year : Z;
  ts_month : nat;
  ts_day : nat
}.

Definition month_names : list string :=
  ["January"; "February"; "March"; "April"; "May"; "June"; "July";
   "August"; "September"; "October"; "November"; "December"].

Definition day_names : list string :=
  ["Monday"; "Tuesday"; "Wednesday"; "Thursday"; "Friday"; "Saturday";
   "Sunday"].

Definition is_leap (y : Z) : bool :=
  ((y mod 4 =? 0)%Z && negb (y mod 100 =? 0)%Z) || (y mod 400 =? 0)%Z.

Definition days_in_month (y : Z) (m : nat) : nat :=
  match m with
  | 2 => if is_leap y then 29 else 28
  | 4 | 6 | 9 | 11 => 30
  | _ => 31
  end.

(** The month whose name starts the text, with the rest of the text. *)
Fixpoint match_month (names : list string) (m : nat) (s : string)
  : option (nat * string) :=
  match names with
  | [] => None
  | name :: rest =>
      if prefix (PyStr.lower name) (PyStr.lower s)
      then Some (m, PyStr.drop (String.length name) s)
      else match_month rest (S m) s
  end.

(** One or more white space characters. *)
Definition skip_spaces (s : string) : option string :=
  match s with
  | String c s' => if PyStr.is_space c then Some (PyStr.lstrip s') else None
  | EmptyString => None
  end.

Definition digit_val (c : ascii) : nat := PyStr.code c - 48.

(** The day directive: [1]..[9], [01]..[09], [10]..[31]. *)
Definition match_day (s : string) : option (nat * string) :=
  match s with
  | String a (String b rest) =>
      if PyStr.is_digit a && PyStr.is_digit b
      then let d := 10 * digit_val a + digit_val b in
           if (1 <=? d) && (d <=? 31) then Some (d, rest) else None
      else if PyStr.is_digit a && (1 <=? digit_val a)
           then Some (digit_val a, String b rest)
           else None
  | String a EmptyString =>
      if PyStr.is_digit a && (1 <=? digit_val a)
      then Some (digit_val a, EmptyString)
      else None
  | EmptyString => None
  end.

(** The year directive: exactly four digits, then the end of the text. *)
Definition match_year (s : string) : option Z :=
  match s with
  | String a (String b (String c (String d EmptyString))) =>
      if PyStr.is_digit a && PyStr.is_digit b
         && PyStr.is_digit c && PyStr.is_digit d
      then Some (Z.of_nat (1000 * digit_val a + 100 * digit_val b
                           + 10 * digit_val c + digit_val d))
      else None
  | _ => None
  end.

Definition option_bind {A B : Type} (o : option A) (k : A -> option B)
  : option B :=
  match o with
  | Some a => k a
  | None => None
  end.

Definition strptime_BdY (s : string) : option Timestamp :=
  option_bind (match_month month_names 1 s) (fun '(m, s1) =>
  option_bind (skip_spaces s1) (fun s2 =>
  option_bind (match_day s2) (fun '(d, s3) =>
  match s3 with
  | String "," s4 =>
      option_bind (skip_spaces s4) (fun s5 =>
      option_bind (match_year s5) (fun y =>
      if (1 <=? y)%Z && (d <=? days_in_month y m)
      then Some (mkTimestamp y m d)
      else None))
  | _ => None
  end))).

Definition to_datetime (x : option string) : option Timestamp :=
  option_bind x strptime_BdY.

Definition date_in_range (t : Timestamp) : bool :=
  (1678 <=? ts_year t)%Z && (ts_year t <=? 2261)%Z.

(** The cell of the column [date_added] that the conversion writes. *)
Definition date_cell (x : option string) : result (option Timestamp) :=
  match to_datetime x with
  | Some t => if date_in_range t then Ok (Some t) else Raise NotModelled
  | None => Ok None
  end.

(** The day after [t] in the calendar. *)
Definition next_day (t : Timestamp) : Timestamp :=
  if ts_day t <? days_in_month (ts_year t) (ts_month t)
  then mkTimestamp (ts_year t) (ts_month t) (S (ts_day t))
  else if ts_month t <? 12
       then mkTimestamp (ts_year t) (S (ts_month t)) 1
       else mkTimestamp (ts_year t + 1) 1 1.

(** A date of the calendar. *)
Definition valid_date (t : Timestamp) : Prop :=
  1 <= ts_month t <= 12
  /\ 1 <= ts_day t <= days_in_month (ts_year t) (ts_month t).

(** Days since 1970-01-01 in the proleptic Gregorian calendar. *)
Definition days_from_civil (t : Timestamp) : Z :=
  let m := Z.of_nat (ts_month t) in
  let d := Z.of_nat (ts_day t) in
  let y := if (m <=? 2)%Z then (ts_year t - 1)%Z else ts_year t in
  let era := (y / 400)%Z in
  let yoe := (y - era * 400)%Z in
  let mp := if (m <=? 2)%Z then (m + 9)%Z else (m - 3)%Z in
  let doy := ((153 * mp + 2) / 5 + d - 1)%Z in
  let doe := (yoe * 365 + yoe / 4 - yoe / 100 + doy)%Z in
  (era * 146097 + doe - 719468)%Z.

(** [.dt.year], [.dt.month_name()], [.dt.day_name()] *)
Definition dt_year (t : Timestamp) : Z := ts_year t.

Definition dt_month_name (t : Timestamp) : string :=
  nth (ts_month t - 1) month_names "".

Definition dt_day_name (t : Timestamp) : string :=
  nth (Z.to_nat ((days_from_civil t + 3) mod 7)) day_names "".

(** The text of a date in the format of the column, as in
    "August 4, 2017": the day without a leading zero, the year in four
    digits. *)
Definition digit_char (n : nat) : ascii := ascii_of_nat (48 + n).

Definition day_text (d : nat) : string :=
  if d <? 10 then String (digit_char d) ""
  else String (digit_char (d / 10)) (String (digit_char (d mod 10)) "").

Definition year_text (y : Z) : string :=
  let n := Z.to_nat y in
  String (digit_char (n / 1000))
    (String (digit_char (n / 100 mod 10))
       (String (digit_char (n / 10 mod 10))
          (String (digit_char (n mod 10)) ""))).

Definition date_text (t : Timestamp) : string :=
  dt_month_name t ++ " " ++ day_text (ts_day t) ++ ", "
  ++ year_text (ts_year t).

(** ** The table *)

(** A row as read from the CSV file. *)
Record RawRecord : Type := mkRaw {
  raw_title : option string;
  raw_type : option string;
  raw_country : option string;
  raw_release_year : option Z;
  raw_rating : option string;
  raw_duration : option string;
  raw_listed_in : option string;
  raw_cast : option string;
  raw_director : option string;
  raw_description : option string;
  raw_date_added : option string
}.

(** A row of [self.df] after [preprocess_data]. *)
Record Row : Type := mkRow {
  title : option string;
  type_ : option string;
  country : option string;
  release_year : option Z;
  rating : option string;
  duration : option string;
  listed_in : option string;
  cast : option string;
  director : option string;
  description : option string;
  date_added : option Timestamp;
  year_added : option Z;
  month_added : option string;
  day_added : option string;
  duration_min : option Z;
  seasons : option Z;
  content_type : string
}.

(** Index label and row. *)
Definition RawFrame : Type := list (nat * RawRecord).
Definition DataFrame : Type := list (nat * Row).

(** ** [preprocess_data] *)

(** [x.split(' ')[0]] *)
Definition first_field (s : string) : string :=
  hd "" (PyStr.split " " s).

(** [int(x.split(' ')[0])]; a missing cell is a float, which has no
    [split]. *)
Definition leading_int (x : option string) : result Z :=
  match x with
  | Some s => PyStr.int (first_field s)
  | None => Raise AttributeError
  end.

(** [lambda x: int(x.split(' ')[0]) if 'min' in str(x) else np.nan] *)
Definition duration_min_of (x : option string) : result (option Z) :=
  if PyStr.contains "min" (PyStr.str x)
  then n <- leading_int x ;; Ok (Some n)
  else Ok None.

(** [lambda x: int(x.split(' ')[0]) if 'Season' in str(x) else np.nan] *)
Definition seasons_of (x : option string) : result (option Z) :=
  if PyStr.contains "Season" (PyStr.str x)
  then n <- leading_int x ;; Ok (Some n)
  else Ok None.

(** [lambda x: 'Movie' if x == 'Movie' else 'TV Show'] *)
Definition content_type_of (x : option string) : string :=
  match x with
  | Some s => if String.eqb s "Movie" then "Movie" else "TV Show"
  | None => "TV Show"
  end.

(** The cell in which a column of the frame keeps what [apply] returned.
    The column is an integer column when no cell is missing and a float64
    column when one is; both keep an integer of magnitude up to 2^53 as it
    is.  What becomes of a larger one is not modelled. *)
Definition float_cell (x : option Z) : result (option Z) :=
  match x with
  | Some n =>
      if (Z.abs n <=? 2 ^ 53)%Z then Ok (Some n) else Raise NotModelled
  | None => Ok None
  end.

(** The row made of a raw row and its derived cells; [dm] and [se] are the
    cells of the two duration columns as stored ([float_cell]). *)
Definition derived_row (r : RawRecord) (dm se : option Z) : Row :=
  let date := to_datetime (raw_date_added r) in
  {| title := raw_title r;
     type_ := raw_type r;
     country := raw_country r;
     release_year := raw_release_year r;
     rating := raw_rating r;
     duration := raw_duration r;
     listed_in := raw_listed_in r;
     cast := raw_cast r;
     director := raw_director r;
     description := raw_description r;
     date_added := date;
     year_added := option_map dt_year date;
     month_added := option_map dt_month_name date;
     day_added := option_map dt_day_name date;
     duration_min := dm;
     seasons := se;
     content_type := content_type_of (raw_type r) |}.

Fixpoint assemble (raw : RawFrame) (dms ses : list (option Z)) : DataFrame :=
  match raw, dms, ses with
  | (i, r) :: raw', dm :: dms', se :: ses' =>
      (i, derived_row r dm se) :: assemble raw' dms' ses'
  | _, _, _ => []
  end.

(** The date columns are computed first (never raising), then the column
    [duration_min], then the column [seasons], then [content_type]; each
    column is stored before the next one is computed.  The cells stored are
    the cells computed ([date_cell], [float_cell]), so the rows are
    assembled from these. *)
Definition preprocess_data (raw : RawFrame) : result DataFrame :=
  _ <- apply_cells date_cell (map (fun e => raw_date_added (snd e)) raw) ;;
  let durations := map (fun e => raw_duration (snd e)) raw in
  dms <- apply_cells duration_min_of durations ;;
  _ <- apply_cells float_cell dms ;;
  ses <- apply_cells seasons_of durations ;;
  _ <- apply_cells float_cell ses ;;
  Ok (assemble raw dms ses).

(** ** Keys: the equality and the order Python uses on hashable values *)

Class PyKey (K : Type) : Type := {
  key_eqb : K -> K -> bool;
  key_leb : K -> K -> bool
}.

#[global] Instance Z_key : PyKey Z :=
  {| key_eqb := Z.eqb; key_leb := Z.leb |}.

#[global] Instance string_key : PyKey string :=
  {| key_eqb := String.eqb; key_leb := String.leb |}.

(** Tuples compare component by component, the first difference deciding. *)
#[global] Instance pair_key {A B : Type} `{PyKey A} `{PyKey B} : PyKey (A * B) :=
  {| key_eqb := fun p q =>
       key_eqb (fst p) (fst q) && key_eqb (snd p) (snd q);
     key_leb := fun p q =>
       if key_eqb (fst p) (fst q)
       then key_leb (snd p) (snd q)
       else key_leb (fst p) (fst q) |}.

(** The keys whose [key_eqb] decides equality. *)
Class PyKeyOk (K : Type) `{PyKey K} : Prop :=
  key_eqb_eq : forall a b : K, key_eqb a b = true <-> a = b.

(** ** Counting *)

Section Counting.

Context {K : Type} `{PyKey K}.

(** [m[k] += 1] on a dictionary kept in insertion order. *)
Fixpoint incr (k : K) (m : list (K * nat)) : list (K * nat) :=
  match m with
  | [] => [(k, 1)]
  | (k', c) :: m' =>
      if key_eqb k k' then (k', S c) :: m' else (k', c) :: incr k m'
  end.

(** [collections.Counter(iterable)] *)
Definition Counter (l : list K) : list (K * nat) :=
  fold_left (fun m k => incr k m) l [].

(** [m[k]], which is [0] for a key that is absent. *)
Fixpoint get_count (k : K) (m : list (K * nat)) : nat :=
  match m with
  | [] => 0
  | (k', c) :: m' => if key_eqb k k' then c else get_count k m'
  end.

(** Stable sort by decreasing count: an entry is placed before the first
    entry whose count is not larger than its own. *)
Fixpoint insert_desc (x : K * nat) (l : list (K * nat)) : list (K * nat) :=
  match l with
  | [] => [x]
  | y :: l' =>
      if snd x <? snd y then y :: insert_desc x l' else x :: y :: l'
  end.

Definition sort_desc (m : list (K * nat)) : list (K * nat) :=
  fold_right insert_desc [] m.

(** [Counter.most_common(n)]; [None] stands for the call without [n]. *)
Definition most_common (n : option nat) (m : list (K * nat))
  : list (K * nat) :=
  match n with
  | None => sort_desc m
  | Some k => firstn k (sort_desc m)
  end.

(** Sort by increasing key. *)
Fixpoint insert_key (k : K) (l : list K) : list K :=
  match l with
  | [] => [k]
  | k' :: l' => if key_leb k k' then k :: k' :: l' else k' :: insert_key k l'
  end.

Definition sort_keys (l : list K) : list K := fold_right insert_key [] l.

(** [Series.sort_index()] on a series of counts *)
Definition sort_index (m : list (K * nat)) : list (K * nat) :=
  map (fun k => (k, get_count k m)) (sort_keys (map fst m)).

(** The cells that are not missing. *)
Fixpoint dropna (col : list (option K)) : list K :=
  match col with
  | [] => []
  | Some k :: rest => k :: dropna rest
  | None :: rest => dropna rest
  end.

(** [Series.value_counts()]: missing cells are dropped ([dropna=True]), the
    counts are in decreasing order, equal counts in first-seen order. *)
Definition value_counts (col : list (option K)) : list (K * nat) :=
  sort_desc (Counter (dropna col)).

(** [Series.unique()] on a column without missing cells *)
Definition unique (l : list K) : list K := map fst (Counter l).

End Counting.

(** ** Cross tabulation: [groupby([a, b]).size().unstack(fill_value=0)] *)

Record CrossTab (A B : Type) : Type := mkCrossTab {
  ct_index : list A;
  ct_columns : list B;
  ct_values : list (list nat)
}.

Arguments mkCrossTab {A B} _ _ _.
Arguments ct_index {A B} _.
Arguments ct_columns {A B} _.
Arguments ct_values {A B} _.

Section CrossTabulation.

Context {A B : Type} `{PyKey A} `{PyKey B}.

(** The key pairs of the rows in which neither key is missing
    ([dropna=True] of [groupby]). *)
Fixpoint group_keys (rows : list (option A * option B)) : list (A * B) :=
  match rows with
  | [] => []
  | (Some a, Some b) :: rest => (a, b) :: group_keys rest
  | _ :: rest => group_keys rest
  end.

(** [groupby([a, b]).size()]: one count per observed pair, sorted by pair. *)
Definition groupby_size (rows : list (option A * option B))
  : list ((A * B) * nat) :=
  sort_index (Counter (group_keys rows)).

(** [.unstack(fill_value=0)]: the first keys become the index, the second
    keys the columns, a pair that was not observed has count [0]. *)
Definition unstack (g : list ((A * B) * nat)) : CrossTab A B :=
  let idx := sort_keys (unique (map (fun e => fst (fst e)) g)) in
  let cols := sort_keys (unique (map (fun e => snd (fst e)) g)) in
  {| ct_index := idx;
     ct_columns := cols;
     ct_values :=
       map (fun a => map (fun b => get_count (a, b) g) cols) idx |}.

Definition crosstab (rows : list (option A * option B)) : CrossTab A B :=
  unstack (groupby_size rows).

(** The row of the table labelled [a], when there is one. *)
Fixpoint lookup_row (a : A) (idx : list A) (vals : list (list nat))
  : option (list nat) :=
  match idx, vals with
  | a' :: idx', r :: vals' =>
      if key_eqb a a' then Some r else lookup_row a idx' vals'
  | _, _ => None
  end.

Definition ct_row (t : CrossTab A B) (a : A) : option (list nat) :=
  lookup_row a (ct_index t) (ct_values t).

(** The sum of row [a] over all columns; [0] when the row is absent. *)
Definition row_total (t : CrossTab A B) (a : A) : nat :=
  match ct_row t a with
  | Some r => list_sum r
  | None => 0
  end.

End CrossTabulation.

(** ** The reports *)

Definition column {A : Type} (f : Row -> A) (df : DataFrame) : list A :=
  map (fun e => f (snd e)) df.

(** The number of rows that satisfy [p]. *)
Definition count_rows (p : Row -> bool) (df : DataFrame) : nat :=
  length (filter (fun e => p (snd e)) df).

Definition is_some {A : Type} (x : option A) : bool :=
  match x with
  | Some _ => true
  | None => false
  end.

Definition content_type_analysis (df : DataFrame) : list (string * nat) :=
  value_counts (column (fun r => Some (content_type r)) df).

Definition country_analysis (df : DataFrame) : list (string * nat) :=
  value_counts (column country df).

Definition release_year_analysis (df : DataFrame) : list (Z * nat) :=
  sort_index (value_counts (column release_year df)).

Definition rating_analysis (df : DataFrame) : list (string * nat) :=
  value_counts (column rating df).

(** [advanced_content_analysis] returns three tables. *)
Definition content_by_year (df : DataFrame) : CrossTab Z string :=
  crosstab (column (fun r => (release_year r, Some (content_type r))) df).

Definition country_content (df : DataFrame) : CrossTab string string :=
  crosstab (column (fun r => (country r, Some (content_type r))) df).

Definition rating_by_year (df : DataFrame) : CrossTab Z string :=
  crosstab (column (fun r => (release_year r, rating r)) df).

Definition advanced_content_analysis (df : DataFrame)
  : CrossTab Z string * CrossTab string string * CrossTab Z string :=
  (content_by_year df, country_content df, rating_by_year df).

(** ** [keyword_analysis] *)

Definition stop_words : list string :=
  ["the"; "a"; "an"; "and"; "or"; "but"; "in"; "on"; "at"; "to"; "for";
   "of"; "with"; "by"; "is"; "are"; "was"; "were"; "be"; "been"; "have";
   "has"; "had"; "do"; "does"; "did"; "will"; "would"; "could"; "should";
   "may"; "might"; "must"; "can"; "this"; "that"; "these"; "those"; "i";
   "you"; "he"; "she"; "it"; "we"; "they"; "them"; "their"; "what";
   "which"; "who"; "when"; "where"; "why"; "how"; "all"; "any"; "both";
   "each"; "few"; "more"; "most"; "other"; "some"; "such"; "no"; "nor";
   "not"; "only"; "own"; "same"; "so"; "than"; "too"; "very"; "just";
   "now"].

(** [word in stop_words] *)
Definition in_set (w : string) (set : list string) : bool :=
  existsb (String.eqb w) set.

(** [Series.fillna(d)] on one cell *)
Definition fillna (d : string) (x : option string) : string :=
  match x with
  | Some s => s
  | None => d
  end.

(** [' '.join(self.df['description'].fillna('').str.lower())] *)
Definition all_descriptions (df : DataFrame) : string :=
  PyStr.join " "
    (map PyStr.lower (map (fillna "") (column description df))).

(** [all_descriptions.split()] *)
Definition words (df : DataFrame) : list string :=
  PyStr.split_ws (all_descriptions df).

(** [word not in stop_words and len(word) > 3] *)
Definition keep_word (w : string) : bool :=
  negb (in_set w stop_words) && (3 <? String.length w).

Definition filtered_words (df : DataFrame) : list string :=
  filter keep_word (words df).

(** The counter the method returns. *)
Definition keyword_analysis (df : DataFrame) : list (string * nat) :=
  Counter (filtered_words df).

(** The ten entries the method prints: [word_counts.most_common(10)]. *)
Definition top_keywords (df : DataFrame) : list (string * nat) :=
  most_common (Some 10) (keyword_analysis df).

(** [keyword_analysis] with its two constants as parameters: the stop words
    and the least length of a word that is kept. *)
Definition keep_word_with (stop : list string) (min_len : nat) (w : string)
  : bool :=
  negb (in_set w stop) && (min_len <=? String.length w).

(** The text made of gaps and tokens in turn: a gap, a token, a gap, ...,
    a token, a gap. *)
Fixpoint weave (gaps tokens : list string) : string :=
  match gaps, tokens with
  | g :: gaps', t :: tokens' => g ++ t ++ weave gaps' tokens'
  | g :: _, [] => g
  | [], _ => ""
  end.

(** The gaps between two tokens: all but the first and the last. *)
Definition inner_gaps (gaps : list string) : list string :=
  removelast (tl gaps).

(** The position of the first occurrence of [w] in [l], or the length of
    [l] when [w] does not occur. *)
Fixpoint first_index {K : Type} `{PyKey K} (w : K) (l : list K) : nat :=
  match l with
  | [] => 0
  | x :: l' => if key_eqb w x then 0 else S (first_index w l')
  end.

(** The number of occurrences of [w] in [l]. *)
Fixpoint occurrences {K : Type} `{PyKey K} (w : K) (l : list K) : nat :=
  match l with
  | [] => 0
  | x :: l' => (if key_eqb w x then 1 else 0) + occurrences w l'
  end.

(** [x] comes before [y] in a ranking by decreasing count in which equal
    counts keep the order of first occurrence in [stream]. *)
Definition ranked_before {K : Type} `{PyKey K} (stream : list K)
    (x y : K * nat) : Prop :=
  snd y < snd x
  \/ (snd x = snd y
      /\ first_index (fst x) stream < first_index (fst y) stream).

(** ** Genre pairs of [visualize_genres] *)

(** The two nested loops over [i] and [j > i]. *)
Definition index_pairs (genres : list string) : list (string * string) :=
  flat_map
    (fun i =>
       map (fun j => (PyStr.strip (nth i genres ""),
                      PyStr.strip (nth j genres "")))
           (seq (i + 1) (length genres - (i + 1))))
    (seq 0 (length genres)).

(** The pairs one cell of [listed_in] adds to [genre_pairs]; a missing cell
    is not a list and adds nothing. *)
Definition cell_pairs (x : option string) : list (string * string) :=
  match x with
  | Some s =>
      let genres := PyStr.split ", " s in
      if 1 <? length genres then index_pairs genres else []
  | None => []
  end.

(** The genre values of a cell, stripped. *)
Definition genres_of (x : option string) : list string :=
  match x with
  | Some s => map PyStr.strip (PyStr.split ", " s)
  | None => []
  end.

(** All pairs of an earlier and a later element of a list. *)
Fixpoint pairs_of {A : Type} (l : list A) : list (A * A) :=
  match l with
  | [] => []
  | x :: rest => map (pair x) rest ++ pairs_of rest
  end.

Definition genre_pairs (df : DataFrame) : list (string * string) :=
  flat_map cell_pairs (column listed_in df).

Definition pair_counts (df : DataFrame) : list ((string * string) * nat) :=
  Counter (genre_pairs df).

Definition top_pairs (df : DataFrame) : list ((string * string) * nat) :=
  most_common (Some 10) (pair_counts df).

(** ** Regular expressions

    [Series.str.contains(pat, case=False, na=False)] compiles [pat] as a
    regular expression with the flag IGNORECASE and searches each cell.
    The fragment embedded here has literal characters, the dot, an escaped
    punctuation character, and the postfix operators star, plus and
    question mark on one character.  A pattern the compiler rejects is
    [Invalid]; a pattern with other syntax is [Unsupported], and nothing is
    stated about it. *)

Module Re.

Inductive atom : Type :=
| Lit (c : ascii)
| Dot.

Inductive quant : Type :=
| One
| Star
| Plus
| Opt.

Definition item : Type := (atom * quant)%type.

Inductive token : Type :=
| TAtom (a : atom)
| TQuant (q : quant)
| TOpen
| TClose
| TBadEscape
| TOther.

Inductive compiled : Type :=
| Pattern (p : list item)
| Invalid
| Unsupported.

(** The characters with a special meaning in a pattern. *)
Definition is_meta (c : ascii) : bool :=
  existsb (Ascii.eqb c)
    ["."; "^"; "$"; "*"; "+"; "?"; "{"; "}"; "["; "]"; "\"; "|"; "(";
     ")"]%char.

Definition token_of_char (c : ascii) : token :=
  if Ascii.eqb c "." then TAtom Dot
  else if Ascii.eqb c "*" then TQuant Star
  else if Ascii.eqb c "+" then TQuant Plus
  else if Ascii.eqb c "?" then TQuant Opt
  else if Ascii.eqb c "(" then TOpen
  else if Ascii.eqb c ")" then TClose
  else if is_meta c then TOther
  else TAtom (Lit c).

Fixpoint tokens (s : string) : list token :=
  match s with
  | EmptyString => []
  | String c s1 =>
      if Ascii.eqb c "\"
      then match s1 with
           | EmptyString => [TBadEscape]
           | String d s2 =>
               (if PyStr.is_alnum d then TOther else TAtom (Lit d))
               :: tokens s2
           end
      else token_of_char c :: tokens s1
  end.

Definition is_close (t : token) : bool :=
  match t with
  | TClose => true
  | _ => false
  end.

Definition cons_item (i : item) (c : compiled) : compiled :=
  match c with
  | Pattern p => Pattern (i :: p)
  | other => other
  end.

(** An atom takes the operator that follows it; an operator with nothing
    to repeat, a closing parenthesis without an opening one, an opening
    parenthesis that is never closed and a backslash at the end are
    errors. *)
Fixpoint parse (ts : list token) : compiled :=
  match ts with
  | [] => Pattern []
  | TAtom a :: TQuant q :: rest =>
      match rest with
      | TQuant _ :: _ => Unsupported
      | _ => cons_item (a, q) (parse rest)
      end
  | TAtom a :: rest => cons_item (a, One) (parse rest)
  | TQuant _ :: _ => Invalid
  | TOpen :: rest => if existsb is_close rest then Unsupported else Invalid
  | TClose :: _ => Invalid
  | TBadEscape :: _ => Invalid
  | TOther :: _ => Unsupported
  end.

(** [re.compile(pat, re.IGNORECASE)] *)
Definition compile (pat : string) : compiled := parse (tokens pat).

Definition atom_match (a : atom) (c : ascii) : bool :=
  match a with
  | Lit p => Ascii.eqb (PyStr.to_lower c) (PyStr.to_lower p)
  | Dot => negb (Ascii.eqb c "010")
  end.

(** Zero or more characters matching [a], then the continuation [k]. *)
Fixpoint star_then (k : string -> bool) (a : atom) (s : string) : bool :=
  k s
  || match s with
     | String c s' => atom_match a c && star_then k a s'
     | EmptyString => false
     end.

(** The pattern matches a prefix of the text. *)
Fixpoint match_here (p : list item) (s : string) : bool :=
  match p with
  | [] => true
  | (a, One) :: p' =>
      match s with
      | String c s' => atom_match a c && match_here p' s'
      | EmptyString => false
      end
  | (a, Opt) :: p' =>
      match_here p' s
      || match s with
         | String c s' => atom_match a c && match_here p' s'
         | EmptyString => false
         end
  | (a, Star) :: p' => star_then (match_here p') a s
  | (a, Plus) :: p' =>
      match s with
      | String c s' => atom_match a c && star_then (match_here p') a s'
      | EmptyString => false
      end
  end.

(** [pat.search(s) is not None]: the pattern matches at some position. *)
Fixpoint search (p : list item) (s : string) : bool :=
  match_here p s
  || match s with
     | String _ s' => search p s'
     | EmptyString => false
     end.

(** The pattern of a text without special characters: its characters, one
    by one. *)
Fixpoint literal (q : string) : list item :=
  match q with
  | EmptyString => []
  | String c q' => (Lit c, One) :: literal q'
  end.

(** [re.compile(pat, re.IGNORECASE)] with the test
    [pat.search(s) is not None] of the compiled pattern. *)
Definition compile_search (pat : string) : result (string -> bool) :=
  match compile pat with
  | Pattern p => Ok (search p)
  | Invalid => Raise ReError
  | Unsupported => Raise NotModelled
  end.

End Re.

(** The engine of regular expressions: what compiling a pattern gives, the
    test of a text or an exception.  The search and the recommender are
    written over the engine; what does not depend on how a pattern matches
    is proved for every engine.  [fragment_engine] is the engine of the
    fragment above. *)
Class ReEngine : Type :=
  re_compile : string -> result (string -> bool).

#[global] Instance fragment_engine : ReEngine := Re.compile_search.

(** The test of a cell: a missing cell gives [False] ([na=False]). *)
Definition cell_test (found : string -> bool) (x : option string) : bool :=
  match x with
  | Some s => found s
  | None => false
  end.

(** [Series.str.contains(pat, case=False, na=False)]: the pattern is
    compiled once, then every cell is searched. *)
Definition str_contains `{ReEngine} (pat : string)
  : result (option string -> bool) :=
  found <- re_compile pat ;;
  Ok (cell_test found).

(** The patterns without special characters. *)
Fixpoint is_plain (pat : string) : bool :=
  match pat with
  | EmptyString => true
  | String c pat' => negb (Re.is_meta c) && is_plain pat'
  end.

(** The text of the cell contains [query], letter case ignored; a missing
    cell contains nothing. *)
Definition contains_ignoring_case (query : string) (x : option string) : bool :=
  match x with
  | Some s => PyStr.contains (PyStr.lower query) (PyStr.lower s)
  | None => false
  end.

(** ** Rows as values *)

Definition opt_eqb {A : Type} (eqb : A -> A -> bool) (x y : option A) : bool :=
  match x, y with
  | Some a, Some b => eqb a b
  | None, None => true
  | _, _ => false
  end.

Definition Timestamp_eqb (t u : Timestamp) : bool :=
  (ts_year t =? ts_year u)%Z
  && (ts_month t =? ts_month u)
  && (ts_day t =? ts_day u).

(** Two rows are duplicates when all their cells are equal, two missing
    cells counting as equal; the index label takes no part. *)
Definition Row_eqb (r1 r2 : Row) : bool :=
  opt_eqb String.eqb (title r1) (title r2)
  && opt_eqb String.eqb (type_ r1) (type_ r2)
  && opt_eqb String.eqb (country r1) (country r2)
  && opt_eqb Z.eqb (release_year r1) (release_year r2)
  && opt_eqb String.eqb (rating r1) (rating r2)
  && opt_eqb String.eqb (duration r1) (duration r2)
  && opt_eqb String.eqb (listed_in r1) (listed_in r2)
  && opt_eqb String.eqb (cast r1) (cast r2)
  && opt_eqb String.eqb (director r1) (director r2)
  && opt_eqb String.eqb (description r1) (description r2)
  && opt_eqb Timestamp_eqb (date_added r1) (date_added r2)
  && opt_eqb Z.eqb (year_added r1) (year_added r2)
  && opt_eqb String.eqb (month_added r1) (month_added r2)
  && opt_eqb String.eqb (day_added r1) (day_added r2)
  && opt_eqb Z.eqb (duration_min r1) (duration_min r2)
  && opt_eqb Z.eqb (seasons r1) (seasons r2)
  && String.eqb (content_type r1) (content_type r2).

(** [DataFrame.drop_duplicates()]: a row is kept unless an earlier row has
    the same values ([keep='first']); kept rows keep their labels. *)
Fixpoint drop_duplicates_from (seen : list Row) (df : DataFrame) : DataFrame :=
  match df with
  | [] => []
  | e :: rest =>
      if existsb (Row_eqb (snd e)) seen
      then drop_duplicates_from seen rest
      else e :: drop_duplicates_from (snd e :: seen) rest
  end.

Definition drop_duplicates (df : DataFrame) : DataFrame :=
  drop_duplicates_from [] df.

(** [df[mask]] for a mask computed row by row *)
Definition select (mask : Row -> bool) (df : DataFrame) : DataFrame :=
  filter (fun e => mask (snd e)) df.

(** ** [search_content] *)

Inductive search_outcome : Type :=
| NoQuery
| Matches (all_matches : DataFrame).

(** [input] is the line the user typed. *)
Definition search_content `{ReEngine} (df : DataFrame) (input : string)
  : result search_outcome :=
  let query := PyStr.strip input in
  if String.eqb query "" then Ok NoQuery
  else
    in_title <- str_contains query ;;
    let title_matches := select (fun r => in_title (title r)) df in
    in_cast <- str_contains query ;;
    let cast_matches := select (fun r => in_cast (cast r)) df in
    in_director <- str_contains query ;;
    let director_matches := select (fun r => in_director (director r)) df in
    in_description <- str_contains query ;;
    let description_matches :=
      select (fun r => in_description (description r)) df in
    Ok (Matches
          (drop_duplicates
             (title_matches ++ cast_matches ++ director_matches
              ++ description_matches))).

(** ** [content_recommender] *)

(** [numpy]'s choice of [n] positions out of [size] without replacement:
    each draw of the random state picks one of the positions still in the
    pool. *)
Fixpoint remove_at {A : Type} (i : nat) (l : list A) : list A :=
  match l, i with
  | [], _ => []
  | _ :: l', O => l'
  | x :: l', S j => x :: remove_at j l'
  end.

Fixpoint pick (pool : list nat) (n : nat) (random_state : list nat)
  : list nat :=
  match n with
  | O => []
  | S n' =>
      match pool with
      | [] => []
      | _ :: _ =>
          let i := hd 0 random_state mod length pool in
          nth i pool 0 :: pick (remove_at i pool) n' (tl random_state)
      end
  end.

Definition choice (size n : nat) (random_state : list nat) : list nat :=
  pick (seq 0 size) n random_state.

(** [DataFrame.take(positions)] *)
Definition take (df : DataFrame) (positions : list nat) : DataFrame :=
  flat_map (fun i => match nth_error df i with
                     | Some e => [e]
                     | None => []
                     end) positions.

(** [DataFrame.sample(n)]: more rows than the frame has is an error. *)
Definition sample (n : nat) (df : DataFrame) (random_state : list nat)
  : result DataFrame :=
  if length df <? n then Raise ValueError
  else Ok (take df (choice (length df) n random_state)).

Inductive recommendation : Type :=
| NoMatch
| Recommendations (found : nat) (rows : DataFrame).

(** [Series.str.split(sep)]: a missing cell stays missing. *)
Definition str_split (sep : string) (x : option string)
  : option (list string) :=
  option_map (PyStr.split sep) x.

(** [Series.explode()]: one row for every element of a list; a missing
    cell and an empty list give one missing row. *)
Definition explode_cell (x : option (list string)) : list (option string) :=
  match x with
  | Some (v :: l) => map Some (v :: l)
  | Some [] => [None]
  | None => [None]
  end.

Definition explode (col : list (option (list string)))
  : list (option string) :=
  flat_map explode_cell col.

(** [self.df[c].str.split(', ').explode()] *)
Definition split_explode (col : list (option string)) : list (option string) :=
  explode (map (str_split ", ") col).

(** [Series.unique()]: the distinct cells in the order of their first
    occurrences, the missing cell among them. *)
Fixpoint unique_cells_from (seen col : list (option string))
  : list (option string) :=
  match col with
  | [] => []
  | x :: rest =>
      if existsb (opt_eqb String.eqb x) seen
      then unique_cells_from seen rest
      else x :: unique_cells_from (x :: seen) rest
  end.

Definition unique_cells (col : list (option string)) : list (option string) :=
  unique_cells_from [] col.

(** The texts of the cells when none is missing. *)
Fixpoint all_present (cells : list (option string)) : option (list string) :=
  match cells with
  | [] => Some []
  | Some s :: rest => option_map (cons s) (all_present rest)
  | None :: _ => None
  end.

(** [sep.join(cells)]: a missing cell is a float, and [join] raises
    [TypeError] on it. *)
Definition join_cells (sep : string) (cells : list (option string))
  : type_error + string :=
  match all_present cells with
  | Some parts => inr (PyStr.join sep parts)
  | None => inl TypeError
  end.

(** [', '.join(all_genres[:10])] of the line "Available genres" *)
Definition available_genres (df : DataFrame) : type_error + string :=
  join_cells ", "
    (firstn 10 (unique_cells (split_explode (column listed_in df)))).

(** [', '.join(ratings)] of the line "Available ratings" *)
Definition available_ratings (df : DataFrame) : type_error + string :=
  join_cells ", " (unique_cells (column rating df)).

(** A line is printed before the next answer is read: an exception of the
    printing ends the method. *)
Definition printed {A : Type} (text : type_error + A) : result A :=
  match text with
  | inr a => Ok a
  | inl e => Raise (PrintError e)
  end.

(** The filter and the sample, from [filtered_df = self.df.copy()] on. *)
Definition filter_and_sample `{ReEngine} (df : DataFrame)
    (content_type_pref : option string) (genre rating_pref : string)
    (random_state : list nat) : result recommendation :=
  let filtered_df := df in
  let filtered_df :=
    match content_type_pref with
    | Some ct => select (fun r => String.eqb (content_type r) ct) filtered_df
    | None => filtered_df
    end in
  filtered_df <-
    (if String.eqb genre "" then Ok filtered_df
     else in_genres <- str_contains genre ;;
          Ok (select (fun r => in_genres (listed_in r)) filtered_df)) ;;
  let filtered_df :=
    if String.eqb rating_pref "" then filtered_df
    else select (fun r => opt_eqb String.eqb (rating r)
                            (Some (PyStr.upper rating_pref))) filtered_df in
  match filtered_df with
  | [] => Ok NoMatch
  | _ :: _ =>
      recommendations <-
        sample (Nat.min 5 (length filtered_df)) filtered_df random_state ;;
      Ok (Recommendations (length filtered_df) recommendations)
  end.

(** The method, with the three answers read at its prompts:
    [content_type_pref] is [None] for both kinds, [genre] and [rating_pref]
    are the stripped lines, empty when skipped.  The line of the genres is
    printed before the genre is read and the line of the ratings before the
    rating is read, both before anything is filtered. *)
Definition content_recommender `{ReEngine} (df : DataFrame)
    (content_type_pref : option string) (genre rating_pref : string)
    (random_state : list nat) : result recommendation :=
  _ <- printed (available_genres df) ;;
  _ <- printed (available_ratings df) ;;
  filter_and_sample df content_type_pref genre rating_pref random_state.

(** The test of the genre preference: none when the preference is empty. *)
Definition genre_filter `{ReEngine} (genre : string)
  : result (option (option string -> bool)) :=
  if String.eqb genre "" then Ok None
  else in_genres <- str_contains genre ;; Ok (Some in_genres).

(** The candidate rows of [content_recommender]: the rows that pass the
    three tests together. *)
Definition candidates (df : DataFrame) (content_type_pref : option string)
    (in_genres : option (option string -> bool)) (rating_pref : string)
  : DataFrame :=
  select
    (fun r =>
       match content_type_pref with
       | Some ct => String.eqb (content_type r) ct
       | None => true
       end
       && match in_genres with
          | Some f => f (listed_in r)
          | None => true
          end
       && (String.eqb rating_pref ""
           || opt_eqb String.eqb (rating r) (Some (PyStr.upper rating_pref))))
    df.

(** A row of the derived table and the record it comes from. *)
Definition derived_from (e : nat * RawRecord) (e' : nat * Row) : Prop :=
  fst e' = fst e
  /\ exists date dm se,
       date_cell (raw_date_added (snd e)) = Ok date
       /\ duration_min_of (raw_duration (snd e)) = Ok dm
       /\ float_cell dm = Ok dm
       /\ seasons_of (raw_duration (snd e)) = Ok se
       /\ float_cell se = Ok se
       /\ snd e' = derived_row (snd e) dm se.

(** ** The other reports *)

Definition genre_analysis (df : DataFrame) : list (string * nat) :=
  value_counts (split_explode (column listed_in df)).

Definition director_analysis (df : DataFrame) : list (string * nat) :=
  value_counts (split_explode (column director df)).

Definition cast_analysis (df : DataFrame) : list (string * nat) :=
  value_counts (split_explode (column cast df)).

(** The table [director_analysis] prints the head of. *)
Definition director_type (df : DataFrame) : CrossTab string string :=
  crosstab (column (fun r => (director r, Some (content_type r))) df).

(** [time_series_analysis]; the column [year_added] is in every frame that
    [preprocess_data] made. *)
Definition time_series_analysis (df : DataFrame) : list (Z * nat) :=
  sort_index (value_counts (column year_added df)).

(** The values of a cell as [str.split(', ')] gives them, not stripped;
    none for a missing cell. *)
Definition cell_values (x : option string) : list string :=
  match x with
  | Some s => PyStr.split ", " s
  | None => []
  end.

(** ** What the search and the recommender print *)

(** [s[:n]] *)
Definition str_prefix (n : nat) (s : string) : string :=
  String.substring 0 n s.

Inductive line : Type :=
| FoundLine (n : nat) (query : string)
| NoResultsLine (query : string)
| RecommendationsLine (n : nat)
| NoMatchLine
| TitleLine (idx : nat) (ttl : option string) (year : option Z)
| TypeLine (ct : string)
| GenreLine (g : option string)
| RatingLine (r : option string)
| DescriptionLine (d : string)
| MoreLine (n : nat).

(** The four lines printed before the description of a row. *)
Definition row_head (idx : nat) (row : Row) : list line :=
  [TitleLine idx (title row) (release_year row);
   TypeLine (content_type row);
   GenreLine (listed_in row);
   RatingLine (rating row)].

(** The lines of one row.  [row['description'][:100]] raises [TypeError]
    on a missing description, which is a float; the four lines before it
    are printed by then. *)
Definition print_row (idx : nat) (row : Row)
  : list line * option type_error :=
  match description row with
  | Some d => (row_head idx row ++ [DescriptionLine (str_prefix 100 d)], None)
  | None => (row_head idx row, Some TypeError)
  end.

(** The loop of [search_content] over [enumerate(all_matches.iterrows(), 1)]:
    after the row numbered 10 or more it prints how many results are left
    and stops.  [total] is [len(all_matches)]. *)
Fixpoint show_matches_from (total idx : nat) (rows : DataFrame)
  : list line * option type_error :=
  match rows with
  | [] => ([], None)
  | (_, row) :: rest =>
      match print_row idx row with
      | (printed, Some e) => (printed, Some e)
      | (printed, None) =>
          if 10 <=? idx then (printed ++ [MoreLine (total - 10)], None)
          else let (later, e) := show_matches_from total (S idx) rest in
               (printed ++ later, e)
      end
  end.

(** What [search_content] prints for [all_matches]. *)
Definition show_matches (query : string) (all_matches : DataFrame)
  : list line * option type_error :=
  match all_matches with
  | [] => ([NoResultsLine query], None)
  | _ :: _ =>
      let (lines, e) :=
        show_matches_from (length all_matches) 1 all_matches in
      (FoundLine (length all_matches) query :: lines, e)
  end.

(** The loop of [content_recommender] over the sampled rows. *)
Fixpoint show_rows_from (idx : nat) (rows : DataFrame)
  : list line * option type_error :=
  match rows with
  | [] => ([], None)
  | (_, row) :: rest =>
      match print_row idx row with
      | (printed, Some e) => (printed, Some e)
      | (printed, None) =>
          let (later, e) := show_rows_from (S idx) rest in
          (printed ++ later, e)
      end
  end.

(** What [content_recommender] prints for its outcome. *)
Definition show_recommendation (r : recommendation)
  : list line * option type_error :=
  match r with
  | NoMatch => ([NoMatchLine], None)
  | Recommendations found rows =>
      let (lines, e) := show_rows_from 1 rows in
      (RecommendationsLine found :: lines, e)
  end.

(** The title lines among the lines printed. *)
Definition is_title_line (l : line) : bool :=
  match l with
  | TitleLine _ _ _ => true
  | _ => false
  end.

(** The title lines of [rows], numbered from [idx]. *)
Fixpoint numbered (idx : nat) (rows : DataFrame) : list line :=
  match rows with
  | [] => []
  | (_, row) :: rest =>
      TitleLine idx (title row) (release_year row) :: numbered (S idx) rest
  end.

(** ** Sample rows *)

Definition raw_of (ttl dur : string) : RawRecord :=
  {| raw_title := Some ttl;
     raw_type := Some "Movie";
     raw_country := None;
     raw_release_year := Some 2020%Z;
     raw_rating := None;
     raw_duration := Some dur;
     raw_listed_in := None;
     raw_cast := None;
     raw_director := None;
     raw_description := None;
     raw_date_added := Some "not a date" |}.

Definition blank_row : Row :=
  {| title := None; type_ := None; country := None; release_year := None;
     rating := None; duration := None; listed_in := None; cast := None;
     director := None; description := None; date_added := None;
     year_added := None; month_added := None; day_added := None;
     duration_min := None; seasons := None; content_type := "TV Show" |}.

(** A movie with every text cell present. *)
Definition filled_row : Row :=
  {| title := Some "abc"; type_ := Some "Movie"; country := Some "India";
     release_year := Some 2020%Z; rating := Some "PG";
     duration := Some "90 min"; listed_in := Some "Dramas";
     cast := Some "Ann Lee"; director := Some "Bo Chan";
     description := Some "A quiet story"; date_added := None;
     year_added := None; month_added := None; day_added := None;
     duration_min := Some 90%Z; seasons := None; content_type := "Movie" |}.

Definition with_title (t : string) (r : Row) : Row :=
  {| title := Some t; type_ := type_ r; country := country r;
     release_year := release_year r; rating := rating r;
     duration := duration r; listed_in := listed_in r; cast := cast r;
     director := director r; description := description r;
     date_added := date_added r; year_added := year_added r;
     month_added := month_added r; day_added := day_added r;
     duration_min := duration_min r; seasons := seasons r;
     content_type := content_type r |}.

Definition with_description (d : string) (r : Row) : Row :=
  {| title := title r; type_ := type_ r; country := country r;
     release_year := release_year r; rating := rating r;
     duration := duration r; listed_in := listed_in r; cast := cast r;
     director := director r; description := Some d;
     date_added := date_added r; year_added := year_added r;
     month_added := month_added r; day_added := day_added r;
     duration_min := duration_min r; seasons := seasons r;
     content_type := content_type r |}.

Definition with_country (c : option string) (r : Row) : Row :=
  {| title := title r; type_ := type_ r; country := c;
     release_year := release_year r; rating := rating r;
     duration := duration r; listed_in := listed_in r; cast := cast r;
     director := director r; description := description r;
     date_added := date_added r; year_added := year_added r;
     month_added := month_added r; day_added := day_added r;
     duration_min := duration_min r; seasons := seasons r;
     content_type := content_type r |}.

Definition with_year_rating (y : option Z) (g : option string) (r : Row) : Row :=
  {| title := title r; type_ := type_ r; country := country r;
     release_year := y; rating := g;
     duration := duration r; listed_in := listed_in r; cast := cast r;
     director := director r; description := description r;
     date_added := date_added r; year_added := year_added r;
     month_added := month_added r; day_added := day_added r;
     duration_min := duration_min r; seasons := seasons r;
     content_type := content_type r |}.

Definition with_listed_in (g : string) (r : Row) : Row :=
  {| title := title r; type_ := type_ r; country := country r;
     release_year := release_year r; rating := rating r;
     duration := duration r; listed_in := Some g; cast := cast r;
     director := director r; description := description r;
     date_added := date_added r; year_added := year_added r;
     month_added := month_added r; day_added := day_added r;
     duration_min := duration_min r; seasons := seasons r;
     content_type := content_type r |}.

(** Two records of the year 2020, the second without rating. *)
Definition frame_missing_rating : DataFrame :=
  [(0, with_year_rating (Some 2020%Z) (Some "PG") blank_row);
   (1, with_year_rating (Some 2020%Z) None blank_row)].

(** Two records, the second without country. *)
Definition frame_missing_country : DataFrame :=
  [(0, with_country (Some "India") blank_row); (1, blank_row)].

(** The same two genres, listed in opposite orders. *)
Definition frame_opposite_orders : DataFrame :=
  [(0, with_listed_in "Dramas, Comedies" filled_row);
   (1, with_listed_in "Comedies, Dramas" filled_row)].

(** One record whose title is "abc". *)
Definition frame_abc : DataFrame := [(0, filled_row)].

(** Two records: the first matches "Smith" in its description only, the
    second in its title and in its description. *)
Definition frame_smith : DataFrame :=
  [(0, with_description "Smith returns" (with_title "The Return" filled_row));
   (1, with_description "A man named Smith" (with_title "Mr. Smith" filled_row))].

(** Two catalogue entries with the same values, and a third one. *)
Definition frame_twins : DataFrame :=
  [(0, with_title "Twin" filled_row);
   (1, with_title "Other" filled_row);
   (2, with_title "Twin" filled_row)].

(** The record [raw_of] with the text of a date. *)
Definition raw_added (ttl dur date : string) : RawRecord :=
  {| raw_title := Some ttl;
     raw_type := Some "Movie";
     raw_country := None;
     raw_release_year := Some 2020%Z;
     raw_rating := None;
     raw_duration := Some dur;
     raw_listed_in := None;
     raw_cast := None;
     raw_director := None;
     raw_description := None;
     raw_date_added := Some date |}.

(** Two records, the second without rating. *)
Definition frame_unrated : DataFrame :=
  [(0, filled_row); (1, with_year_rating (Some 2020%Z) None filled_row)].

(** One record whose description has three words, the later ones more
    often. *)
Definition frame_three_words : DataFrame :=
  [(0, with_description "aaaa bbbb bbbb cccc cccc cccc" filled_row)].

(** * Properties *)

(** ** Derived columns *)

Example split_genres :
  PyStr.split ", " "Dramas, International Movies"
  = ["Dramas"; "International Movies"].
Proof. reflexivity. Qed.

Example date_of_text :
  option_map (fun t => (dt_year t, dt_month_name t, dt_day_name t))
    (strptime_BdY "September 25, 2021")
  = Some (2021%Z, "September", "Saturday").
Proof. reflexivity. Qed.

Example date_leading_space : strptime_BdY " August 4, 2017" = None.
Proof. reflexivity. Qed.

Example minutes_of_movie : duration_min_of (Some "90 min") = Ok (Some 90%Z).
Proof. reflexivity. Qed.

Example seasons_of_show : seasons_of (Some "2 Seasons") = Ok (Some 2%Z).
Proof. reflexivity. Qed.

Lemma apply_cells_ok {A B : Type} (f : A -> result B) (col : list A) :
  (forall x, In x col -> exists y, f x = Ok y) ->
  exists ys, apply_cells f col = Ok ys /\ length ys = length col.
Proof.
  induction col as [|x col IH]; intros Hall; simpl.
  - exists []. split; reflexivity.
  - destruct (Hall x (or_introl eq_refl)) as [y Hy].
    destruct IH as [ys [Hys Hlen]].
    + intros z Hz. apply Hall. right. exact Hz.
    + exists (y :: ys). rewrite Hy, Hys. simpl. split; [reflexivity | lia].
Qed.

Lemma apply_cells_raise {A B : Type} (f : A -> result B) (col : list A) :
  (exists x e, In x col /\ f x = Raise e) ->
  exists e, apply_cells f col = Raise e.
Proof.
  induction col as [|x col IH]; intros [z [e [Hin Hz]]].
  - destruct Hin.
  - simpl. destruct (f x) as [y|e'] eqn:Hx.
    + destruct Hin as [->|Hin]; [congruence|].
      destruct IH as [e2 He2]; [exists z, e; auto|].
      exists e2. simpl. rewrite He2. reflexivity.
    + exists e'. reflexivity.
Qed.

(** A missing duration leaves both derived cells missing. *)
Lemma duration_missing :
  duration_min_of None = Ok None /\ seasons_of None = Ok None.
Proof. split; reflexivity. Qed.

(** The date cells never raise: a text that is no date gives missing
    cells. *)
Lemma derived_row_bad_date (r : RawRecord) (dm se : option Z) :
  to_datetime (raw_date_added r) = None ->
  let row := derived_row r dm se in
  date_added row = None /\ year_added row = None
  /\ month_added row = None /\ day_added row = None
  /\ title row = raw_title r /\ duration_min row = dm /\ seasons row = se.
Proof.
  intros Hd. simpl. unfold derived_row. simpl. rewrite Hd. simpl. tauto.
Qed.

(** C3, as the code has it: the two cells are computed independently of each
    other.  When the text before the first space is an integer literal,
    [duration_min] is that integer exactly when the text contains "min" and
    [seasons] is that integer exactly when the text contains "Season"; a
    text containing neither gives two missing cells, whatever it starts
    with. *)
Theorem duration_fields (x : string) :
  (forall n : Z,
      PyStr.int_of_string (first_field x) = Some n ->
      duration_min_of (Some x)
      = Ok (if PyStr.contains "min" x then Some n else None)
      /\ seasons_of (Some x)
         = Ok (if PyStr.contains "Season" x then Some n else None))
  /\ (PyStr.contains "min" x = false -> duration_min_of (Some x) = Ok None)
  /\ (PyStr.contains "Season" x = false -> seasons_of (Some x) = Ok None).
Proof.
  unfold duration_min_of, seasons_of, leading_int, PyStr.int. simpl.
  repeat split.
  - destruct (PyStr.contains "min" x); [rewrite H|]; reflexivity.
  - destruct (PyStr.contains "Season" x); [rewrite H|]; reflexivity.
  - intros ->. reflexivity.
  - intros ->. reflexivity.
Qed.

Lemma duration_fields_witness :
  duration_min_of (Some "90 min") = Ok (Some 90%Z)
  /\ seasons_of (Some "90 min") = Ok None.
Proof.
  destruct (duration_fields "90 min") as [H _].
  apply (H 90%Z). reflexivity.
Defined.

(** C3 as stated fails: a text containing both "min" and "Season" sets both
    cells. *)
Lemma duration_both_set :
  PyStr.contains "min" "1 Season (45 min)" = true
  /\ PyStr.contains "Season" "1 Season (45 min)" = true
  /\ duration_min_of (Some "1 Season (45 min)") = Ok (Some 1%Z)
  /\ seasons_of (Some "1 Season (45 min)") = Ok (Some 1%Z).
Proof. repeat split; reflexivity. Qed.

Lemma apply_cells_forall2 {A B : Type} (f : A -> result B) (col : list A) :
  forall ys,
    apply_cells f col = Ok ys <-> Forall2 (fun x y => f x = Ok y) col ys.
Proof.
  induction col as [|x col IH]; intros ys; simpl.
  - split.
    + intros E. inversion E. constructor.
    + intros F. inversion F. reflexivity.
  - split.
    + destruct (f x) as [y|e] eqn:Hx; simpl; [|discriminate].
      destruct (apply_cells f col) as [ys'|e] eqn:Hc; simpl; [|discriminate].
      intros E. inversion E. subst. constructor; [exact Hx|].
      apply IH. reflexivity.
    + intros F. inversion F as [|? y ? ys' Hx Hrest]. subst.
      rewrite Hx. simpl. apply IH in Hrest. rewrite Hrest. reflexivity.
Qed.

Lemma apply_cells_raise_inv {A B : Type} (f : A -> result B) (col : list A)
    (e : exn) :
  apply_cells f col = Raise e -> exists x, In x col /\ f x = Raise e.
Proof.
  induction col as [|x col IH]; simpl; [discriminate|].
  destruct (f x) as [y|e'] eqn:Hx; simpl.
  - destruct (apply_cells f col) as [ys|e'] eqn:Hc; simpl; [discriminate|].
    intros E. inversion E. subst.
    destruct (IH eq_refl) as [z [Hz Hf]]. exists z. auto.
  - intros E. inversion E. subst. exists x. auto.
Qed.

Lemma forall2_in_right {A B : Type} (R : A -> B -> Prop) (l : list A)
    (l' : list B) (y : B) :
  Forall2 R l l' -> In y l' -> exists x, In x l /\ R x y.
Proof.
  induction 1 as [|a b l l' Hab _ IH]; simpl; [tauto|].
  intros [<-|Hin]; [exists a; auto|].
  destruct (IH Hin) as [x [Hx Hr]]. exists x. auto.
Qed.

(** The cells stored are the cells computed. *)
Lemma float_cell_ok (x y : option Z) :
  float_cell x = Ok y <->
  y = x /\ forall n, x = Some n -> (Z.abs n <= 2 ^ 53)%Z.
Proof.
  unfold float_cell. destruct x as [n|].
  - destruct (Z.leb_spec (Z.abs n) (2 ^ 53)) as [Hle|Hgt]; split.
    + intros E. inversion E. split; [reflexivity|].
      intros m Hm. inversion Hm. subst. exact Hle.
    + intros [-> _]. reflexivity.
    + discriminate.
    + intros [_ Hn]. specialize (Hn n eq_refl). lia.
  - split.
    + intros E. inversion E. split; [reflexivity | discriminate].
    + intros [-> _]. reflexivity.
Qed.

Lemma float_cell_raise (x : option Z) (e : exn) :
  float_cell x = Raise e -> e = NotModelled.
Proof.
  unfold float_cell. destruct x as [n|]; [|discriminate].
  destruct (Z.abs n <=? 2 ^ 53)%Z; [discriminate|].
  intros E. inversion E. reflexivity.
Qed.

Lemma date_cell_ok (x : option string) (y : option Timestamp) :
  date_cell x = Ok y <->
  y = to_datetime x
  /\ forall t, to_datetime x = Some t -> date_in_range t = true.
Proof.
  unfold date_cell. destruct (to_datetime x) as [t|].
  - destruct (date_in_range t) eqn:Ht; split.
    + intros E. inversion E. split; [reflexivity|].
      intros u Hu. inversion Hu. subst. exact Ht.
    + intros [-> _]. reflexivity.
    + discriminate.
    + intros [_ Hn]. specialize (Hn t eq_refl). congruence.
  - split.
    + intros E. inversion E. split; [reflexivity | discriminate].
    + intros [-> _]. reflexivity.
Qed.

Lemma date_cell_raise (x : option string) (e : exn) :
  date_cell x = Raise e -> e = NotModelled.
Proof.
  unfold date_cell. destruct (to_datetime x) as [t|]; [|discriminate].
  destruct (date_in_range t); [discriminate|].
  intros E. inversion E. reflexivity.
Qed.

Lemma date_in_range_years (t : Timestamp) :
  date_in_range t = true <-> (1678 <= ts_year t <= 2261)%Z.
Proof.
  unfold date_in_range. rewrite andb_true_iff, !Z.leb_le. tauto.
Qed.

(** One record whose duration mentions "min" or "Season" after a first
    field that is no integer aborts the preprocessing of the whole table. *)
Lemma preprocess_raises (raw : RawFrame) (i : nat) (r : RawRecord) (d : string) :
  In (i, r) raw ->
  raw_duration r = Some d ->
  PyStr.contains "min" d || PyStr.contains "Season" d = true ->
  PyStr.int_of_string (first_field d) = None ->
  exists e, preprocess_data raw = Raise e.
Proof.
  intros Hin Hd Hc Hint. unfold preprocess_data.
  set (durations := map (fun e => raw_duration (snd e)) raw).
  assert (Hmem : In (Some d) durations).
  { unfold durations. apply in_map_iff. exists (i, r). split; auto. }
  destruct (apply_cells date_cell _) as [ds|e];
    [cbn [bind] | exists e; reflexivity].
  destruct (apply_cells duration_min_of durations) as [dms|e] eqn:H1;
    [cbn [bind] | exists e; reflexivity].
  destruct (apply_cells float_cell dms) as [f1|e];
    [cbn [bind] | exists e; reflexivity].
  destruct (PyStr.contains "min" d) eqn:Hmin.
  - destruct (apply_cells_raise duration_min_of durations) as [e He].
    + exists (Some d), ValueError. split; [exact Hmem|].
      unfold duration_min_of, leading_int, PyStr.int. simpl.
      rewrite Hmin, Hint. reflexivity.
    + congruence.
  - simpl in Hc.
    destruct (apply_cells_raise seasons_of durations) as [e He].
    + exists (Some d), ValueError. split; [exact Hmem|].
      unfold seasons_of, leading_int, PyStr.int. simpl.
      rewrite Hc, Hint. reflexivity.
    + exists e. rewrite He. reflexivity.
Qed.

Lemma assemble_forall2 (raw : RawFrame) :
  forall ds dms f1 ses f2,
    Forall2 (fun x y => date_cell x = Ok y)
            (map (fun e => raw_date_added (snd e)) raw) ds ->
    Forall2 (fun x y => duration_min_of x = Ok y)
            (map (fun e => raw_duration (snd e)) raw) dms ->
    Forall2 (fun x y => float_cell x = Ok y) dms f1 ->
    Forall2 (fun x y => seasons_of x = Ok y)
            (map (fun e => raw_duration (snd e)) raw) ses ->
    Forall2 (fun x y => float_cell x = Ok y) ses f2 ->
    Forall2 derived_from raw (assemble raw dms ses).
Proof.
  induction raw as [|[i r] raw IH]; intros ds dms f1 ses f2 H0 H1 F1 H2 F2;
    simpl in *.
  - constructor.
  - inversion H0 as [|? date ? ds' Hdate H0']. subst.
    inversion H1 as [|? dm ? dms' Hd H1']. subst.
    inversion H2 as [|? se ? ses' Hs H2']. subst.
    inversion F1 as [|? x1 ? f1' Hx1 F1']. subst.
    inversion F2 as [|? x2 ? f2' Hx2 F2']. subst.
    constructor; [|apply (IH ds' dms' f1' ses' f2'); assumption].
    split; [reflexivity|]. exists date, dm, se. simpl.
    apply float_cell_ok in Hx1 as Hy1. destruct Hy1 as [-> _].
    apply float_cell_ok in Hx2 as Hy2. destruct Hy2 as [-> _].
    auto 10.
Qed.

Lemma derived_from_cells (raw : RawFrame) (df : DataFrame) :
  Forall2 derived_from raw df ->
  exists ds dms ses,
    Forall2 (fun x y => date_cell x = Ok y)
            (map (fun e => raw_date_added (snd e)) raw) ds
    /\ Forall2 (fun x y => duration_min_of x = Ok y)
               (map (fun e => raw_duration (snd e)) raw) dms
    /\ Forall2 (fun x y => float_cell x = Ok y) dms dms
    /\ Forall2 (fun x y => seasons_of x = Ok y)
               (map (fun e => raw_duration (snd e)) raw) ses
    /\ Forall2 (fun x y => float_cell x = Ok y) ses ses
    /\ df = assemble raw dms ses.
Proof.
  induction 1
    as [|[i r] [i' row] raw df
         [Hi [date [dm [se [H0 [H1 [F1 [H2 [F2 Hrow]]]]]]]]] _ IH].
  - exists [], [], []. repeat split; constructor.
  - destruct IH as [ds [dms [ses [G0 [G1 [K1 [G2 [K2 ->]]]]]]]].
    exists (date :: ds), (dm :: dms), (se :: ses). simpl in *. subst.
    repeat split; constructor; assumption.
Qed.

(** The table of [preprocess_data] row by row. *)
Lemma preprocess_rows (raw : RawFrame) (df : DataFrame) :
  preprocess_data raw = Ok df <-> Forall2 derived_from raw df.
Proof.
  unfold preprocess_data. split.
  - destruct (apply_cells date_cell _) as [ds|e] eqn:H0; cbn [bind];
      [|discriminate].
    destruct (apply_cells duration_min_of _) as [dms|e] eqn:H1; cbn [bind];
      [|discriminate].
    destruct (apply_cells float_cell dms) as [f1|e] eqn:F1; cbn [bind];
      [|discriminate].
    destruct (apply_cells seasons_of _) as [ses|e] eqn:H2; cbn [bind];
      [|discriminate].
    destruct (apply_cells float_cell ses) as [f2|e] eqn:F2; cbn [bind];
      [|discriminate].
    intros E. inversion E. subst.
    apply (assemble_forall2 raw ds dms f1 ses f2);
      apply apply_cells_forall2; assumption.
  - intros F.
    destruct (derived_from_cells raw df F)
      as [ds [dms [ses [H0 [H1 [F1 [H2 [F2 ->]]]]]]]].
    apply apply_cells_forall2 in H0, H1, F1, H2, F2.
    rewrite H0. cbn [bind]. rewrite H1. cbn [bind]. rewrite F1. cbn [bind].
    rewrite H2. cbn [bind]. rewrite F2. reflexivity.
Qed.

Lemma derived_labels (raw : RawFrame) (df : DataFrame) :
  Forall2 derived_from raw df ->
  map fst df = map fst raw
  /\ map (fun e => title (snd e)) df = map (fun e => raw_title (snd e)) raw.
Proof.
  induction 1
    as [|e e' raw df [Hl [date [dm [se [_ [_ [_ [_ [_ Hrow]]]]]]]]] _ IH].
  - split; reflexivity.
  - destruct IH as [H1 H2]. simpl. rewrite H1, H2, Hl, Hrow.
    split; reflexivity.
Qed.

(** The cells of a duration when its first field is an integer. *)
Lemma duration_cells_ok (x : option string) :
  (forall d, x = Some d ->
     PyStr.contains "min" d || PyStr.contains "Season" d = true ->
     exists n, PyStr.int_of_string (first_field d) = Some n
               /\ (Z.abs n <= 2 ^ 53)%Z) ->
  exists dm se,
    duration_min_of x = Ok dm /\ float_cell dm = Ok dm
    /\ seasons_of x = Ok se /\ float_cell se = Ok se.
Proof.
  intros Hwf. destruct x as [d|].
  - unfold duration_min_of, seasons_of, leading_int, PyStr.int.
    cbn [PyStr.str].
    destruct (PyStr.contains "min" d || PyStr.contains "Season" d) eqn:Hc.
    + destruct (Hwf d eq_refl Hc) as [n [Hn Hr]]. rewrite Hn. cbn [bind].
      assert (Hf : float_cell (Some n) = Ok (Some n)).
      { apply float_cell_ok. split; [reflexivity|].
        intros m E. inversion E. subst. exact Hr. }
      destruct (PyStr.contains "min" d), (PyStr.contains "Season" d);
        eexists; eexists; repeat split; first [exact Hf | reflexivity].
    + apply orb_false_iff in Hc. destruct Hc as [-> ->].
      exists None, None. repeat split; reflexivity.
  - exists None, None. repeat split; reflexivity.
Qed.

(** When every duration is well formed, every record is derived, in the
    order of the input, whatever its date is (in the years modelled). *)
Lemma preprocess_well_formed (raw : RawFrame) :
  (forall e t, In e raw ->
     to_datetime (raw_date_added (snd e)) = Some t ->
     (1678 <= ts_year t <= 2261)%Z) ->
  (forall e, In e raw ->
     forall d, raw_duration (snd e) = Some d ->
       PyStr.contains "min" d || PyStr.contains "Season" d = true ->
       exists n, PyStr.int_of_string (first_field d) = Some n
                 /\ (Z.abs n <= 2 ^ 53)%Z) ->
  exists df, preprocess_data raw = Ok df
             /\ map fst df = map fst raw
             /\ map (fun e => title (snd e)) df
                = map (fun e => raw_title (snd e)) raw.
Proof.
  intros Hdate Hwf.
  assert (Hrows : exists df, Forall2 derived_from raw df).
  { induction raw as [|[i r] raw IH].
    - exists []. constructor.
    - destruct IH as [df Hdf].
      + intros e t He. apply Hdate. right. exact He.
      + intros e He. apply Hwf. right. exact He.
      + destruct (duration_cells_ok (raw_duration r))
          as [dm [se [H1 [F1 [H2 F2]]]]].
        { intros d Hd. apply (Hwf (i, r) (or_introl eq_refl) d Hd). }
        exists ((i, derived_row r dm se) :: df).
        constructor; [|exact Hdf].
        split; [reflexivity|].
        exists (to_datetime (raw_date_added r)), dm, se. cbn [fst snd].
        split; [|auto 10].
        apply date_cell_ok. split; [reflexivity|].
        intros t Ht. apply date_in_range_years.
        apply (Hdate (i, r) t (or_introl eq_refl) Ht). }
  destruct Hrows as [df Hdf]. exists df.
  split; [apply preprocess_rows; exact Hdf | apply derived_labels; exact Hdf].
Qed.

(** C2 does not hold of the code: a record whose duration is "1h 30min"
    makes [int] raise [ValueError] instead of leaving a missing cell, and
    the table is not produced. *)
Theorem preprocess_malformed_duration :
  duration_min_of (Some "1h 30min") = Raise ValueError
  /\ preprocess_data [(0, raw_of "A" "90 min"); (1, raw_of "B" "1h 30min")]
     = Raise ValueError.
Proof. split; reflexivity. Qed.

(** ** Keys *)

#[global] Instance Z_key_ok : PyKeyOk Z.
Proof. intros a b. apply Z.eqb_eq. Qed.

#[global] Instance string_key_ok : PyKeyOk string.
Proof. intros a b. apply String.eqb_eq. Qed.

#[global] Instance pair_key_ok {A B : Type} `{PyKeyOk A} `{PyKeyOk B} :
  PyKeyOk (A * B).
Proof.
  intros [a1 b1] [a2 b2]. simpl. rewrite andb_true_iff.
  rewrite !key_eqb_eq. split.
  - intros [-> ->]. reflexivity.
  - intros E. inversion E. auto.
Qed.

Section KeyFacts.

Context {K : Type} `{PyKeyOk K}.

Lemma key_eqb_refl (a : K) : key_eqb a a = true.
Proof. apply key_eqb_eq. reflexivity. Qed.

Lemma key_eqb_neq (a b : K) : key_eqb a b = false <-> a <> b.
Proof.
  split.
  - intros E ->. rewrite key_eqb_refl in E. discriminate.
  - intros N. destruct (key_eqb a b) eqn:E; [|reflexivity].
    apply key_eqb_eq in E. contradiction.
Qed.

Lemma key_eq_dec (a b : K) : {a = b} + {a <> b}.
Proof.
  destruct (key_eqb a b) eqn:E.
  - left. apply key_eqb_eq. exact E.
  - right. apply key_eqb_neq. exact E.
Qed.

Lemma existsb_key (a : K) (l : list K) :
  existsb (key_eqb a) l = true <-> In a l.
Proof.
  rewrite existsb_exists. split.
  - intros [x [Hx E]]. apply key_eqb_eq in E. subst. exact Hx.
  - intros Hin. exists a. split; [exact Hin | apply key_eqb_refl].
Qed.

(** *** Occurrences and first positions *)

Lemma occurrences_app (w : K) (l1 l2 : list K) :
  occurrences w (l1 ++ l2) = occurrences w l1 + occurrences w l2.
Proof. induction l1 as [|x l1 IH]; simpl; [reflexivity | rewrite IH; lia]. Qed.

Lemma occurrences_pos (w : K) (l : list K) :
  0 < occurrences w l <-> In w l.
Proof.
  induction l as [|x l IH]; simpl.
  - split; [lia | tauto].
  - destruct (key_eqb w x) eqn:E.
    + apply key_eqb_eq in E. subst. split; [auto | lia].
    + apply key_eqb_neq in E. rewrite IH. split.
      * auto.
      * intros [->|Hin]; [contradiction | exact Hin].
Qed.

Lemma occurrences_filter (p : K -> bool) (w : K) (l : list K) :
  p w = true -> occurrences w (filter p l) = occurrences w l.
Proof.
  intros Hp. induction l as [|x l IH]; simpl; [reflexivity|].
  destruct (p x) eqn:Hx; simpl.
  - rewrite IH. reflexivity.
  - destruct (key_eqb w x) eqn:E.
    + apply key_eqb_eq in E. congruence.
    + exact IH.
Qed.

Lemma occurrences_length_filter (w : K) (l : list K) :
  occurrences w l = length (filter (key_eqb w) l).
Proof.
  induction l as [|x l IH]; simpl; [reflexivity|].
  destruct (key_eqb w x); simpl; rewrite IH; reflexivity.
Qed.

Lemma first_index_in (w : K) (l l' : list K) :
  In w l -> first_index w (l ++ l') = first_index w l
            /\ first_index w l < length l.
Proof.
  induction l as [|x l IH]; simpl; [tauto|].
  intros Hin. destruct (key_eqb w x) eqn:E.
  - split; [reflexivity | lia].
  - apply key_eqb_neq in E. destruct Hin as [->|Hin]; [contradiction|].
    destruct (IH Hin) as [-> Hlt]. split; [reflexivity | lia].
Qed.

Lemma first_index_fresh (w : K) (l : list K) :
  ~ In w l -> first_index w (l ++ [w]) = length l.
Proof.
  induction l as [|x l IH]; simpl; intros Hn.
  - rewrite key_eqb_refl. reflexivity.
  - destruct (key_eqb w x) eqn:E.
    + apply key_eqb_eq in E. subst. tauto.
    + rewrite IH; tauto.
Qed.

(** Dropping other elements does not change which of two kept elements
    occurs first. *)
Lemma first_index_filter (p : K -> bool) (a b : K) (l : list K) :
  p a = true -> p b = true ->
  (first_index a (filter p l) < first_index b (filter p l)
   <-> first_index a l < first_index b l).
Proof.
  intros Ha Hb. induction l as [|x l IH]; simpl; [tauto|].
  destruct (key_eqb a x) eqn:Ea; destruct (key_eqb b x) eqn:Eb.
  - apply key_eqb_eq in Ea. subst x. rewrite Ha. simpl.
    rewrite key_eqb_refl, Eb. lia.
  - apply key_eqb_eq in Ea. subst x. rewrite Ha. simpl.
    rewrite key_eqb_refl, Eb. lia.
  - apply key_eqb_eq in Eb. subst x. rewrite Hb. simpl.
    rewrite key_eqb_refl, Ea. lia.
  - destruct (p x); simpl.
    + rewrite Ea, Eb. lia.
    + lia.
Qed.

(** *** The counter *)

Lemma get_count_incr (k k' : K) (m : list (K * nat)) :
  get_count k (incr k' m)
  = (if key_eqb k k' then 1 else 0) + get_count k m.
Proof.
  induction m as [|[k0 c] m IH]; simpl.
  - destruct (key_eqb k k'); reflexivity.
  - destruct (key_eqb k' k0) eqn:E; simpl.
    + apply key_eqb_eq in E. subst k0.
      destruct (key_eqb k k'); reflexivity.
    + destruct (key_eqb k k0) eqn:E0.
      * apply key_eqb_eq in E0. subst k0.
        destruct (key_eqb k k') eqn:E1; [|reflexivity].
        apply key_eqb_eq in E1. subst k'. rewrite key_eqb_refl in E.
        discriminate.
      * exact IH.
Qed.

Lemma keys_incr (k : K) (m : list (K * nat)) :
  map fst (incr k m)
  = map fst m ++ (if existsb (key_eqb k) (map fst m) then [] else [k]).
Proof.
  induction m as [|[k0 c] m IH]; simpl; [reflexivity|].
  destruct (key_eqb k k0) eqn:E; simpl.
  - rewrite app_nil_r. reflexivity.
  - rewrite IH. reflexivity.
Qed.

Lemma total_incr (k : K) (m : list (K * nat)) :
  list_sum (map snd (incr k m)) = S (list_sum (map snd m)).
Proof.
  induction m as [|[k0 c] m IH]; simpl; [reflexivity|].
  destruct (key_eqb k k0); simpl; [reflexivity | rewrite IH; lia].
Qed.

Lemma Counter_snoc (l : list K) (x : K) :
  Counter (l ++ [x]) = incr x (Counter l).
Proof. unfold Counter. rewrite fold_left_app. reflexivity. Qed.

Lemma get_count_Counter (k : K) (l : list K) :
  get_count k (Counter l) = occurrences k l.
Proof.
  induction l as [|x l IH] using rev_ind; [reflexivity|].
  rewrite Counter_snoc, get_count_incr, occurrences_app, IH. simpl. lia.
Qed.

Lemma total_Counter (l : list K) :
  list_sum (map snd (Counter l)) = length l.
Proof.
  induction l as [|x l IH] using rev_ind; [reflexivity|].
  rewrite Counter_snoc, total_incr, IH, length_app. simpl. lia.
Qed.

Lemma keys_Counter_in (k : K) (l : list K) :
  In k (map fst (Counter l)) <-> In k l.
Proof.
  revert k. induction l as [|x l IH] using rev_ind; intros k;
    [simpl; tauto|].
  rewrite Counter_snoc, keys_incr, !in_app_iff, IH.
  destruct (existsb (key_eqb x) (map fst (Counter l))) eqn:E; simpl.
  - apply existsb_key in E. apply IH in E.
    split; [tauto|]. intros [Hin|[->|[]]]; auto.
  - tauto.
Qed.

Lemma keys_Counter_nodup (l : list K) : NoDup (map fst (Counter l)).
Proof.
  induction l as [|x l IH] using rev_ind; [constructor|].
  rewrite Counter_snoc, keys_incr.
  destruct (existsb (key_eqb x) (map fst (Counter l))) eqn:E.
  - rewrite app_nil_r. exact IH.
  - apply NoDup_app; [exact IH | repeat constructor; simpl; tauto |].
    intros a Ha [<-|[]].
    apply existsb_key in Ha. congruence.
Qed.

Lemma get_count_absent (k : K) (m : list (K * nat)) :
  ~ In k (map fst m) -> get_count k m = 0.
Proof.
  induction m as [|[k0 c] m IH]; simpl; [reflexivity|].
  intros Hn. destruct (key_eqb k k0) eqn:E.
  - apply key_eqb_eq in E. subst. tauto.
  - apply IH. tauto.
Qed.

Lemma get_count_entry (k : K) (c : nat) (m : list (K * nat)) :
  NoDup (map fst m) -> In (k, c) m -> get_count k m = c.
Proof.
  induction m as [|[k0 c0] m IH]; simpl; [tauto|].
  intros Hnd [E|Hin].
  - inversion E. subst. rewrite key_eqb_refl. reflexivity.
  - inversion Hnd as [|? ? Hn Hnd']. subst.
    destruct (key_eqb k k0) eqn:E.
    + apply key_eqb_eq in E. subst k0. exfalso. apply Hn.
      apply in_map_iff. exists (k, c). auto.
    + apply IH; assumption.
Qed.

Lemma get_count_present (k : K) (m : list (K * nat)) :
  In k (map fst m) -> In (k, get_count k m) m.
Proof.
  induction m as [|[k0 c0] m IH]; simpl; [tauto|].
  intros Hin. destruct (key_eqb k k0) eqn:E.
  - apply key_eqb_eq in E. subst. left. reflexivity.
  - apply key_eqb_neq in E. destruct Hin as [->|Hin]; [contradiction|].
    right. apply IH. exact Hin.
Qed.

(** The entries of a counter are the elements with their numbers of
    occurrences. *)
Lemma Counter_entries (k : K) (c : nat) (l : list K) :
  In (k, c) (Counter l) <-> In k l /\ c = occurrences k l.
Proof.
  split.
  - intros Hin. split.
    + apply keys_Counter_in. apply in_map_iff. exists (k, c). auto.
    + rewrite <- get_count_Counter. symmetry.
      apply get_count_entry; [apply keys_Counter_nodup | exact Hin].
  - intros [Hin ->]. rewrite <- get_count_Counter.
    apply get_count_present. apply keys_Counter_in. exact Hin.
Qed.

End KeyFacts.

(** ** Sorting *)

Lemma StronglySorted_weaken {A : Type} (R R' : A -> A -> Prop) (l : list A) :
  (forall a b, In a l -> In b l -> R a b -> R' a b) ->
  StronglySorted R l -> StronglySorted R' l.
Proof.
  intros Himp Hs. induction Hs as [|a l Hs IH Hall]; constructor.
  - apply IH. intros x y Hx Hy. apply Himp; right; assumption.
  - rewrite Forall_forall in *. intros x Hx.
    apply Himp; [left; reflexivity | right; exact Hx | apply Hall; exact Hx].
Qed.

Lemma StronglySorted_snoc {A : Type} (R : A -> A -> Prop) (l : list A) (x : A) :
  StronglySorted R l -> Forall (fun a => R a x) l ->
  StronglySorted R (l ++ [x]).
Proof.
  intros Hs Hall. induction Hs as [|a l Hs IH Ha]; simpl.
  - repeat constructor.
  - inversion Hall; subst. constructor; [apply IH; assumption|].
    apply Forall_app. split; [exact Ha | repeat constructor; assumption].
Qed.

Lemma StronglySorted_map {A B : Type} (f : A -> B) (R : B -> B -> Prop)
    (l : list A) :
  StronglySorted (fun a b => R (f a) (f b)) l <-> StronglySorted R (map f l).
Proof.
  induction l as [|a l IH]; simpl.
  - split; constructor.
  - split; intros Hs; inversion Hs; subst; constructor;
      try (apply IH; assumption).
    + rewrite Forall_map. assumption.
    + rewrite Forall_map in *. assumption.
Qed.

Section SortFacts.

Context {K : Type} `{PyKeyOk K}.

Lemma insert_desc_perm (x : K * nat) (l : list (K * nat)) :
  Permutation (insert_desc x l) (x :: l).
Proof.
  induction l as [|y l IH]; simpl; [reflexivity|].
  destruct (snd x <? snd y).
  - rewrite IH. apply perm_swap.
  - reflexivity.
Qed.

Lemma sort_desc_perm (m : list (K * nat)) : Permutation (sort_desc m) m.
Proof.
  induction m as [|x m IH]; simpl; [reflexivity|].
  rewrite insert_desc_perm. constructor. exact IH.
Qed.

Lemma insert_key_perm (k : K) (l : list K) :
  Permutation (insert_key k l) (k :: l).
Proof.
  induction l as [|y l IH]; simpl; [reflexivity|].
  destruct (key_leb k y).
  - reflexivity.
  - rewrite IH. apply perm_swap.
Qed.

Lemma sort_keys_perm (l : list K) : Permutation (sort_keys l) l.
Proof.
  induction l as [|x l IH]; simpl; [reflexivity|].
  rewrite insert_key_perm. constructor. exact IH.
Qed.

(** Inserting an entry that precedes, in the order [pos], all the entries
    of a ranked list gives a ranked list. *)
Lemma insert_desc_sorted (pos : K -> nat) (x : K * nat) (l : list (K * nat)) :
  let R := fun a b : K * nat =>
             snd b < snd a \/ (snd a = snd b /\ pos (fst a) < pos (fst b)) in
  Forall (fun y => pos (fst x) < pos (fst y)) l ->
  StronglySorted R l -> StronglySorted R (insert_desc x l).
Proof.
  intros R Hpos Hs. induction Hs as [|y l Hs IH Hall]; simpl.
  - repeat constructor.
  - inversion Hpos as [|? ? Hy Hpos']. subst.
    destruct (snd x <? snd y) eqn:E.
    + apply Nat.ltb_lt in E. constructor; [apply IH; assumption|].
      eapply Permutation_Forall;
        [symmetry; apply insert_desc_perm|].
      constructor; [left; exact E | exact Hall].
    + apply Nat.ltb_ge in E. constructor; [constructor; assumption|].
      constructor.
      * unfold R. lia.
      * rewrite Forall_forall in *. intros z Hz.
        specialize (Hall z Hz). specialize (Hpos' z Hz). unfold R in *. lia.
Qed.

(** The stable sort by decreasing count of a list whose keys are in the
    order [pos] is ranked: counts decrease, equal counts keep the order. *)
Lemma sort_desc_sorted (pos : K -> nat) (m : list (K * nat)) :
  StronglySorted (fun a b => pos (fst a) < pos (fst b)) m ->
  StronglySorted
    (fun a b => snd b < snd a \/ (snd a = snd b /\ pos (fst a) < pos (fst b)))
    (sort_desc m).
Proof.
  intros Hs. induction Hs as [|x m Hs IH Hall]; simpl; [constructor|].
  apply insert_desc_sorted; [|exact IH].
  eapply Permutation_Forall;
    [symmetry; apply sort_desc_perm | exact Hall].
Qed.

(** The keys of a counter are in the order of their first occurrences. *)
Lemma keys_Counter_order (l : list K) :
  StronglySorted (fun a b => first_index a l < first_index b l)
                 (map fst (Counter l)).
Proof.
  induction l as [|x l IH] using rev_ind; [constructor|].
  rewrite Counter_snoc, keys_incr.
  assert (Hold : StronglySorted
                   (fun a b => first_index a (l ++ [x]) < first_index b (l ++ [x]))
                   (map fst (Counter l))).
  { apply StronglySorted_weaken with (2 := IH).
    intros a b Ha Hb Hlt.
    apply (proj1 (keys_Counter_in _ _)) in Ha.
    apply (proj1 (keys_Counter_in _ _)) in Hb.
    destruct (first_index_in a l [x] Ha) as [-> _].
    destruct (first_index_in b l [x] Hb) as [-> _]. exact Hlt. }
  destruct (existsb (key_eqb x) (map fst (Counter l))) eqn:E.
  - rewrite app_nil_r. exact Hold.
  - apply StronglySorted_snoc; [exact Hold|].
    apply Forall_forall. intros a Ha.
    apply (proj1 (keys_Counter_in _ _)) in Ha.
    destruct (first_index_in a l [x] Ha) as [-> Hlt].
    rewrite first_index_fresh; [exact Hlt|].
    intros Hx. apply (proj2 (keys_Counter_in _ _)) in Hx.
    apply (proj2 (existsb_key _ _)) in Hx. congruence.
Qed.

Lemma get_count_perm (k : K) (m m' : list (K * nat)) :
  NoDup (map fst m) -> Permutation m m' -> get_count k m = get_count k m'.
Proof.
  intros Hnd Hp.
  assert (Hnd' : NoDup (map fst m')).
  { apply Permutation_NoDup with (l := map fst m); [|exact Hnd].
    apply Permutation_map. exact Hp. }
  destruct (in_dec key_eq_dec k (map fst m)) as [Hin|Hn].
  - apply get_count_present in Hin.
    symmetry. apply get_count_entry; [exact Hnd'|].
    apply Permutation_in with (l := m); assumption.
  - rewrite (get_count_absent k m Hn). symmetry. apply get_count_absent.
    intros Hin. apply Hn.
    apply Permutation_in with (l := map fst m'); [|exact Hin].
    apply Permutation_map. symmetry. exact Hp.
Qed.

Lemma get_count_table (k : K) (f : K -> nat) (ks : list K) :
  get_count k (map (fun a => (a, f a)) ks) = if existsb (key_eqb k) ks then f k else 0.
Proof.
  induction ks as [|a ks IH]; simpl; [reflexivity|].
  destruct (key_eqb k a) eqn:E; simpl.
  - apply key_eqb_eq in E. subst. reflexivity.
  - exact IH.
Qed.

Lemma get_count_sort_index (k : K) (m : list (K * nat)) :
  get_count k (sort_index m) = get_count k m.
Proof.
  unfold sort_index. rewrite get_count_table.
  destruct (existsb (key_eqb k) (sort_keys (map fst m))) eqn:E; [reflexivity|].
  symmetry. apply get_count_absent. intros Hin.
  assert (Hex : existsb (key_eqb k) (sort_keys (map fst m)) = true).
  { apply existsb_key. apply Permutation_in with (l := map fst m);
      [symmetry; apply sort_keys_perm | exact Hin]. }
  congruence.
Qed.

Lemma keys_sort_index (m : list (K * nat)) :
  map fst (sort_index m) = sort_keys (map fst m).
Proof.
  unfold sort_index. rewrite map_map. simpl. apply map_id.
Qed.

(** [value_counts] counts the cells that are not missing. *)
Lemma get_count_value_counts (k : K) (col : list (option K)) :
  get_count k (value_counts col) = occurrences k (dropna col).
Proof.
  unfold value_counts. rewrite <- get_count_Counter.
  symmetry. apply get_count_perm; [apply keys_Counter_nodup|].
  symmetry. apply sort_desc_perm.
Qed.

Lemma total_value_counts (col : list (option K)) :
  list_sum (map snd (value_counts col)) = length (dropna col).
Proof.
  unfold value_counts. rewrite <- total_Counter.
  apply Permutation_list_sum. apply Permutation_map. apply sort_desc_perm.
Qed.

Lemma value_counts_entries (k : K) (c : nat) (col : list (option K)) :
  In (k, c) (value_counts col)
  <-> In (Some k) col /\ c = occurrences k (dropna col).
Proof.
  assert (Hd : In k (dropna col) <-> In (Some k) col).
  { induction col as [|[a|] col IH]; simpl; [tauto| |].
    - rewrite IH. split; intros [E|Hin]; auto; left; congruence.
    - rewrite IH. split; [auto|]. intros [E|Hin]; [discriminate | exact Hin]. }
  rewrite <- Hd, <- Counter_entries. unfold value_counts.
  split; apply Permutation_in;
    [apply sort_desc_perm | symmetry; apply sort_desc_perm].
Qed.

End SortFacts.

(** ** Keyword frequencies *)

Lemma rev_string_all (p : ascii -> bool) (s : string) :
  forall acc,
    PyStr.all_chars p (PyStr.rev_string acc s)
    = PyStr.all_chars p acc && PyStr.all_chars p s.
Proof.
  induction s as [|c s IH]; intros acc; simpl.
  - rewrite andb_true_r. reflexivity.
  - rewrite IH. simpl. destruct (p c), (PyStr.all_chars p acc); reflexivity.
Qed.

Lemma rev_string_empty (s : string) :
  forall acc, PyStr.rev_string acc s = "" -> acc = "" /\ s = "".
Proof.
  induction s as [|c s IH]; intros acc; simpl; [auto|].
  intros E. destruct (IH _ E) as [E' _]. discriminate.
Qed.

(** The tokens of [str.split()] are not empty and have no white space. *)
Lemma split_ws_tokens (s : string) :
  forall cur w,
    PyStr.all_chars (fun c => negb (PyStr.is_space c)) cur = true ->
    In w (PyStr.split_ws_go cur s) ->
    w <> "" /\ PyStr.all_chars (fun c => negb (PyStr.is_space c)) w = true.
Proof.
  induction s as [|c s IH]; intros cur w Hcur; simpl.
  - destruct cur as [|a cur]; [intros []|].
    intros [<-|[]]. split.
    + intros E. apply rev_string_empty in E. destruct E; discriminate.
    + rewrite rev_string_all. exact Hcur.
  - destruct (PyStr.is_space c) eqn:Ec.
    + destruct cur as [|a cur]; [apply IH; reflexivity|].
      intros [<-|Hin]; [|apply (IH "" w eq_refl Hin)]. split.
      * intros E. apply rev_string_empty in E. destruct E; discriminate.
      * rewrite rev_string_all. exact Hcur.
    + apply IH. simpl. rewrite Ec. exact Hcur.
Qed.

Lemma keep_word_constants (w : string) :
  keep_word w = keep_word_with stop_words 4 w.
Proof. reflexivity. Qed.

Lemma keep_word_with_spec (stop : list string) (min_len : nat) (w : string) :
  keep_word_with stop min_len w = true
  <-> in_set w stop = false /\ min_len <= String.length w.
Proof.
  unfold keep_word_with. rewrite andb_true_iff, negb_true_iff, Nat.leb_le.
  tauto.
Qed.

(** ** Counts over one column *)

Example value_counts_of_column :
  value_counts [Some "a"; None; Some "b"; Some "b"; Some "c"]
  = [("b", 2); ("a", 1); ("c", 1)].
Proof. reflexivity. Qed.

Section ColumnCounts.

Context {K : Type} `{PyKeyOk K}.

Lemma dropna_length (f : Row -> option K) (df : DataFrame) :
  length (dropna (column f df)) = count_rows (fun r => is_some (f r)) df.
Proof.
  unfold count_rows, column.
  induction df as [|[i r] df IH]; simpl; [reflexivity|].
  destruct (f r); simpl; rewrite IH; reflexivity.
Qed.

Lemma dropna_occurrences (f : Row -> option K) (k : K) (df : DataFrame) :
  occurrences k (dropna (column f df))
  = count_rows (fun r => opt_eqb key_eqb (f r) (Some k)) df.
Proof.
  unfold count_rows, column.
  induction df as [|[i r] df IH]; simpl; [reflexivity|].
  destruct (f r) as [a|]; simpl; [|exact IH].
  rewrite IH. destruct (key_eqb k a) eqn:E.
  - apply key_eqb_eq in E. subst. rewrite key_eqb_refl. reflexivity.
  - apply key_eqb_neq in E.
    destruct (key_eqb a k) eqn:E'; [|reflexivity].
    apply key_eqb_eq in E'. congruence.
Qed.

End ColumnCounts.

(** C1, as the code has it: [value_counts] drops the records whose key is
    missing.  Every key of the result is a value some record has, with the
    number of records that have it, and the counts add up to the number of
    records whose key is not missing. *)
Theorem value_counts_drops_missing (df : DataFrame) :
  list_sum (map snd (country_analysis df))
  = count_rows (fun r => is_some (country r)) df
  /\ list_sum (map snd (rating_analysis df))
     = count_rows (fun r => is_some (rating r)) df
  /\ (forall k c,
        In (k, c) (country_analysis df)
        <-> 0 < c
            /\ c = count_rows
                     (fun r => opt_eqb String.eqb (country r) (Some k)) df)
  /\ (forall k c,
        In (k, c) (rating_analysis df)
        <-> 0 < c
            /\ c = count_rows
                     (fun r => opt_eqb String.eqb (rating r) (Some k)) df).
Proof.
  assert (Hgen : forall (f : Row -> option string) k c,
             In (k, c) (value_counts (column f df))
             <-> 0 < c
                 /\ c = count_rows
                          (fun r => opt_eqb String.eqb (f r) (Some k)) df).
  { intros f k c. rewrite value_counts_entries.
    change String.eqb with (@key_eqb string string_key).
    rewrite <- (dropna_occurrences f k df).
    assert (Hd : In (Some k) (column f df)
                 <-> 0 < occurrences k (dropna (column f df))).
    { rewrite occurrences_pos. unfold column.
      induction df as [|[i r] df IH]; simpl; [tauto|].
      destruct (f r) as [a|]; simpl; rewrite IH.
      - split; intros [E|Hin]; auto; left; congruence.
      - split; [|auto]. intros [E|Hin]; [discriminate | exact Hin]. }
    rewrite Hd. split; intros [Hp ->]; auto. }
  unfold country_analysis, rating_analysis.
  rewrite !total_value_counts, !dropna_length.
  split; [reflexivity|]. split; [reflexivity|].
  split; intros k c; apply Hgen.
Qed.

(** C1 as stated fails: a record without country is in no bucket, and the
    counts add up to less than the number of records. *)
Lemma country_counts_lose_missing :
  country_analysis frame_missing_country = [("India", 1)]
  /\ list_sum (map snd (country_analysis frame_missing_country))
     <> length frame_missing_country.
Proof. split; [reflexivity | discriminate]. Qed.

(** ** Cross tabulation *)

Example crosstab_of_columns :
  crosstab [(Some 2020%Z, Some "PG"); (Some 2019%Z, Some "R");
            (Some 2020%Z, None); (Some 2020%Z, Some "G")]
  = mkCrossTab [2019%Z; 2020%Z] ["G"; "PG"; "R"] [[0; 0; 1]; [1; 1; 0]].
Proof. reflexivity. Qed.

Section CrossTabFacts.

Context {A B : Type} `{PyKeyOk A} `{PyKeyOk B}.

Lemma lookup_row_table (a : A) (F : A -> list nat) (idx : list A) :
  lookup_row a idx (map F idx)
  = if existsb (key_eqb a) idx then Some (F a) else None.
Proof.
  induction idx as [|a' idx IH]; simpl; [reflexivity|].
  destruct (key_eqb a a') eqn:E; simpl.
  - apply key_eqb_eq in E. subst. reflexivity.
  - exact IH.
Qed.

Lemma list_sum_zero {X : Type} (l : list X) :
  list_sum (map (fun _ => 0) l) = 0.
Proof. induction l; simpl; auto. Qed.

Lemma list_sum_plus {X : Type} (f g : X -> nat) (l : list X) :
  list_sum (map (fun x => f x + g x) l)
  = list_sum (map f l) + list_sum (map g l).
Proof. induction l as [|x l IH]; simpl; [reflexivity | rewrite IH; lia]. Qed.

(** Over distinct columns, exactly one column is the one of a given pair. *)
Lemma one_column (a a' : A) (b' : B) (cols : list B) :
  NoDup cols -> In b' cols ->
  list_sum (map (fun b => if key_eqb (a, b) (a', b') then 1 else 0) cols)
  = if key_eqb a a' then 1 else 0.
Proof.
  intros Hnd Hin. simpl. destruct (key_eqb a a'); simpl.
  - induction Hnd as [|b cols Hn Hnd IH]; [destruct Hin|].
    simpl. destruct (key_eqb b b') eqn:E.
    + apply key_eqb_eq in E. subst b.
      rewrite (map_ext_in _ (fun _ => 0)), list_sum_zero; [reflexivity|].
      intros x Hx. destruct (key_eqb x b') eqn:E; [|reflexivity].
      apply key_eqb_eq in E. subst. contradiction.
    + apply key_eqb_neq in E. destruct Hin as [->|Hin]; [contradiction|].
      apply IH. exact Hin.
  - apply list_sum_zero.
Qed.

Lemma sum_over_columns (a : A) (ps : list (A * B)) (cols : list B) :
  NoDup cols ->
  (forall p, In p ps -> In (snd p) cols) ->
  list_sum (map (fun b => occurrences (a, b) ps) cols)
  = length (filter (fun p => key_eqb a (fst p)) ps).
Proof.
  intros Hnd Hall. induction ps as [|[a' b'] ps IH].
  - simpl. apply list_sum_zero.
  - cbn [occurrences filter fst].
    rewrite list_sum_plus, IH by (intros p Hp; apply Hall; right; exact Hp).
    rewrite one_column;
      [|exact Hnd | apply (Hall (a', b')); left; reflexivity].
    destruct (key_eqb a a'); reflexivity.
Qed.

Lemma group_keys_in (p : A * B) (rows : list (option A * option B)) :
  In p (group_keys rows) <-> In (Some (fst p), Some (snd p)) rows.
Proof.
  destruct p as [a b]. simpl.
  induction rows as [|[[a'|] [b'|]] rows IH]; simpl; [tauto| | | |].
  - rewrite IH. split; intros [E|Hin]; auto; left; congruence.
  - rewrite IH. split; [auto|]. intros [E|Hin]; [discriminate | exact Hin].
  - rewrite IH. split; [auto|]. intros [E|Hin]; [discriminate | exact Hin].
  - rewrite IH. split; [auto|]. intros [E|Hin]; [discriminate | exact Hin].
Qed.

(** The sum of the row of [a] is the number of rows of the frame whose
    first key is [a] and whose second key is not missing. *)
Lemma row_total_count (rows : list (option A * option B)) (a : A) :
  row_total (crosstab rows) a
  = length (filter (fun p => key_eqb a (fst p)) (group_keys rows)).
Proof.
  unfold row_total, ct_row, crosstab, unstack. cbn [ct_index ct_values].
  set (ps := group_keys rows).
  set (g := groupby_size rows).
  assert (Hg : forall p, get_count p g = occurrences p ps).
  { intros p. unfold g, groupby_size.
    rewrite get_count_sort_index. apply get_count_Counter. }
  assert (Hkeys : forall p, In p (map fst g) <-> In p ps).
  { intros p. unfold g, groupby_size. rewrite keys_sort_index.
    rewrite <- (keys_Counter_in p ps). fold ps. split; apply Permutation_in;
      [apply sort_keys_perm | symmetry; apply sort_keys_perm]. }
  set (idx := sort_keys (unique (map (fun e => fst (fst e)) g))).
  set (cols := sort_keys (unique (map (fun e => snd (fst e)) g))).
  assert (Hcols : NoDup cols /\ forall p, In p ps -> In (snd p) cols).
  { split.
    - apply Permutation_NoDup with (l := unique (map (fun e => snd (fst e)) g)).
      + symmetry. apply sort_keys_perm.
      + apply keys_Counter_nodup.
    - intros p Hp. apply Permutation_in
        with (l := unique (map (fun e => snd (fst e)) g)).
      + symmetry. apply sort_keys_perm.
      + unfold unique. apply (proj2 (keys_Counter_in _ _)).
        apply (proj2 (Hkeys p)) in Hp.
        apply in_map_iff in Hp. destruct Hp as [e [<- He]].
        apply in_map_iff. exists e. auto. }
  assert (Hidx' : forall p, In p ps -> In (fst p) idx).
  { intros p Hp. apply Permutation_in
      with (l := unique (map (fun e => fst (fst e)) g)).
    - symmetry. apply sort_keys_perm.
    - unfold unique. apply (proj2 (keys_Counter_in _ _)).
      apply (proj2 (Hkeys p)) in Hp.
      apply in_map_iff in Hp. destruct Hp as [e [<- He]].
      apply in_map_iff. exists e. auto. }
  rewrite lookup_row_table.
  destruct (existsb (key_eqb a) idx) eqn:E.
  - rewrite (map_ext _ (fun b => occurrences (a, b) ps))
      by (intros b; apply Hg).
    apply sum_over_columns; tauto.
  - symmetry. apply length_zero_iff_nil.
    destruct (filter (fun p => key_eqb a (fst p)) ps) as [|p l] eqn:F;
      [reflexivity|].
    assert (Hp : In p (filter (fun p => key_eqb a (fst p)) ps))
      by (rewrite F; left; reflexivity).
    apply filter_In in Hp. destruct Hp as [Hp Ha].
    apply key_eqb_eq in Ha. subst a. apply Hidx' in Hp.
    apply (proj2 (existsb_key _ _)) in Hp. congruence.
Qed.

Lemma group_keys_count (fa : Row -> option A) (fb : Row -> option B)
    (df : DataFrame) (a : A) :
  length (filter (fun p => key_eqb a (fst p))
            (group_keys (column (fun r => (fa r, fb r)) df)))
  + count_rows
      (fun r => opt_eqb key_eqb (fa r) (Some a) && negb (is_some (fb r))) df
  = count_rows (fun r => opt_eqb key_eqb (fa r) (Some a)) df.
Proof.
  unfold count_rows, column.
  induction df as [|[i r] df IH]; simpl; [reflexivity|].
  destruct (fa r) as [x|]; destruct (fb r) as [y|]; simpl; try exact IH.
  - destruct (key_eqb a x) eqn:E.
    + apply key_eqb_eq in E. subst. rewrite key_eqb_refl. simpl. lia.
    + apply key_eqb_neq in E. destruct (key_eqb x a) eqn:E'.
      * apply key_eqb_eq in E'. congruence.
      * simpl. exact IH.
  - destruct (key_eqb x a); simpl; lia.
Qed.

End CrossTabFacts.

Lemma row_total_plus_missing {A B : Type} `{PyKeyOk A} `{PyKeyOk B}
    (fa : Row -> option A) (fb : Row -> option B) (df : DataFrame) (a : A) :
  row_total (crosstab (column (fun r => (fa r, fb r)) df)) a
  + count_rows
      (fun r => opt_eqb key_eqb (fa r) (Some a) && negb (is_some (fb r))) df
  = get_count a (value_counts (column fa df)).
Proof.
  rewrite row_total_count, group_keys_count, get_count_value_counts.
  symmetry. apply dropna_occurrences.
Qed.

(** C9, as the code has it: [groupby] drops the records in which one of the
    two keys is missing.  For any two key selectors, the sum of the row of
    an outer key over all inner keys, plus the number of records with that
    outer key whose inner key is missing, is the single-key count of the
    outer key; so it is for the rating-by-year table against the counts by
    release year. *)
Theorem crosstab_row_totals {A B : Type} `{PyKeyOk A} `{PyKeyOk B}
    (fa : Row -> option A) (fb : Row -> option B) (df : DataFrame) (a : A) :
  row_total (crosstab (column (fun r => (fa r, fb r)) df)) a
  + count_rows
      (fun r => opt_eqb key_eqb (fa r) (Some a) && negb (is_some (fb r))) df
  = get_count a (value_counts (column fa df))
  /\ forall y : Z,
       row_total (rating_by_year df) y
       + count_rows
           (fun r => opt_eqb Z.eqb (release_year r) (Some y)
                     && negb (is_some (rating r))) df
       = get_count y (release_year_analysis df).
Proof.
  split; [apply row_total_plus_missing|].
  intros y. unfold release_year_analysis. rewrite get_count_sort_index.
  exact (row_total_plus_missing release_year rating df y).
Qed.

Lemma crosstab_row_totals_witness :
  row_total (rating_by_year frame_missing_rating) 2020%Z + 1
  = get_count 2020%Z (value_counts (column release_year frame_missing_rating)).
Proof.
  exact (proj1 (@crosstab_row_totals Z string _ Z_key_ok _ string_key_ok
                  release_year rating frame_missing_rating 2020%Z)).
Defined.

(** C9 as stated fails: a record without rating is counted for its year but
    is in no cell of the rating-by-year table. *)
Lemma rating_by_year_loses_missing :
  ct_row (rating_by_year frame_missing_rating) 2020%Z = Some [1]
  /\ release_year_analysis frame_missing_rating = [(2020%Z, 2)]
  /\ row_total (rating_by_year frame_missing_rating) 2020%Z
     <> get_count 2020%Z (release_year_analysis frame_missing_rating).
Proof. repeat split; try reflexivity. discriminate. Qed.

(** ** Genre pairs *)

Example pairs_of_three_genres :
  cell_pairs (Some "Dramas, Comedies, Thrillers")
  = [("Dramas", "Comedies"); ("Dramas", "Thrillers");
     ("Comedies", "Thrillers")].
Proof. reflexivity. Qed.

Lemma nth_seq_all {A : Type} (d : A) (l : list A) :
  map (fun j => nth j l d) (seq 0 (length l)) = l.
Proof.
  induction l as [|x l IH]; simpl; [reflexivity|].
  f_equal. rewrite <- seq_shift, map_map. exact IH.
Qed.

(** The two nested loops enumerate the pairs of an earlier and a later
    element. *)
Lemma index_pairs_eq (genres : list string) :
  index_pairs genres = pairs_of (map PyStr.strip genres).
Proof.
  unfold index_pairs.
  induction genres as [|x rest IH]; [reflexivity|].
  cbn [length seq flat_map pairs_of map].
  f_equal.
  - cbn [Nat.add Nat.sub nth]. rewrite Nat.sub_0_r.
    rewrite <- seq_shift, map_map. cbn [nth].
    rewrite !map_map. rewrite <- (nth_seq_all "" rest) at 2.
    rewrite map_map. reflexivity.
  - rewrite <- IH, <- seq_shift, flat_map_concat_map, map_map.
    rewrite flat_map_concat_map. f_equal. apply map_ext. intros i.
    cbn [Nat.add Nat.sub nth length].
    rewrite <- seq_shift, map_map. reflexivity.
Qed.

Lemma cell_pairs_eq (x : option string) :
  cell_pairs x = pairs_of (genres_of x).
Proof.
  destruct x as [s|]; [|reflexivity].
  unfold cell_pairs, genres_of.
  destruct (1 <? length (PyStr.split ", " s)) eqn:E.
  - apply index_pairs_eq.
  - apply Nat.ltb_ge in E.
    destruct (PyStr.split ", " s) as [|a [|b l]]; simpl in *;
      [reflexivity | reflexivity | lia].
Qed.

Section PairFacts.

Context {A : Type}.

Lemma pairs_of_length (l : list A) :
  2 * length (pairs_of l) = length l * (length l - 1).
Proof.
  induction l as [|x l IH]; simpl; [reflexivity|].
  rewrite length_app, length_map, Nat.sub_0_r.
  destruct l as [|y l]; simpl in *; [reflexivity|].
  rewrite Nat.sub_0_r in IH. nia.
Qed.

Lemma pairs_of_in (a b : A) (l : list A) :
  In (a, b) (pairs_of l) -> In a l /\ In b l.
Proof.
  induction l as [|x l IH]; simpl; [tauto|].
  rewrite in_app_iff, in_map_iff.
  intros [[y [E Hy]]|Hin].
  - inversion E. subst. auto.
  - destruct (IH Hin). auto.
Qed.

(** A pair is listed when its first component stands before its second
    one in the list. *)
Lemma pairs_of_split (a b : A) (l : list A) :
  In (a, b) (pairs_of l)
  <-> exists l1 l2 l3, l = l1 ++ a :: l2 ++ b :: l3.
Proof.
  split.
  - induction l as [|x l IH]; simpl; [tauto|].
    rewrite in_app_iff, in_map_iff.
    intros [[y [E Hy]]|Hin].
    + inversion E. subst. apply in_split in Hy.
      destruct Hy as [l2 [l3 ->]]. exists [], l2, l3. reflexivity.
    + destruct (IH Hin) as [l1 [l2 [l3 ->]]].
      exists (x :: l1), l2, l3. reflexivity.
  - intros [l1 [l2 [l3 ->]]].
    induction l1 as [|x l1 IH]; simpl; rewrite in_app_iff.
    + left. apply in_map. apply in_app_iff. right. left. reflexivity.
    + right. exact IH.
Qed.

Lemma map_pair_nodup (x : A) (l : list A) :
  NoDup l -> NoDup (map (pair x) l).
Proof.
  induction 1 as [|y l Hn Hnd IH]; simpl; constructor; [|exact IH].
  rewrite in_map_iff. intros [z [E Hz]]. inversion E. subst. contradiction.
Qed.

Lemma pairs_of_nodup (l : list A) : NoDup l -> NoDup (pairs_of l).
Proof.
  induction 1 as [|x l Hn Hnd IH]; simpl; [constructor|].
  apply NoDup_app.
  - apply map_pair_nodup. exact Hnd.
  - exact IH.
  - intros [a b] Hm Hp. apply in_map_iff in Hm.
    destruct Hm as [y [E Hy]]. inversion E. subst.
    apply pairs_of_in in Hp. tauto.
Qed.

Lemma pairs_of_asym (a b : A) (l : list A) :
  NoDup l -> In (a, b) (pairs_of l) ->
  a <> b /\ ~ In (b, a) (pairs_of l).
Proof.
  induction 1 as [|x l Hn Hnd IH]; simpl; [tauto|].
  rewrite !in_app_iff, !in_map_iff.
  intros [[y [E Hy]]|Hin].
  - inversion E. subst. split; [congruence|].
    intros [[z [E' Hz]]|Hp].
    + inversion E'. subst. contradiction.
    + apply pairs_of_in in Hp. tauto.
  - destruct (IH Hin) as [Hne Hno]. split; [exact Hne|].
    intros [[z [E' Hz]]|Hp]; [|contradiction].
    inversion E'. subst. apply pairs_of_in in Hin. tauto.
Qed.

Lemma pairs_of_total (a b : A) (l : list A) :
  In a l -> In b l -> a <> b ->
  In (a, b) (pairs_of l) \/ In (b, a) (pairs_of l).
Proof.
  induction l as [|x l IH]; simpl; [tauto|].
  rewrite !in_app_iff.
  intros [->|Ha] [->|Hb] Hne.
  - contradiction.
  - left. left. apply in_map. exact Hb.
  - right. left. apply in_map. exact Ha.
  - destruct (IH Ha Hb Hne); auto.
Qed.

End PairFacts.

Lemma occurrences_nodup {K : Type} `{PyKeyOk K} (x : K) (l : list K) :
  NoDup l ->
  (In x l -> occurrences x l = 1) /\ (~ In x l -> occurrences x l = 0).
Proof.
  induction 1 as [|y l Hn Hnd IH]; simpl; [tauto|].
  destruct IH as [IH1 IH0].
  destruct (key_eqb x y) eqn:E.
  - apply key_eqb_eq in E. subst. split; [|tauto].
    intros _. rewrite IH0; auto.
  - apply key_eqb_neq in E. split.
    + intros [->|Hin]; [contradiction | auto].
    + intros Hno. apply IH0. tauto.
Qed.

Lemma genre_pairs_snoc (df : DataFrame) (e : nat * Row) :
  genre_pairs (df ++ [e]) = genre_pairs df ++ cell_pairs (listed_in (snd e)).
Proof.
  unfold genre_pairs, column. rewrite map_app, flat_map_app. simpl.
  rewrite app_nil_r. reflexivity.
Qed.

(** C5, as the code has it: a pair is the ordered tuple of an earlier and a
    later entry of the genre list of a record.  A record with [k] genre
    values adds [k (k - 1) / 2] increments, one for every pair of
    positions; each adds one to the counter of its tuple.  When the values
    of the record are pairwise distinct, the tuples are distinct, none is a
    self-pair, and of the two orders of two values exactly the one in list
    order is incremented, once. *)
Theorem genre_pair_increments (df : DataFrame) (e : nat * Row) :
  let gs := genres_of (listed_in (snd e)) in
  cell_pairs (listed_in (snd e)) = pairs_of gs
  /\ 2 * length (pairs_of gs) = length gs * (length gs - 1)
  /\ (forall a b,
        In (a, b) (pairs_of gs)
        <-> exists l1 l2 l3, gs = l1 ++ a :: l2 ++ b :: l3)
  /\ (forall p,
        get_count p (pair_counts (df ++ [e]))
        = get_count p (pair_counts df) + occurrences p (pairs_of gs))
  /\ (NoDup gs ->
      NoDup (pairs_of gs)
      /\ (forall a, occurrences (a, a) (pairs_of gs) = 0)
      /\ (forall a b,
            In a gs -> In b gs -> a <> b ->
            occurrences (a, b) (pairs_of gs)
            + occurrences (b, a) (pairs_of gs) = 1)).
Proof.
  intros gs. split; [apply cell_pairs_eq|].
  split; [apply pairs_of_length|].
  split; [intros a b; apply pairs_of_split|].
  split.
  - intros p. unfold pair_counts.
    rewrite !get_count_Counter, genre_pairs_snoc, occurrences_app.
    rewrite cell_pairs_eq. reflexivity.
  - intros Hnd. pose proof (pairs_of_nodup gs Hnd) as Hp.
    split; [exact Hp|]. split.
    + intros a. apply (occurrences_nodup (a, a) _ Hp).
      intros Hin. apply (pairs_of_asym a a gs Hnd) in Hin. tauto.
    + intros a b Ha Hb Hne.
      destruct (pairs_of_total a b gs Ha Hb Hne) as [Hin|Hin].
      * rewrite (proj1 (occurrences_nodup (a, b) _ Hp) Hin).
        rewrite (proj2 (occurrences_nodup (b, a) _ Hp)); [reflexivity|].
        apply (pairs_of_asym a b gs Hnd Hin).
      * rewrite (proj1 (occurrences_nodup (b, a) _ Hp) Hin).
        rewrite (proj2 (occurrences_nodup (a, b) _ Hp)); [reflexivity|].
        apply (pairs_of_asym b a gs Hnd Hin).
Qed.

Lemma genre_pair_increments_witness :
  NoDup (pairs_of ["Dramas"; "Comedies"; "Thrillers"])
  /\ occurrences ("Dramas", "Thrillers")
       (pairs_of ["Dramas"; "Comedies"; "Thrillers"])
     + occurrences ("Thrillers", "Dramas")
         (pairs_of ["Dramas"; "Comedies"; "Thrillers"]) = 1.
Proof.
  pose proof (genre_pair_increments []
                (0, with_listed_in "Dramas, Comedies, Thrillers" filled_row))
    as [_ [_ [_ [_ H]]]].
  simpl in H.
  assert (Hnd : NoDup ["Dramas"; "Comedies"; "Thrillers"]).
  { repeat constructor; simpl; intuition discriminate. }
  destruct (H Hnd) as [H1 [_ H2]].
  split; [exact H1|].
  apply H2; simpl; auto. discriminate.
Defined.

(** C5 as stated fails: the same two genres listed in opposite orders
    increment two different counters, and a value listed twice in a record
    makes a self-pair. *)
Lemma genre_pairs_are_ordered :
  pair_counts frame_opposite_orders
  = [(("Dramas", "Comedies"), 1); (("Comedies", "Dramas"), 1)]
  /\ cell_pairs (Some "Dramas, Dramas") = [("Dramas", "Dramas")].
Proof. split; reflexivity. Qed.

(** ** Regular expressions *)

Example compile_operators :
  Re.compile "a*b\.c?"
  = Re.Pattern [(Re.Lit "a", Re.Star); (Re.Lit "b", Re.One);
                (Re.Lit ".", Re.One); (Re.Lit "c", Re.Opt)]%char.
Proof. reflexivity. Qed.

Example compile_errors :
  Re.compile "(" = Re.Invalid /\ Re.compile "*" = Re.Invalid
  /\ Re.compile ")" = Re.Invalid /\ Re.compile "[a-z]" = Re.Unsupported.
Proof. repeat split; reflexivity. Qed.

Lemma token_of_plain_char (c : ascii) :
  Re.is_meta c = false ->
  Re.token_of_char c = Re.TAtom (Re.Lit c) /\ Ascii.eqb c "\" = false.
Proof.
  unfold Re.token_of_char, Re.is_meta. cbn [existsb].
  intros Hm. repeat (apply orb_false_elim in Hm; destruct Hm as [? Hm]).
  repeat match goal with
         | E : Ascii.eqb c _ = false |- _ => rewrite E; clear E
         end.
  cbn. split; reflexivity.
Qed.

Lemma tokens_plain (q : string) :
  is_plain q = true ->
  match q with
  | EmptyString => Re.tokens q = []
  | String c q' => Re.tokens q = Re.TAtom (Re.Lit c) :: Re.tokens q'
  end.
Proof.
  destruct q as [|c q']; [reflexivity|]. simpl.
  rewrite andb_true_iff, negb_true_iff. intros [Hc _].
  destruct (token_of_plain_char c Hc) as [-> ->]. reflexivity.
Qed.

(** A text without special characters compiles to its own characters. *)
Lemma compile_plain (q : string) :
  is_plain q = true -> Re.compile q = Re.Pattern (Re.literal q).
Proof.
  unfold Re.compile. induction q as [|c q IH]; intros Hp; [reflexivity|].
  rewrite (tokens_plain _ Hp).
  assert (Hq : is_plain q = true).
  { simpl in Hp. apply andb_true_iff in Hp. tauto. }
  specialize (IH Hq). pose proof (tokens_plain q Hq) as Ht.
  destruct q as [|c' q'].
  - rewrite Ht. reflexivity.
  - rewrite Ht.
    change (Re.parse (Re.TAtom (Re.Lit c) :: Re.TAtom (Re.Lit c')
                        :: Re.tokens q'))
      with (Re.cons_item (Re.Lit c, Re.One)
              (Re.parse (Re.TAtom (Re.Lit c') :: Re.tokens q'))).
    rewrite <- Ht, IH. reflexivity.
Qed.

Lemma match_here_literal (q s : string) :
  Re.match_here (Re.literal q) s = prefix (PyStr.lower q) (PyStr.lower s).
Proof.
  revert s. induction q as [|c q IH]; intros s.
  - destruct s; reflexivity.
  - destruct s as [|b s]; [reflexivity|]. simpl.
    rewrite IH.
    destruct (ascii_dec (PyStr.to_lower c) (PyStr.to_lower b)) as [E|E].
    + rewrite E, Ascii.eqb_refl. reflexivity.
    + destruct (Ascii.eqb_spec (PyStr.to_lower b) (PyStr.to_lower c));
        [congruence | reflexivity].
Qed.

(** Searching for the characters of a text is looking for the text, letter
    case ignored. *)
Lemma search_literal (q s : string) :
  Re.search (Re.literal q) s
  = PyStr.contains (PyStr.lower q) (PyStr.lower s).
Proof.
  induction s as [|b s IH].
  - simpl. rewrite match_here_literal. reflexivity.
  - cbn [Re.search PyStr.contains PyStr.lower]. rewrite match_here_literal, IH.
    reflexivity.
Qed.

(** ** Duplicate rows *)

Lemma filter_filter {A : Type} (p q : A -> bool) (l : list A) :
  filter p (filter q l) = filter (fun x => q x && p x) l.
Proof.
  induction l as [|x l IH]; simpl; [reflexivity|].
  destruct (q x); simpl; [destruct (p x)|]; rewrite IH; reflexivity.
Qed.

Lemma opt_eqb_spec {A : Type} (eqb : A -> A -> bool) :
  (forall a b, eqb a b = true <-> a = b) ->
  forall x y, opt_eqb eqb x y = true <-> x = y.
Proof.
  intros Hspec [a|] [b|]; simpl.
  - rewrite Hspec. split; congruence.
  - split; discriminate.
  - split; discriminate.
  - tauto.
Qed.

Lemma Timestamp_eqb_spec (t u : Timestamp) :
  Timestamp_eqb t u = true <-> t = u.
Proof.
  destruct t as [y m d], u as [y' m' d']. unfold Timestamp_eqb. simpl.
  rewrite !andb_true_iff, Z.eqb_eq, !Nat.eqb_eq.
  split; [intros [[-> ->] ->]; reflexivity | intros E; inversion E; auto].
Qed.

Lemma Row_eqb_spec (r1 r2 : Row) : Row_eqb r1 r2 = true <-> r1 = r2.
Proof.
  unfold Row_eqb. rewrite !andb_true_iff.
  rewrite !(opt_eqb_spec String.eqb String.eqb_eq).
  rewrite !(opt_eqb_spec Z.eqb Z.eqb_eq).
  rewrite (opt_eqb_spec Timestamp_eqb Timestamp_eqb_spec), String.eqb_eq.
  destruct r1, r2. simpl. split.
  - intros E. decompose [and] E. subst. reflexivity.
  - intros E. inversion E. subst. tauto.
Qed.

Lemma seen_iff (r : Row) (seen : list Row) :
  existsb (Row_eqb r) seen = true <-> In r seen.
Proof.
  rewrite existsb_exists. split.
  - intros [x [Hx E]]. apply Row_eqb_spec in E. subst. exact Hx.
  - intros Hin. exists r. split; [exact Hin | apply Row_eqb_spec; reflexivity].
Qed.

Lemma seen_ext (r : Row) (s1 s2 : list Row) :
  (In r s1 <-> In r s2) ->
  existsb (Row_eqb r) s1 = existsb (Row_eqb r) s2.
Proof.
  intros Hiff.
  destruct (existsb (Row_eqb r) s1) eqn:E1;
    destruct (existsb (Row_eqb r) s2) eqn:E2; try reflexivity.
  - apply seen_iff, Hiff, seen_iff in E1. congruence.
  - apply seen_iff, Hiff, seen_iff in E2. congruence.
Qed.

(** Only the set of the rows seen so far matters. *)
Lemma drop_duplicates_ext (df : DataFrame) :
  forall s1 s2,
    (forall r, In r s1 <-> In r s2) ->
    drop_duplicates_from s1 df = drop_duplicates_from s2 df.
Proof.
  induction df as [|e df IH]; intros s1 s2 Hiff; simpl; [reflexivity|].
  rewrite (seen_ext (snd e) s1 s2 (Hiff _)).
  destruct (existsb (Row_eqb (snd e)) s2).
  - apply IH. exact Hiff.
  - f_equal. apply IH. intros r. simpl. rewrite Hiff. tauto.
Qed.

Lemma drop_duplicates_app (l1 l2 : DataFrame) :
  forall seen,
    drop_duplicates_from seen (l1 ++ l2)
    = drop_duplicates_from seen l1
      ++ drop_duplicates_from (map snd l1 ++ seen) l2.
Proof.
  induction l1 as [|e l1 IH]; intros seen; simpl; [reflexivity|].
  destruct (existsb (Row_eqb (snd e)) seen) eqn:E.
  - rewrite IH. f_equal. apply drop_duplicates_ext.
    intros r. simpl. rewrite !in_app_iff. apply seen_iff in E.
    split; [tauto|]. intros [<-|[H|H]]; auto.
  - simpl. rewrite IH. do 2 f_equal. apply drop_duplicates_ext.
    intros r. simpl. rewrite !in_app_iff. simpl. tauto.
Qed.

Lemma drop_duplicates_seen (s : list Row) (df : DataFrame) :
  forall seen,
    drop_duplicates_from (s ++ seen) df
    = filter (fun e => negb (existsb (Row_eqb (snd e)) s))
             (drop_duplicates_from seen df).
Proof.
  induction df as [|e df IH]; intros seen; simpl; [reflexivity|].
  rewrite existsb_app.
  destruct (existsb (Row_eqb (snd e)) s) eqn:Es;
    destruct (existsb (Row_eqb (snd e)) seen) eqn:En; simpl.
  - apply IH.
  - rewrite Es. simpl. rewrite <- IH. apply drop_duplicates_ext.
    intros r. rewrite !in_app_iff. simpl. apply seen_iff in Es.
    split; [tauto|]. intros [H|[<-|H]]; auto.
  - apply IH.
  - rewrite Es. simpl. f_equal. rewrite <- IH. apply drop_duplicates_ext.
    intros r. simpl. rewrite !in_app_iff. simpl. tauto.
Qed.

Lemma drop_duplicates_subset (df : DataFrame) :
  forall seen e, In e (drop_duplicates_from seen df) -> In e df.
Proof.
  induction df as [|x df IH]; intros seen e; simpl; [tauto|].
  destruct (existsb (Row_eqb (snd x)) seen).
  - intros Hin. right. apply (IH _ _ Hin).
  - intros [->|Hin]; [left; reflexivity | right; apply (IH _ _ Hin)].
Qed.

(** Selecting rows by their values and dropping duplicates commute. *)
Lemma drop_duplicates_select (p : Row -> bool) (df : DataFrame) :
  forall seen,
    drop_duplicates_from seen (select p df)
    = select p (drop_duplicates_from seen df).
Proof.
  unfold select.
  induction df as [|e df IH]; intros seen; simpl; [reflexivity|].
  destruct (p (snd e)) eqn:Hp; simpl.
  - destruct (existsb (Row_eqb (snd e)) seen); simpl.
    + apply IH.
    + rewrite Hp. f_equal. apply IH.
  - destruct (existsb (Row_eqb (snd e)) seen); simpl.
    + apply IH.
    + rewrite Hp, IH.
      change (snd e :: seen) with ([snd e] ++ seen).
      rewrite drop_duplicates_seen, filter_filter.
      apply filter_ext. intros x. simpl. rewrite orb_false_r.
      destruct (Row_eqb (snd x) (snd e)) eqn:E; [|reflexivity].
      apply Row_eqb_spec in E. simpl. congruence.
Qed.

(** The rows kept have pairwise different values, none of them seen
    before. *)
Lemma drop_duplicates_nodup (df : DataFrame) :
  forall seen,
    NoDup (map snd (drop_duplicates_from seen df))
    /\ forall r, In r (map snd (drop_duplicates_from seen df)) -> ~ In r seen.
Proof.
  induction df as [|e df IH]; intros seen; simpl.
  - split; [constructor | tauto].
  - destruct (existsb (Row_eqb (snd e)) seen) eqn:E; [apply IH|].
    destruct (IH (snd e :: seen)) as [Hnd Hfresh]. simpl. split.
    + constructor; [|exact Hnd].
      intros Hin. apply (Hfresh _ Hin). left. reflexivity.
    + intros r [<-|Hin].
      * intros Hs. apply seen_iff in Hs. congruence.
      * intros Hs. apply (Hfresh _ Hin). right. exact Hs.
Qed.

(** Every value of the frame is seen before or kept. *)
Lemma drop_duplicates_values (df : DataFrame) :
  forall seen r,
    In r (map snd df) ->
    In r seen \/ In r (map snd (drop_duplicates_from seen df)).
Proof.
  induction df as [|e df IH]; intros seen r; simpl; [tauto|].
  destruct (existsb (Row_eqb (snd e)) seen) eqn:E.
  - intros [<-|Hin]; [left; apply seen_iff; exact E | apply IH; exact Hin].
  - simpl. intros [<-|Hin]; [auto|].
    destruct (IH (snd e :: seen) r Hin) as [[<-|H]|H]; auto.
Qed.

Lemma select_values (p : Row -> bool) (df : DataFrame) (r : Row) :
  In r (map snd (select p df)) <-> In r (map snd df) /\ p r = true.
Proof.
  unfold select. rewrite !in_map_iff. split.
  - intros [e [<- He]]. apply filter_In in He. destruct He as [He Hp].
    split; [exists e; auto | exact Hp].
  - intros [[e [<- He]] Hp]. exists e. split; [reflexivity|].
    apply filter_In. auto.
Qed.

(** The rows a later match list adds to the result: those it selects that
    no earlier list selects. *)
Lemma drop_duplicates_later (s : list Row) (p q : Row -> bool)
    (df : DataFrame) :
  (forall r, In r (map snd df) -> (In r s <-> q r = true)) ->
  drop_duplicates_from s (select p df)
  = select (fun r => p r && negb (q r)) (drop_duplicates df).
Proof.
  intros Hs. rewrite <- (app_nil_r s), drop_duplicates_seen.
  rewrite drop_duplicates_select. fold (drop_duplicates df).
  unfold select. rewrite filter_filter.
  apply filter_ext_in. intros e He.
  assert (Hin : In (snd e) (map snd df)).
  { apply in_map. apply (drop_duplicates_subset df [] e He). }
  f_equal. f_equal.
  destruct (q (snd e)) eqn:Hq.
  - apply seen_iff. apply Hs; assumption.
  - destruct (existsb (Row_eqb (snd e)) s) eqn:E; [|reflexivity].
    apply seen_iff in E. apply Hs in E; [congruence | exact Hin].
Qed.

(** ** Search *)

Lemma search_content_eq {engine : ReEngine} (df : DataFrame) (input : string)
    (found : string -> bool) :
  PyStr.strip input <> "" ->
  re_compile (PyStr.strip input) = Ok found ->
  search_content df input
  = Ok (Matches
          (drop_duplicates
             (select (fun r => cell_test found (title r)) df
              ++ select (fun r => cell_test found (cast r)) df
              ++ select (fun r => cell_test found (director r)) df
              ++ select (fun r => cell_test found (description r)) df))).
Proof.
  intros Hq Hc. unfold search_content.
  apply String.eqb_neq in Hq. rewrite Hq.
  unfold str_contains. rewrite Hc. reflexivity.
Qed.

(** The result of the four match lists, list by list. *)
Lemma drop_duplicates_four (t c d s : Row -> bool) (df : DataFrame) :
  drop_duplicates (select t df ++ select c df ++ select d df ++ select s df)
  = select t (drop_duplicates df)
    ++ select (fun r => c r && negb (t r)) (drop_duplicates df)
    ++ select (fun r => d r && negb (t r || c r)) (drop_duplicates df)
    ++ select (fun r => s r && negb (t r || c r || d r)) (drop_duplicates df).
Proof.
  unfold drop_duplicates at 1.
  rewrite drop_duplicates_app, drop_duplicates_app, drop_duplicates_app.
  rewrite drop_duplicates_select. fold (drop_duplicates df).
  f_equal. f_equal; [|f_equal].
  - apply drop_duplicates_later. intros r Hr.
    rewrite app_nil_r, select_values. tauto.
  - apply drop_duplicates_later. intros r Hr.
    rewrite app_nil_r, in_app_iff, !select_values, orb_true_iff. tauto.
  - apply drop_duplicates_later. intros r Hr.
    rewrite app_nil_r, !in_app_iff, !select_values, !orb_true_iff. tauto.
Qed.

(** C4, as the code has it: for a query that is not blank and that the
    engine of regular expressions compiles, whatever the engine, the result
    is the four match lists (title, cast, director, description, each in
    record order) put end to end, with every row dropped that has the
    values of an earlier row.  So the result
    is the title matches, then the cast matches not among them, then the
    director matches not yet included, then the description matches not yet
    included, each taken from the records without duplicates; no two rows of
    the result have the same values. *)
Theorem search_concat_dedup {engine : ReEngine} (df : DataFrame)
    (input : string) (found : string -> bool) :
  PyStr.strip input <> "" ->
  re_compile (PyStr.strip input) = Ok found ->
  let hit := fun (col : Row -> option string) (r : Row) =>
               cell_test found (col r) in
  let kept := drop_duplicates df in
  exists all_matches,
    search_content df input = Ok (Matches all_matches)
    /\ all_matches
       = drop_duplicates
           (select (hit title) df ++ select (hit cast) df
            ++ select (hit director) df ++ select (hit description) df)
    /\ all_matches
       = select (hit title) kept
         ++ select (fun r => hit cast r && negb (hit title r)) kept
         ++ select (fun r => hit director r
                             && negb (hit title r || hit cast r)) kept
         ++ select (fun r => hit description r
                             && negb (hit title r || hit cast r
                                      || hit director r)) kept
    /\ NoDup (map snd all_matches).
Proof.
  intros Hq Hc hit kept. eexists. split; [|split; [|split]].
  - apply (search_content_eq df input found Hq Hc).
  - reflexivity.
  - apply drop_duplicates_four.
  - apply drop_duplicates_nodup.
Qed.

Lemma search_concat_dedup_witness :
  exists all_matches,
    search_content frame_smith "Smith" = Ok (Matches all_matches)
    /\ map fst all_matches = [1; 0].
Proof.
  destruct (@search_concat_dedup fragment_engine frame_smith "Smith"
              (Re.search (Re.literal "Smith")))
    as [all_matches [E [_ [H _]]]].
  - discriminate.
  - reflexivity.
  - exists all_matches. split; [exact E|]. rewrite H. reflexivity.
Defined.

(** C4 as stated fails: for the query "(", which is not empty, the search
    returns no list: the compiler of regular expressions raises. *)
Lemma search_raises_on_open_parenthesis :
  PyStr.strip "(" <> "" /\ search_content frame_smith "(" = Raise ReError.
Proof. split; [discriminate | reflexivity]. Qed.

(** The values of the result are the values of the frame that match in one
    of the four columns. *)
Lemma search_values (df : DataFrame) (t c d s : Row -> bool) (r : Row) :
  In r (map snd (drop_duplicates
                   (select t df ++ select c df ++ select d df
                    ++ select s df)))
  <-> In r (map snd df) /\ t r || c r || d r || s r = true.
Proof.
  set (all := select t df ++ select c df ++ select d df ++ select s df).
  assert (Hall : In r (map snd all)
                 <-> In r (map snd df) /\ t r || c r || d r || s r = true).
  { unfold all. rewrite !map_app, !in_app_iff, !select_values.
    rewrite !orb_true_iff. tauto. }
  rewrite <- Hall. split.
  - intros Hin. apply in_map_iff in Hin. destruct Hin as [e [<- He]].
    apply in_map. apply (drop_duplicates_subset all [] e He).
  - intros Hin.
    destruct (drop_duplicates_values all [] r Hin) as [[]|H]. exact H.
Qed.

(** C6, as the code has it: the query is compiled as a regular expression.
    For a query without special characters the test of a cell is containment
    of the query in the text of the cell, letter case ignored, and a missing
    cell never matches.  This one test is the genre test of the recommender,
    and the search returns the rows that pass it in the title, the cast, the
    director or the description. *)
Theorem plain_query_is_containment (query : string) :
  is_plain query = true ->
  query <> "" ->
  exists test,
    str_contains query = Ok test
    /\ (forall x, test x = contains_ignoring_case query x)
    /\ genre_filter query = Ok (Some test)
    /\ forall df input,
         PyStr.strip input = query ->
         exists all_matches,
           search_content df input = Ok (Matches all_matches)
           /\ forall r,
                In r (map snd all_matches)
                <-> In r (map snd df)
                    /\ test (title r) || test (cast r)
                       || test (director r) || test (description r) = true.
Proof.
  intros Hp Hq. exists (cell_test (Re.search (Re.literal query))).
  assert (Hc : re_compile query = Ok (Re.search (Re.literal query))).
  { unfold re_compile, fragment_engine, Re.compile_search.
    rewrite (compile_plain _ Hp). reflexivity. }
  split; [unfold str_contains; rewrite Hc; reflexivity|].
  split; [intros [s|]; [apply search_literal | reflexivity]|].
  split.
  - unfold genre_filter, str_contains. apply String.eqb_neq in Hq.
    rewrite Hq, Hc. reflexivity.
  - intros df input Hs. subst query. eexists. split.
    + apply (search_content_eq df input _ Hq Hc).
    + intros r. apply search_values.
Qed.

Lemma plain_query_is_containment_witness :
  exists test,
    str_contains "stranger" = Ok test
    /\ test (Some "Stranger Things") = true
    /\ test None = false.
Proof.
  destruct (plain_query_is_containment "stranger" eq_refl)
    as [test [E [Ht _]]].
  - discriminate.
  - exists test. split; [exact E|]. rewrite !Ht. split; reflexivity.
Defined.

(** C6 as stated fails: the query "." returns a record none of whose four
    texts has a dot, and the query "(" raises the error of the compiler of
    regular expressions, in the search and in the recommender. *)
Lemma search_is_regex :
  search_content frame_abc "." = Ok (Matches frame_abc)
  /\ contains_ignoring_case "." (title filled_row) = false
  /\ contains_ignoring_case "." (cast filled_row) = false
  /\ contains_ignoring_case "." (director filled_row) = false
  /\ contains_ignoring_case "." (description filled_row) = false
  /\ search_content frame_abc "(" = Raise ReError
  /\ content_recommender frame_abc None "(" "" [] = Raise ReError.
Proof. repeat split; reflexivity. Qed.

Lemma same_values_same_label (l : DataFrame) (k k' : nat) (r : Row) :
  NoDup (map snd l) -> In (k, r) l -> In (k', r) l -> k = k'.
Proof.
  induction l as [|[i x] l IH]; simpl; [tauto|].
  intros Hnd H1 H2. inversion Hnd as [|? ? Hn Hnd']. subst.
  destruct H1 as [E1|H1]; destruct H2 as [E2|H2].
  - congruence.
  - inversion E1. subst. exfalso. apply Hn.
    apply in_map_iff. exists (k', r). auto.
  - inversion E2. subst. exfalso. apply Hn.
    apply in_map_iff. exists (k, r). auto.
  - apply IH; assumption.
Qed.

Lemma one_row_of_value (l : DataFrame) (r : Row) :
  NoDup (map snd l) -> In r (map snd l) -> count_rows (Row_eqb r) l = 1.
Proof.
  unfold count_rows.
  induction l as [|[i x] l IH]; simpl; [tauto|].
  intros Hnd Hin. inversion Hnd as [|? ? Hn Hnd']. subst.
  destruct (Row_eqb r x) eqn:E.
  - apply Row_eqb_spec in E. subst x. simpl. f_equal.
    apply length_zero_iff_nil.
    destruct (filter (fun e => Row_eqb r (snd e)) l) as [|y l'] eqn:F;
      [reflexivity|].
    assert (Hy : In y (filter (fun e => Row_eqb r (snd e)) l))
      by (rewrite F; left; reflexivity).
    apply filter_In in Hy. destruct Hy as [Hy E].
    apply Row_eqb_spec in E. subst r. exfalso. apply Hn.
    apply in_map. exact Hy.
  - destruct Hin as [->|Hin].
    + assert (Row_eqb r r = true) by (apply Row_eqb_spec; reflexivity).
      congruence.
    + apply IH; assumption.
Qed.

(** C10: duplicates are rows with equal values, whatever their labels.  When
    two entries of the catalogue have the same values and the query matches
    them, whatever the engine of regular expressions, the result has exactly one row with these values: the two entries
    are not both returned. *)
Theorem search_drops_equal_rows {engine : ReEngine} (df : DataFrame)
    (input : string) (found : string -> bool) (i j : nat) (r : Row) :
  PyStr.strip input <> "" ->
  re_compile (PyStr.strip input) = Ok found ->
  i <> j -> In (i, r) df -> In (j, r) df ->
  cell_test found (title r) || cell_test found (cast r)
  || cell_test found (director r) || cell_test found (description r) = true ->
  exists all_matches,
    search_content df input = Ok (Matches all_matches)
    /\ count_rows (Row_eqb r) all_matches = 1
    /\ (exists k, In (k, r) all_matches
                  /\ forall k', In (k', r) all_matches -> k' = k)
    /\ ~ (In (i, r) all_matches /\ In (j, r) all_matches).
Proof.
  intros Hq Hc Hij Hi Hj Hhit. eexists. split.
  - apply (search_content_eq df input found Hq Hc).
  - set (all := select (fun r => cell_test found (title r)) df
                ++ select (fun r => cell_test found (cast r)) df
                ++ select (fun r => cell_test found (director r)) df
                ++ select (fun r => cell_test found (description r)) df).
    destruct (drop_duplicates_nodup all []) as [Hnd _].
    fold (drop_duplicates all) in Hnd.
    assert (Hr : In r (map snd (drop_duplicates all))).
    { assert (Hdf : In r (map snd df)).
      { apply in_map_iff. exists (i, r). auto. }
      destruct (drop_duplicates_values all [] r) as [[]|H]; [|exact H].
      unfold all. rewrite !map_app, !in_app_iff, !select_values.
      rewrite !orb_true_iff in Hhit. tauto. }
    split; [apply one_row_of_value; assumption|]. split.
    + apply in_map_iff in Hr. destruct Hr as [[k r'] [E Hk]].
      simpl in E. subst r'. exists k. split; [exact Hk|].
      intros k' Hk'. apply (same_values_same_label _ k' k r Hnd Hk' Hk).
    + intros [H1 H2]. apply Hij.
      apply (same_values_same_label _ i j r Hnd H1 H2).
Qed.

Lemma search_drops_equal_rows_witness :
  exists all_matches,
    search_content frame_twins "twin" = Ok (Matches all_matches)
    /\ count_rows (Row_eqb (with_title "Twin" filled_row)) all_matches = 1.
Proof.
  destruct (@search_drops_equal_rows fragment_engine frame_twins "twin"
              (Re.search (Re.literal "twin"))
              0 2 (with_title "Twin" filled_row))
    as [all_matches [E [H _]]].
  - discriminate.
  - reflexivity.
  - discriminate.
  - simpl. auto.
  - simpl. auto.
  - reflexivity.
  - exists all_matches. split; assumption.
Defined.

(** ** Recommendations *)

Section SampleFacts.

Context {A : Type}.

Lemma remove_at_length (l : list A) :
  forall i, i < length l -> S (length (remove_at i l)) = length l.
Proof.
  induction l as [|x l IH]; intros i Hi; simpl in *; [lia|].
  destruct i as [|i]; [reflexivity|].
  simpl. rewrite IH; [reflexivity | lia].
Qed.

Lemma remove_at_in (l : list A) :
  forall i x, In x (remove_at i l) -> In x l.
Proof.
  induction l as [|y l IH]; intros i x; destruct i as [|i]; simpl;
    try tauto.
  intros [->|Hin]; [auto | right; apply (IH i x Hin)].
Qed.

Lemma remove_at_nodup (l : list A) (d : A) :
  NoDup l ->
  forall i, i < length l ->
            NoDup (remove_at i l) /\ ~ In (nth i l d) (remove_at i l).
Proof.
  induction 1 as [|y l Hn Hnd IH]; intros i Hi; simpl in *; [lia|].
  destruct i as [|i]; [split; assumption|].
  destruct (IH i) as [H1 H2]; [lia|]. split.
  - constructor; [|exact H1]. intros Hin. apply Hn.
    apply (remove_at_in l i y Hin).
  - simpl. intros [E|Hin]; [|contradiction].
    apply Hn. rewrite E. apply nth_In. lia.
Qed.

End SampleFacts.

(** The positions drawn are as many as asked, pairwise different, and taken
    from the pool. *)
Lemma pick_spec (n : nat) :
  forall pool random_state,
    NoDup pool -> n <= length pool ->
    length (pick pool n random_state) = n
    /\ NoDup (pick pool n random_state)
    /\ forall x, In x (pick pool n random_state) -> In x pool.
Proof.
  induction n as [|n IH]; intros pool rs Hnd Hlen; simpl.
  - split; [reflexivity|]. split; [constructor | tauto].
  - destruct pool as [|a pool']; [simpl in Hlen; lia|].
    set (pool := a :: pool') in *.
    set (i := hd 0 rs mod length pool).
    assert (Hi : i < length pool).
    { apply Nat.mod_upper_bound. simpl. lia. }
    destruct (remove_at_nodup pool 0 Hnd i Hi) as [Hnd' Hfresh].
    pose proof (remove_at_length pool i Hi) as Hl.
    destruct (IH (remove_at i pool) (tl rs) Hnd') as [H1 [H2 H3]]; [lia|].
    split; [simpl; rewrite H1; reflexivity|]. split.
    + constructor; [|exact H2]. intros Hin. apply Hfresh. apply H3. exact Hin.
    + intros x [<-|Hin]; [apply nth_In; exact Hi|].
      apply (remove_at_in pool i x). apply H3. exact Hin.
Qed.

Lemma remove_at_keeps {A : Type} (d : A) (l : list A) :
  forall i y, In y l -> y <> nth i l d -> In y (remove_at i l).
Proof.
  induction l as [|x l IH]; intros i y; destruct i as [|i]; simpl;
    try tauto.
  - intros [->|Hin] Hne; [contradiction | exact Hin].
  - intros [->|Hin] Hne; [auto | right; apply IH; assumption].
Qed.

(** Every list of pairwise different positions of the pool is drawn for
    some random state. *)
Lemma pick_complete (positions : list nat) :
  forall pool,
    NoDup positions -> incl positions pool ->
    exists random_state,
      pick pool (length positions) random_state = positions.
Proof.
  induction positions as [|x ps IH]; intros pool Hnd Hincl.
  - exists []. reflexivity.
  - inversion Hnd as [|? ? Hx Hnd']. subst.
    assert (Hin : In x pool) by (apply Hincl; left; reflexivity).
    destruct (In_nth pool x 0 Hin) as [i [Hi Hnth]].
    destruct (IH (remove_at i pool) Hnd') as [rs Hrs].
    { intros y Hy. apply (remove_at_keeps 0).
      - apply Hincl. right. exact Hy.
      - rewrite Hnth. intros ->. contradiction. }
    exists (i :: rs). simpl.
    destruct pool as [|a pool']; [destruct Hin|].
    cbn [hd tl]. rewrite (Nat.mod_small i _ Hi), Hnth, Hrs. reflexivity.
Qed.

Lemma choice_spec (size n : nat) (random_state : list nat) :
  n <= size ->
  length (choice size n random_state) = n
  /\ NoDup (choice size n random_state)
  /\ Forall (fun i => i < size) (choice size n random_state).
Proof.
  intros Hn. unfold choice.
  destruct (pick_spec n (seq 0 size) random_state) as [H1 [H2 H3]].
  - apply seq_NoDup.
  - rewrite length_seq. exact Hn.
  - split; [exact H1|]. split; [exact H2|].
    apply Forall_forall. intros x Hx. apply H3 in Hx.
    apply in_seq in Hx. lia.
Qed.

Lemma take_length (df : DataFrame) (positions : list nat) :
  Forall (fun i => i < length df) positions ->
  length (take df positions) = length positions.
Proof.
  induction 1 as [|i ps Hi Hall IH]; simpl; [reflexivity|].
  rewrite length_app, IH.
  destruct (nth_error df i) eqn:E; [reflexivity|].
  apply nth_error_None in E. lia.
Qed.

Lemma take_in (df : DataFrame) (positions : list nat) (e : nat * Row) :
  In e (take df positions)
  <-> exists i, In i positions /\ nth_error df i = Some e.
Proof.
  unfold take. rewrite in_flat_map. split.
  - intros [i [Hi He]]. exists i. split; [exact Hi|].
    destruct (nth_error df i); simpl in He; [|tauto].
    destruct He as [->|[]]. reflexivity.
  - intros [i [Hi He]]. exists i. split; [exact Hi|].
    rewrite He. left. reflexivity.
Qed.

(** Different positions of a frame with different labels give rows with
    different labels. *)
Lemma take_labels (df : DataFrame) (positions : list nat) :
  NoDup (map fst df) -> NoDup positions ->
  NoDup (map fst (take df positions)).
Proof.
  intros Hdf. induction 1 as [|i ps Hn Hnd IH]; simpl; [constructor|].
  rewrite map_app. apply NoDup_app; [| exact IH |].
  - destruct (nth_error df i); simpl; repeat constructor. simpl. tauto.
  - intros k Hk Hk'. destruct (nth_error df i) as [e|] eqn:E; [|destruct Hk].
    destruct Hk as [<-|[]].
    apply in_map_iff in Hk'. destruct Hk' as [e' [Hfst He']].
    apply take_in in He'. destruct He' as [j [Hj Ej]].
    assert (Hij : i = j).
    { apply (proj1 (NoDup_nth_error (map fst df)) Hdf).
      - rewrite length_map. apply nth_error_Some. congruence.
      - rewrite !nth_error_map, E, Ej. simpl. congruence. }
    subst j. contradiction.
Qed.

Lemma select_labels (p : Row -> bool) (df : DataFrame) :
  NoDup (map fst df) -> NoDup (map fst (select p df)).
Proof.
  unfold select. induction df as [|e df IH]; simpl; [constructor|].
  intros Hnd. inversion Hnd as [|? ? Hn Hnd']. subst.
  destruct (p (snd e)); [|apply IH; exact Hnd'].
  simpl. constructor; [|apply IH; exact Hnd'].
  intros Hin. apply Hn. apply in_map_iff in Hin.
  destruct Hin as [x [E Hx]]. apply filter_In in Hx.
  apply in_map_iff. exists x. tauto.
Qed.

(** The three filters applied in turn select the candidates. *)
Lemma filters_are_candidates (df : DataFrame) (ct : option string)
    (test : option (option string -> bool)) (rating_pref : string) :
  let step1 := match ct with
               | Some c => select (fun r => String.eqb (content_type r) c) df
               | None => df
               end in
  let step2 := match test with
               | Some f => select (fun r => f (listed_in r)) step1
               | None => step1
               end in
  (if String.eqb rating_pref "" then step2
   else select (fun r => opt_eqb String.eqb (rating r)
                           (Some (PyStr.upper rating_pref))) step2)
  = candidates df ct test rating_pref.
Proof.
  unfold candidates, select.
  destruct ct as [c|]; destruct test as [f|];
    destruct (String.eqb rating_pref ""); simpl;
    rewrite ?filter_filter;
    try (apply filter_ext; intros e; simpl;
         rewrite ?andb_true_r, ?andb_assoc; reflexivity).
  symmetry. apply filter_true.
Qed.

(** ** More on the derived columns *)

(** X3: the table of [preprocess_data] has, for every record and in the
    order of the input, one row with the label of the record and its ten raw
    cells unchanged; its date is the parsed text of the record, its two
    duration cells are what the two functions return for the duration of the
    record, and its content type is "Movie" for the raw type "Movie" and
    "TV Show" otherwise.  The table is produced whenever the dates lie in
    the years 1678 to 2261 and every duration that mentions "min" or
    "Season" starts with an integer of magnitude at most 2^53. *)
Theorem preprocess_table (raw : RawFrame) (df : DataFrame) :
  (preprocess_data raw = Ok df ->
   Forall2
     (fun e e' =>
        let r := snd e in
        let row := snd e' in
        fst e' = fst e
        /\ title row = raw_title r
        /\ type_ row = raw_type r
        /\ country row = raw_country r
        /\ release_year row = raw_release_year r
        /\ rating row = raw_rating r
        /\ duration row = raw_duration r
        /\ listed_in row = raw_listed_in r
        /\ cast row = raw_cast r
        /\ director row = raw_director r
        /\ description row = raw_description r
        /\ date_added row = to_datetime (raw_date_added r)
        /\ duration_min_of (raw_duration r) = Ok (duration_min row)
        /\ seasons_of (raw_duration r) = Ok (seasons row)
        /\ content_type row
           = (if opt_eqb String.eqb (raw_type r) (Some "Movie")
              then "Movie" else "TV Show"))
     raw df)
  /\ ((forall e t, In e raw ->
         to_datetime (raw_date_added (snd e)) = Some t ->
         (1678 <= ts_year t <= 2261)%Z) ->
      (forall e d, In e raw ->
         raw_duration (snd e) = Some d ->
         PyStr.contains "min" d || PyStr.contains "Season" d = true ->
         exists n, PyStr.int_of_string (first_field d) = Some n
                   /\ (Z.abs n <= 2 ^ 53)%Z) ->
      exists df', preprocess_data raw = Ok df').
Proof.
  split.
  - intros Hok. apply preprocess_rows in Hok.
    refine (Forall2_impl _ _ Hok).
    intros [i r] [i' row]
      [Hl [date [dm [se [H0 [H1 [_ [H2 [_ Hrow]]]]]]]]].
    cbn [fst snd] in *. subst row. unfold derived_row.
    cbn [title type_ country release_year rating duration listed_in cast
         director description date_added duration_min seasons content_type].
    repeat (split; [first [reflexivity | assumption]|]).
    unfold content_type_of. destruct (raw_type r); reflexivity.
  - intros Hdate Hwf.
    destruct (preprocess_well_formed raw Hdate) as [df' [H _]].
    + intros e He d Hd Hc. apply (Hwf e d He Hd Hc).
    + exists df'. exact H.
Qed.

Lemma preprocess_table_witness :
  exists df,
    preprocess_data [(0, raw_of "A" "90 min")] = Ok df
    /\ column title df = [Some "A"]
    /\ column duration df = [Some "90 min"].
Proof.
  eexists. split; [reflexivity|].
  pose proof (proj1 (preprocess_table [(0, raw_of "A" "90 min")] _) eq_refl)
    as H.
  inversion H as [|e e' l l' Hrow Hrest]. subst.
  inversion Hrest. subst. cbn zeta in Hrow.
  destruct Hrow as [_ [Ht [_ [_ [_ [_ [Hd _]]]]]]].
  cbn [snd] in Ht, Hd. unfold column.
  change (title (derived_row (raw_of "A" "90 min") (Some 90%Z) None)
          :: nil = [Some "A"]
          /\ duration (derived_row (raw_of "A" "90 min") (Some 90%Z) None)
             :: nil = [Some "90 min"]).
  rewrite Ht, Hd. split; reflexivity.
Defined.

Lemma duration_cell_raise (x : option string) (e : exn) :
  duration_min_of x = Raise e \/ seasons_of x = Raise e ->
  e = ValueError
  /\ exists d, x = Some d
               /\ PyStr.contains "min" d || PyStr.contains "Season" d = true
               /\ PyStr.int_of_string (first_field d) = None.
Proof.
  destruct x as [d|].
  - unfold duration_min_of, seasons_of, leading_int, PyStr.int.
    cbn [PyStr.str].
    destruct (PyStr.int_of_string (first_field d)) as [n|] eqn:Hn.
    + destruct (PyStr.contains "min" d), (PyStr.contains "Season" d);
        simpl; intros [E|E]; discriminate.
    + destruct (PyStr.contains "min" d) eqn:Hm;
        destruct (PyStr.contains "Season" d) eqn:Hs; simpl;
        intros [E|E]; try discriminate; inversion E;
        (split; [reflexivity|]); exists d; rewrite ?Hm, ?Hs;
        repeat split; auto using orb_true_r.
  - intros [E|E]; discriminate.
Qed.

(** The separators 0x1c-0x1f are white space for [str.split()] and
    [str.strip()], not for [int]. *)
Example int_after_separator :
  PyStr.int_of_string (String (ascii_of_nat 28) "5") = None
  /\ PyStr.strip (String (ascii_of_nat 28) "5") = "5"
  /\ PyStr.int_of_string " +1_000 " = Some 1000%Z.
Proof. repeat split; reflexivity. Qed.

Lemma int_literals :
  PyStr.int_of_string (String (ascii_of_nat 28) "5") = None
  /\ PyStr.int_of_string (String (ascii_of_nat 9) "5 ") = Some 5%Z
  /\ PyStr.int_of_string "-1_0" = Some (-10)%Z
  /\ PyStr.int_of_string "1__0" = None
  /\ PyStr.int_of_string "" = None
  /\ PyStr.int_of_string (String.concat "" (repeat "0" 4300)) = Some 0%Z
  /\ PyStr.int_of_string (String.concat "" (repeat "0" 4301)) = None.
Proof. repeat split; vm_compute; reflexivity. Qed.

(** X4: [preprocess_data] raises [ValueError] only when some record has a
    duration that mentions "min" or "Season" after a first field that is no
    integer literal, and no other exception of Python; such a record makes
    it raise [ValueError] (for the dates and the minutes that are
    modelled).  A field after one of the separators 0x1c-0x1f or with more
    than 4300 digits is no integer literal; white space around the digits,
    a sign and single underscores between digits are allowed. *)
Theorem preprocess_value_error (raw : RawFrame) :
  (forall e, preprocess_data raw = Raise e -> e = ValueError \/ e = NotModelled)
  /\ (preprocess_data raw = Raise ValueError ->
      exists i r d,
        In (i, r) raw /\ raw_duration r = Some d
        /\ PyStr.contains "min" d || PyStr.contains "Season" d = true
        /\ PyStr.int_of_string (first_field d) = None)
  /\ ((forall e t, In e raw ->
         to_datetime (raw_date_added (snd e)) = Some t ->
         (1678 <= ts_year t <= 2261)%Z) ->
      (forall e n, In e raw ->
         duration_min_of (raw_duration (snd e)) = Ok (Some n) ->
         (Z.abs n <= 2 ^ 53)%Z) ->
      (exists i r d,
         In (i, r) raw /\ raw_duration r = Some d
         /\ PyStr.contains "min" d || PyStr.contains "Season" d = true
         /\ PyStr.int_of_string (first_field d) = None) ->
      preprocess_data raw = Raise ValueError)
  /\ PyStr.int_of_string (String (ascii_of_nat 28) "5") = None
  /\ PyStr.int_of_string (String (ascii_of_nat 9) "5 ") = Some 5%Z
  /\ PyStr.int_of_string "-1_0" = Some (-10)%Z
  /\ PyStr.int_of_string "1__0" = None
  /\ PyStr.int_of_string "" = None
  /\ PyStr.int_of_string (String.concat "" (repeat "0" 4300)) = Some 0%Z
  /\ PyStr.int_of_string (String.concat "" (repeat "0" 4301)) = None.
Proof.
  set (durations := map (fun e => raw_duration (snd e)) raw).
  set (dates := map (fun e => raw_date_added (snd e)) raw).
  assert (Hcell : forall x e, In x durations ->
            duration_min_of x = Raise e \/ seasons_of x = Raise e ->
            e = ValueError
            /\ exists i r d,
                 In (i, r) raw /\ raw_duration r = Some d
                 /\ PyStr.contains "min" d || PyStr.contains "Season" d
                    = true
                 /\ PyStr.int_of_string (first_field d) = None).
  { intros x e Hx Hr. destruct (duration_cell_raise x e Hr) as [-> [d [-> H]]].
    split; [reflexivity|]. unfold durations in Hx.
    apply in_map_iff in Hx. destruct Hx as [[i r] [Hd Hin]].
    exists i, r, d. simpl in Hd. tauto. }
  assert (Hinv : forall e, preprocess_data raw = Raise e ->
            e = NotModelled
            \/ (e = ValueError
                /\ exists i r d,
                     In (i, r) raw /\ raw_duration r = Some d
                     /\ PyStr.contains "min" d || PyStr.contains "Season" d
                        = true
                     /\ PyStr.int_of_string (first_field d) = None)).
  { intros e. unfold preprocess_data. fold dates durations.
    destruct (apply_cells date_cell dates) as [ds|e0] eqn:H0; cbn [bind].
    2:{ intros E. inversion E. subst e0. left.
        destruct (apply_cells_raise_inv _ _ _ H0) as [x [_ Hf]].
        apply (date_cell_raise x e Hf). }
    destruct (apply_cells duration_min_of durations) as [dms|e1] eqn:H1;
      cbn [bind].
    2:{ intros E. inversion E. subst e1. right.
        destruct (apply_cells_raise_inv _ _ _ H1) as [x [Hx Hf]].
        apply (Hcell x e Hx). left. exact Hf. }
    destruct (apply_cells float_cell dms) as [f1|e2] eqn:F1; cbn [bind].
    2:{ intros E. inversion E. subst e2. left.
        destruct (apply_cells_raise_inv _ _ _ F1) as [x [_ Hf]].
        apply (float_cell_raise x e Hf). }
    destruct (apply_cells seasons_of durations) as [ses|e3] eqn:H2;
      cbn [bind].
    2:{ intros E. inversion E. subst e3. right.
        destruct (apply_cells_raise_inv _ _ _ H2) as [x [Hx Hf]].
        apply (Hcell x e Hx). right. exact Hf. }
    destruct (apply_cells float_cell ses) as [f2|e4] eqn:F2; cbn [bind];
      [discriminate|].
    intros E. inversion E. subst e4. left.
    destruct (apply_cells_raise_inv _ _ _ F2) as [x [_ Hf]].
    apply (float_cell_raise x e Hf). }
  split; [|split; [|split; [|exact int_literals]]].
  - intros e He. destruct (Hinv e He) as [->|[-> _]]; auto.
  - intros He. destruct (Hinv _ He) as [E|[_ H]]; [discriminate | exact H].
  - intros Hdate Hmin [i [r [d [Hin [Hd [Hc Hn]]]]]].
    assert (Hmem : In (Some d) durations).
    { unfold durations. apply in_map_iff. exists (i, r). split; auto. }
    unfold preprocess_data. fold dates durations.
    destruct (apply_cells_ok date_cell dates) as [ds [H0 _]].
    { intros x Hx. unfold dates in Hx. apply in_map_iff in Hx.
      destruct Hx as [e [<- He]]. eexists. apply date_cell_ok.
      split; [reflexivity|]. intros t Ht. apply date_in_range_years.
      apply (Hdate e t He Ht). }
    rewrite H0. cbn [bind].
    destruct (apply_cells duration_min_of durations) as [dms|e1] eqn:H1;
      cbn [bind].
    2:{ f_equal. destruct (apply_cells_raise_inv _ _ _ H1) as [x [Hx Hf]].
        apply (Hcell x e1 Hx). left. exact Hf. }
    destruct (apply_cells_ok float_cell dms) as [f1 [F1 _]].
    { intros y Hy. apply apply_cells_forall2 in H1.
      destruct (forall2_in_right _ _ _ _ H1 Hy) as [x [Hx Hxy]].
      exists y. apply float_cell_ok. split; [reflexivity|].
      intros n ->. unfold durations in Hx. apply in_map_iff in Hx.
      destruct Hx as [e [<- He]]. apply (Hmin e n He Hxy). }
    rewrite F1. cbn [bind].
    destruct (PyStr.contains "min" d) eqn:Hm.
    { exfalso. destruct (apply_cells_raise duration_min_of durations)
        as [e He]; [|congruence].
      exists (Some d), ValueError. split; [exact Hmem|].
      unfold duration_min_of, leading_int, PyStr.int. cbn [PyStr.str].
      rewrite Hm, Hn. reflexivity. }
    simpl in Hc.
    destruct (apply_cells_raise seasons_of durations) as [e He].
    { exists (Some d), ValueError. split; [exact Hmem|].
      unfold seasons_of, leading_int, PyStr.int. cbn [PyStr.str].
      rewrite Hc, Hn. reflexivity. }
    rewrite He. cbn [bind]. f_equal.
    destruct (apply_cells_raise_inv _ _ _ He) as [x [Hx Hf]].
    apply (Hcell x e Hx). right. exact Hf.
Qed.

Lemma preprocess_value_error_witness :
  preprocess_data [(0, raw_of "A" "90 min"); (1, raw_of "B" "about 2 Seasons")]
  = Raise ValueError.
Proof.
  apply (proj1 (proj2 (proj2 (preprocess_value_error
                                [(0, raw_of "A" "90 min");
                                 (1, raw_of "B" "about 2 Seasons")])))).
  - intros e t [<-|[<-|[]]]; discriminate.
  - intros e n [<-|[<-|[]]] E; vm_compute in E; inversion E.
    vm_compute. discriminate.
  - exists 1, (raw_of "B" "about 2 Seasons"), "about 2 Seasons".
    repeat split; simpl; auto.
Defined.

Lemma match_month_range (names : list string) :
  forall m s m' rest,
    match_month names m s = Some (m', rest) ->
    m <= m' < m + length names.
Proof.
  induction names as [|name names IH]; intros m s m' rest; simpl;
    [discriminate|].
  destruct (prefix (PyStr.lower name) (PyStr.lower s)).
  - intros E. inversion E. lia.
  - intros E. apply IH in E. lia.
Qed.

Lemma digit_val_range (c : ascii) :
  PyStr.is_digit c = true -> digit_val c <= 9.
Proof.
  unfold PyStr.is_digit, digit_val. rewrite andb_true_iff, !Nat.leb_le. lia.
Qed.

Lemma match_day_positive (s : string) (d : nat) (rest : string) :
  match_day s = Some (d, rest) -> 1 <= d.
Proof.
  unfold match_day. destruct s as [|a [|b s]].
  - discriminate.
  - destruct (PyStr.is_digit a && (1 <=? digit_val a)) eqn:E; [|discriminate].
    intros H. inversion H. subst.
    apply andb_true_iff in E. destruct E as [_ E]. apply Nat.leb_le in E.
    exact E.
  - destruct (PyStr.is_digit a && PyStr.is_digit b).
    + destruct ((1 <=? 10 * digit_val a + digit_val b)
                && (10 * digit_val a + digit_val b <=? 31)) eqn:E;
        [|discriminate].
      intros H. inversion H. subst.
      apply andb_true_iff in E. destruct E as [E _]. apply Nat.leb_le in E.
      exact E.
    + destruct (PyStr.is_digit a && (1 <=? digit_val a)) eqn:E;
        [|discriminate].
      intros H. inversion H. subst.
      apply andb_true_iff in E. destruct E as [_ E]. apply Nat.leb_le in E.
      exact E.
Qed.

Lemma match_year_range (s : string) (y : Z) :
  match_year s = Some y -> (0 <= y <= 9999)%Z.
Proof.
  unfold match_year.
  destruct s as [|a [|b [|c [|d [|x s]]]]]; try discriminate.
  destruct (PyStr.is_digit a) eqn:Ha; [|discriminate].
  destruct (PyStr.is_digit b) eqn:Hb; [|discriminate].
  destruct (PyStr.is_digit c) eqn:Hc; [|discriminate].
  destruct (PyStr.is_digit d) eqn:Hd; [|discriminate].
  simpl. intros E. inversion E.
  apply digit_val_range in Ha, Hb, Hc, Hd. lia.
Qed.

(** A text that parses is a date of the calendar. *)
Lemma strptime_valid (s : string) (t : Timestamp) :
  strptime_BdY s = Some t ->
  1 <= ts_month t <= 12
  /\ 1 <= ts_day t <= days_in_month (ts_year t) (ts_month t)
  /\ (1 <= ts_year t <= 9999)%Z.
Proof.
  unfold strptime_BdY, option_bind.
  destruct (match_month month_names 1 s) as [[m s1]|] eqn:Hm; [|discriminate].
  destruct (skip_spaces s1) as [s2|]; [|discriminate].
  destruct (match_day s2) as [[d s3]|] eqn:Hd; [|discriminate].
  destruct s3 as [|c s4]; [discriminate|].
  destruct (Ascii.eqb_spec c ","%char) as [->|Hc].
  - destruct (skip_spaces s4) as [s5|]; [|discriminate].
    destruct (match_year s5) as [y|] eqn:Hy; [|discriminate].
    destruct ((1 <=? y)%Z && (d <=? days_in_month y m)) eqn:E; [|discriminate].
    intros H. inversion H. subst. simpl.
    apply andb_true_iff in E. destruct E as [E1 E2].
    apply Z.leb_le in E1. apply Nat.leb_le in E2.
    apply match_month_range in Hm. simpl in Hm.
    apply match_day_positive in Hd. apply match_year_range in Hy. lia.
  - destruct c as [[] [] [] [] [] [] [] []]; try discriminate.
    exfalso. apply Hc. reflexivity.
Qed.

(** X1: in the table that preprocessing makes, the content type of every
    row is "Movie" or "TV Show", and it is "Movie" exactly when the raw type
    is the text "Movie"; a missing type and any other text, "movie"
    included, give "TV Show". *)
Theorem content_type_total (raw : RawFrame) (df : DataFrame) :
  preprocess_data raw = Ok df ->
  forall i row,
    In (i, row) df ->
    (content_type row = "Movie" \/ content_type row = "TV Show")
    /\ (content_type row = "Movie" <-> type_ row = Some "Movie").
Proof.
  intros Hok i row Hin. apply preprocess_rows in Hok.
  destruct (forall2_in_right _ _ _ _ Hok Hin)
    as [[j r] [_ [_ [date [dm [se [_ [_ [_ [_ [_ Hrow]]]]]]]]]]].
  simpl in Hrow. subst row. simpl. unfold content_type_of.
  destruct (raw_type r) as [t|].
  - destruct (String.eqb_spec t "Movie") as [->|Hne].
    + split; [left; reflexivity | tauto].
    + split; [right; reflexivity|].
      split; [discriminate | intros E; inversion E; contradiction].
  - split; [right; reflexivity|]. split; discriminate.
Qed.

Lemma content_type_total_witness :
  exists df,
    preprocess_data [(0, raw_of "A" "90 min")] = Ok df
    /\ forall i row, In (i, row) df -> content_type row = "Movie".
Proof.
  eexists. split; [reflexivity|].
  intros i row Hin.
  apply (proj2 (content_type_total [(0, raw_of "A" "90 min")] _ eq_refl
                  i row Hin)).
  destruct Hin as [E|[]]. inversion E. reflexivity.
Defined.

(** *** The calendar *)

(** The days before the first of March of the year [y], counted in eras of
    400 years, grow by 365 or 366 from one year to the next. *)
Lemma year_days (y : Z) :
  let f := fun y : Z =>
    (y / 400 * 146097 + ((y - y / 400 * 400) * 365
     + (y - y / 400 * 400) / 4 - (y - y / 400 * 400) / 100))%Z in
  (f y = f (y - 1) + 365 + (if is_leap y then 1 else 0))%Z.
Proof.
  cbv zeta. unfold is_leap.
  destruct (Z.eqb_spec (y mod 4) 0) as [H4|H4];
    destruct (Z.eqb_spec (y mod 100) 0) as [H100|H100];
    destruct (Z.eqb_spec (y mod 400) 0) as [H400|H400];
    cbn [andb orb negb];
    Z.div_mod_to_equations; lia.
Qed.

Lemma month_cases (m : nat) :
  1 <= m <= 12 ->
  m = 1 \/ m = 2 \/ m = 3 \/ m = 4 \/ m = 5 \/ m = 6 \/ m = 7 \/ m = 8
  \/ m = 9 \/ m = 10 \/ m = 11 \/ m = 12.
Proof. lia. Qed.

Ltac ground_months :=
  repeat match goal with
         | |- context [Z.of_nat ?k] =>
             let v := eval vm_compute in (Z.of_nat k) in
             change (Z.of_nat k) with v
         end;
  cbn [Z.leb Z.compare Pos.compare Pos.compare_cont].

(** From a day of the calendar to the next, the number of days since
    1 January 1970 grows by one. *)
Lemma days_from_civil_next (t : Timestamp) :
  valid_date t ->
  valid_date (next_day t)
  /\ days_from_civil (next_day t) = (days_from_civil t + 1)%Z.
Proof.
  destruct t as [y m d]. unfold valid_date, next_day.
  cbn [ts_year ts_month ts_day]. intros [Hm Hd].
  pose proof (year_days y) as Hy. cbv zeta in Hy.
  destruct (month_cases m Hm)
    as [->|[->|[->|[->|[->|[->|[->|[->|[->|[->|[->| ->]]]]]]]]]]];
    cbn [days_in_month] in *;
    try (destruct (is_leap y) eqn:Hl);
    match goal with
    | |- context [d <? ?k] => destruct (Nat.ltb_spec d k) as [Hlt|Hge]
    end;
    cbn [Nat.ltb Nat.leb];
    (split;
     [ cbn [ts_year ts_month ts_day days_in_month]; try rewrite Hl; lia
     | unfold days_from_civil; cbn [ts_year ts_month ts_day];
       try replace (Z.of_nat (S d)) with (Z.of_nat d + 1)%Z by lia;
       remember (Z.of_nat d) as dz eqn:Hdz;
       ground_months; Z.div_mod_to_equations; lia ]).
Qed.

Example friday_in_august :
  to_datetime (Some "August 4, 2017") = Some (mkTimestamp 2017 8 4)
  /\ dt_day_name (mkTimestamp 2017 8 4) = "Friday"
  /\ dt_day_name (mkTimestamp 2020 2 29) = "Saturday"
  /\ next_day (mkTimestamp 2020 2 28) = mkTimestamp 2020 2 29
  /\ next_day (mkTimestamp 2019 2 28) = mkTimestamp 2019 3 1
  /\ next_day (mkTimestamp 2019 12 31) = mkTimestamp 2020 1 1.
Proof. repeat split; reflexivity. Qed.

(** *** The text of a date *)

Lemma digit_char_spec (k : nat) :
  k < 10 ->
  PyStr.is_digit (digit_char k) = true
  /\ digit_val (digit_char k) = k
  /\ PyStr.is_space (digit_char k) = false.
Proof.
  intros Hk.
  do 10 (destruct k as [|k]; [repeat split; reflexivity|]). lia.
Qed.

Lemma match_month_name (m : nat) (c : ascii) (rest : string) :
  1 <= m <= 12 ->
  match_month month_names 1 (nth (m - 1) month_names "" ++ String c rest)
  = Some (m, String c rest).
Proof.
  intros Hm.
  destruct (month_cases m Hm)
    as [->|[->|[->|[->|[->|[->|[->|[->|[->|[->|[->| ->]]]]]]]]]]];
    vm_compute; reflexivity.
Qed.

Lemma match_day_text (d : nat) (rest : string) :
  1 <= d <= 31 ->
  skip_spaces (" " ++ day_text d ++ String "," rest)
  = Some (day_text d ++ String "," rest)%string
  /\ match_day (day_text d ++ String "," rest) = Some (d, String "," rest).
Proof.
  intros Hd.
  do 32 (destruct d as [|d]; [try lia; split; vm_compute; reflexivity|]).
  lia.
Qed.

Lemma match_year_text (y : Z) :
  (0 <= y <= 9999)%Z ->
  skip_spaces (" " ++ year_text y) = Some (year_text y)
  /\ match_year (year_text y) = Some y.
Proof.
  intros Hy. unfold year_text.
  assert (Hn : Z.to_nat y < 1000 * 10) by lia.
  assert (Hyn : Z.of_nat (Z.to_nat y) = y) by lia.
  revert Hn Hyn. generalize (Z.to_nat y). intros n Hn Hyn.
  assert (Ha : n / 1000 < 10) by (apply Nat.Div0.div_lt_upper_bound; lia).
  assert (Hb : n / 100 mod 10 < 10) by (apply Nat.mod_upper_bound; lia).
  assert (Hc : n / 10 mod 10 < 10) by (apply Nat.mod_upper_bound; lia).
  assert (Hd : n mod 10 < 10) by (apply Nat.mod_upper_bound; lia).
  destruct (digit_char_spec _ Ha) as [A1 [A2 A3]].
  destruct (digit_char_spec _ Hb) as [B1 [B2 _]].
  destruct (digit_char_spec _ Hc) as [C1 [C2 _]].
  destruct (digit_char_spec _ Hd) as [D1 [D2 _]].
  split.
  - cbn [append skip_spaces PyStr.lstrip].
    change (PyStr.is_space " ") with true. cbn iota.
    cbn [PyStr.lstrip]. rewrite A3. reflexivity.
  - cbn [match_year]. rewrite A1, B1, C1, D1, A2, B2, C2, D2. cbn [andb].
    f_equal.
    assert (E : 1000 * (n / 1000) + 100 * (n / 100 mod 10)
                + 10 * (n / 10 mod 10) + n mod 10 = n).
    { assert (H100 : n / 100 = n / 10 / 10)
        by (rewrite Nat.Div0.div_div; reflexivity).
      assert (H1000 : n / 1000 = n / 10 / 10 / 10)
        by (rewrite !Nat.Div0.div_div; reflexivity).
      rewrite H100, H1000.
      pose proof (Nat.div_mod_eq n 10).
      pose proof (Nat.div_mod_eq (n / 10) 10).
      pose proof (Nat.div_mod_eq (n / 10 / 10) 10).
      lia. }
    rewrite E. exact Hyn.
Qed.

Lemma valid_day_31 (t : Timestamp) : valid_date t -> 1 <= ts_day t <= 31.
Proof.
  destruct t as [y m d]. unfold valid_date, days_in_month.
  cbn [ts_year ts_month ts_day]. intros [_ Hd].
  destruct m as [|[|[|[|[|[|[|[|[|[|[|[|m]]]]]]]]]]]];
    try destruct (is_leap y); lia.
Qed.

Lemma strptime_date_text (t : Timestamp) :
  valid_date t ->
  (1 <= ts_year t <= 9999)%Z ->
  strptime_BdY (date_text t) = Some t.
Proof.
  intros Hv Hy. pose proof (valid_day_31 t Hv) as Hd31.
  destruct t as [y m d]. unfold valid_date in Hv.
  cbn [ts_year ts_month ts_day] in *. destruct Hv as [Hm Hd].
  unfold date_text, dt_month_name.
  cbn [ts_year ts_month ts_day]. unfold strptime_BdY, option_bind.
  change (" " ++ day_text d ++ ", " ++ year_text y)%string
    with (String " " (day_text d ++ ", " ++ year_text y))%string.
  rewrite (match_month_name m _ _ Hm).
  change (String " " (day_text d ++ ", " ++ year_text y))%string
    with (" " ++ day_text d ++ ", " ++ year_text y)%string.
  destruct (match_day_text d (" " ++ year_text y) Hd31) as [S1 S2].
  change (", " ++ year_text y)%string
    with (String "," (" " ++ year_text y))%string.
  rewrite S1, S2.
  destruct (match_year_text y) as [Y1 Y2]; [lia|].
  rewrite Y1. unfold option_bind. rewrite Y2.
  assert (E1 : (1 <=? y)%Z = true) by (apply Z.leb_le; lia).
  assert (E2 : (d <=? days_in_month y m) = true) by (apply Nat.leb_le; lia).
  rewrite E1, E2. reflexivity.
Qed.

(** X20: the text of a date of the calendar in the format of the column
    (the English name of the month, a space, the day, a comma, a space and
    the year in four digits) is converted to that date, for the years 1678
    to 2261; the names of the month and of the day and the year of the date
    are then what the three derived cells hold.  A text that is not of the
    format, such as one with a space before the month or with an
    abbreviated month, and a date that is not in the calendar give a
    missing date. *)
Theorem date_round_trip (t : Timestamp) :
  valid_date t ->
  (1678 <= ts_year t <= 2261)%Z ->
  date_cell (Some (date_text t)) = Ok (Some t)
  /\ to_datetime (Some (date_text t)) = Some t
  /\ date_cell (Some (" " ++ date_text t)%string) = Ok None
  /\ date_cell (Some "Aug 4, 2017") = Ok None
  /\ date_cell (Some "February 29, 2019") = Ok None
  /\ date_cell None = Ok None.
Proof.
  intros Hv Hy.
  assert (Hp : strptime_BdY (date_text t) = Some t)
    by (apply strptime_date_text; [exact Hv | lia]).
  split; [|split; [exact Hp|split; [|repeat split; reflexivity]]].
  - apply date_cell_ok. unfold to_datetime, option_bind. rewrite Hp.
    split; [reflexivity|]. intros u Hu. inversion Hu. subst u.
    apply date_in_range_years. exact Hy.
  - unfold date_cell, to_datetime, option_bind, strptime_BdY, option_bind.
    assert (Hm : match_month month_names 1 (" " ++ date_text t)%string
                 = None)
      by reflexivity.
    rewrite Hm. reflexivity.
Qed.

Lemma date_round_trip_witness :
  date_cell (Some "August 4, 2017") = Ok (Some (mkTimestamp 2017 8 4)).
Proof.
  apply (date_round_trip (mkTimestamp 2017 8 4)).
  - unfold valid_date. simpl. lia.
  - simpl. lia.
Defined.

(** X2: in the table that preprocessing makes, the date of a row is the
    parsed text of its record.  A row without date has no year, month or
    day added.  A row with a date has the year of the date; its month added
    is the name of the month of the date among the twelve English names in
    their order; its day added is the name at position [(n + 3) mod 7] of
    the English names from Monday to Sunday, where [n] is the number of days
    of the date since 1 January 1970, a Thursday; the date is a date of
    the calendar.  The number of days is 0 on 1 January 1970 and grows by
    one from every day of the calendar to the next, so the name is the one
    of the day of the week. *)
Theorem date_columns (raw : RawFrame) (df : DataFrame) :
  (preprocess_data raw = Ok df ->
   Forall2
     (fun e e' =>
        let row := snd e' in
        date_added row = to_datetime (raw_date_added (snd e))
        /\ match date_added row with
           | None =>
               year_added row = None /\ month_added row = None
               /\ day_added row = None
           | Some t =>
               year_added row = Some (ts_year t)
               /\ month_added row
                  = nth_error month_names (ts_month t - 1)
               /\ day_added row
                  = nth_error day_names
                      (Z.to_nat ((days_from_civil t + 3) mod 7))
               /\ month_added row <> None
               /\ day_added row <> None
               /\ valid_date t
               /\ (1678 <= ts_year t <= 2261)%Z
           end)
     raw df)
  /\ days_from_civil (mkTimestamp 1970 1 1) = 0%Z
  /\ (forall t,
        valid_date t ->
        valid_date (next_day t)
        /\ days_from_civil (next_day t) = (days_from_civil t + 1)%Z).
Proof.
  split; [|split; [reflexivity | exact days_from_civil_next]].
  intros Hok. apply preprocess_rows in Hok.
  refine (Forall2_impl _ _ Hok).
  intros [i r] [i' row]
    [_ [date [dm [se [H0 [_ [_ [_ [_ Hrow]]]]]]]]].
  cbn [fst snd] in *. subst row. unfold derived_row.
  cbn [date_added year_added month_added day_added].
  split; [reflexivity|].
  apply date_cell_ok in H0. destruct H0 as [_ Hrange].
  destruct (to_datetime (raw_date_added r)) as [t|] eqn:Ht;
    cbn [option_map]; [|tauto].
  assert (Hv : 1 <= ts_month t <= 12
               /\ 1 <= ts_day t <= days_in_month (ts_year t) (ts_month t)
               /\ (1 <= ts_year t <= 9999)%Z).
  { unfold to_datetime, option_bind in Ht.
    destruct (raw_date_added r) as [s|]; [|discriminate].
    apply (strptime_valid s t Ht). }
  assert (Hm : nth_error month_names (ts_month t - 1)
               = Some (dt_month_name t)).
  { unfold dt_month_name. apply nth_error_nth'. simpl. lia. }
  assert (Hd : nth_error day_names
                 (Z.to_nat ((days_from_civil t + 3) mod 7))
               = Some (dt_day_name t)).
  { unfold dt_day_name. apply nth_error_nth'. simpl.
    pose proof (Z.mod_pos_bound (days_from_civil t + 3) 7 eq_refl). lia. }
  rewrite Hm, Hd. split; [reflexivity|]. split; [reflexivity|].
  split; [reflexivity|]. split; [discriminate|]. split; [discriminate|].
  split; [unfold valid_date; tauto|].
  apply date_in_range_years. apply Hrange. reflexivity.
Qed.

Lemma date_columns_witness :
  exists df,
    preprocess_data [(0, raw_added "A" "90 min" "August 4, 2017")] = Ok df
    /\ column day_added df = [Some "Friday"].
Proof.
  eexists. split; [reflexivity|].
  pose proof (proj1 (date_columns
                       [(0, raw_added "A" "90 min" "August 4, 2017")] _)
                eq_refl) as H.
  inversion H as [|e e' l l' Hrow Hrest]. subst.
  cbn zeta in Hrow. destruct Hrow as [_ Hrow].
  cbn [snd] in Hrow. unfold column.
  change (date_added
            (derived_row (raw_added "A" "90 min" "August 4, 2017")
               (Some 90%Z) None))
    with (Some (mkTimestamp 2017 8 4)) in Hrow.
  cbn iota in Hrow. destruct Hrow as [_ [_ [Hd _]]].
  change (day_added
            (derived_row (raw_added "A" "90 min" "August 4, 2017")
               (Some 90%Z) None) :: nil = [Some "Friday"]).
  rewrite Hd. reflexivity.
Defined.

(** ** More on the counts *)

Lemma dropna_in {K : Type} (k : K) (col : list (option K)) :
  In k (dropna col) <-> In (Some k) col.
Proof.
  induction col as [|[a|] col IH]; simpl; [tauto| |].
  - rewrite IH. split; intros [E|Hin]; auto; left; congruence.
  - rewrite IH. split; [auto|]. intros [E|Hin]; [discriminate | exact Hin].
Qed.

Lemma count_rows_all (df : DataFrame) : count_rows (fun _ => true) df = length df.
Proof. unfold count_rows. rewrite filter_true. reflexivity. Qed.

(** X5: in the table that preprocessing makes, the counts by content type
    add up to the number of records, and every key is "Movie" or "TV Show"
    with the number of rows of that type, which is not zero. *)
Theorem content_type_counts (raw : RawFrame) (df : DataFrame) :
  preprocess_data raw = Ok df ->
  list_sum (map snd (content_type_analysis df)) = length raw
  /\ forall k c,
       In (k, c) (content_type_analysis df) ->
       (k = "Movie" \/ k = "TV Show")
       /\ 0 < c
       /\ c = count_rows (fun r => String.eqb (content_type r) k) df.
Proof.
  intros Hok. pose proof (proj1 (preprocess_rows raw df) Hok) as Hrows.
  unfold content_type_analysis. split.
  - rewrite total_value_counts, dropna_length. simpl.
    rewrite count_rows_all. symmetry. apply (Forall2_length Hrows).
  - intros k c Hin. apply value_counts_entries in Hin.
    destruct Hin as [Hin ->].
    unfold column in Hin. apply in_map_iff in Hin.
    destruct Hin as [[i row] [E Hrow]]. simpl in E. inversion E. subst k.
    split; [|split].
    + destruct (forall2_in_right _ _ _ _ Hrows Hrow)
        as [[j r] [_ [_ [date [dm [se [_ [_ [_ [_ [_ Hd]]]]]]]]]]].
      simpl in Hd. subst row. simpl. unfold content_type_of.
      destruct (raw_type r) as [t|]; [|auto].
      destruct (String.eqb t "Movie"); auto.
    + apply occurrences_pos. apply dropna_in. unfold column.
      apply in_map_iff. exists (i, row). auto.
    + exact (dropna_occurrences (fun r => Some (content_type r))
               (content_type row) df).
Qed.

Lemma content_type_counts_witness :
  exists df,
    preprocess_data [(0, raw_of "A" "90 min"); (1, raw_of "B" "2 Seasons")]
    = Ok df
    /\ list_sum (map snd (content_type_analysis df)) = 2.
Proof.
  eexists. split; [reflexivity|].
  apply (proj1 (content_type_counts
                  [(0, raw_of "A" "90 min"); (1, raw_of "B" "2 Seasons")]
                  _ eq_refl)).
Defined.

Section OrderFacts.

Context {K : Type} `{PyKeyOk K}.

(** The counts of [value_counts] decrease along the list, and no key comes
    twice. *)
Lemma value_counts_sorted (col : list (option K)) :
  NoDup (map fst (value_counts col))
  /\ StronglySorted (fun a b => snd b <= snd a) (value_counts col).
Proof.
  unfold value_counts. split.
  - apply Permutation_NoDup with (l := map fst (Counter (dropna col))).
    + apply Permutation_map. symmetry. apply sort_desc_perm.
    + apply keys_Counter_nodup.
  - apply StronglySorted_weaken
      with (R := fun a b : K * nat =>
                   snd b < snd a
                   \/ (snd a = snd b
                       /\ first_index (fst a) (dropna col)
                          < first_index (fst b) (dropna col))).
    + intros a b _ _ Hr. lia.
    + apply (sort_desc_sorted (fun k => first_index k (dropna col))).
      apply (StronglySorted_map fst
               (fun a b => first_index a (dropna col)
                           < first_index b (dropna col))).
      apply keys_Counter_order.
Qed.

Lemma sort_index_entries (k : K) (c : nat) (m : list (K * nat)) :
  NoDup (map fst m) -> (In (k, c) (sort_index m) <-> In (k, c) m).
Proof.
  intros Hnd. unfold sort_index. rewrite in_map_iff. split.
  - intros [a [E Ha]]. inversion E. subst.
    apply get_count_present.
    apply Permutation_in with (l := sort_keys (map fst m));
      [apply sort_keys_perm | exact Ha].
  - intros Hin. exists k. split.
    + f_equal. apply get_count_entry; assumption.
    + apply Permutation_in with (l := map fst m);
        [symmetry; apply sort_keys_perm|].
      apply in_map_iff. exists (k, c). auto.
Qed.

End OrderFacts.

(** X6: the counts by country and by rating come in decreasing order, the
    largest first, and no key comes twice. *)
Theorem value_counts_decreasing (df : DataFrame) :
  NoDup (map fst (country_analysis df))
  /\ StronglySorted (fun a b => snd b <= snd a) (country_analysis df)
  /\ NoDup (map fst (rating_analysis df))
  /\ StronglySorted (fun a b => snd b <= snd a) (rating_analysis df)
  /\ forall k c,
       In (k, c) (country_analysis df) ->
       c <= snd (hd (k, c) (country_analysis df)).
Proof.
  unfold country_analysis, rating_analysis.
  destruct (value_counts_sorted (column country df)) as [H1 H2].
  destruct (value_counts_sorted (column rating df)) as [H3 H4].
  repeat split; try assumption.
  intros k c Hin.
  destruct (value_counts (column country df)) as [|x l]; [destruct Hin|].
  simpl. inversion H2 as [|? ? _ Hall]. subst.
  destruct Hin as [->|Hin]; [reflexivity|].
  rewrite Forall_forall in Hall. apply (Hall (k, c) Hin).
Qed.

Lemma insert_key_sorted_Z (k : Z) (l : list Z) :
  StronglySorted Z.le l -> StronglySorted Z.le (insert_key k l).
Proof.
  induction 1 as [|a l Hs IH Hall]; simpl.
  - repeat constructor.
  - destruct (Z.leb_spec k a) as [Hle|Hlt].
    + constructor; [constructor; assumption|].
      constructor; [exact Hle|].
      rewrite Forall_forall in *. intros x Hx. specialize (Hall x Hx). lia.
    + constructor; [exact IH|].
      eapply Permutation_Forall; [symmetry; apply insert_key_perm|].
      constructor; [lia | exact Hall].
Qed.

Lemma sort_keys_sorted_Z (l : list Z) :
  NoDup l -> StronglySorted Z.lt (sort_keys l).
Proof.
  intros Hnd.
  assert (Hle : StronglySorted Z.le (sort_keys l)).
  { clear Hnd. induction l as [|a l IH]; simpl; [constructor|].
    apply insert_key_sorted_Z. exact IH. }
  assert (Hnd' : NoDup (sort_keys l)).
  { eapply Permutation_NoDup; [symmetry; apply sort_keys_perm | exact Hnd]. }
  induction Hle as [|a s Hs IH Hall]; [constructor|].
  inversion Hnd' as [|? ? Hn Hnd'']. subst.
  constructor; [apply IH; exact Hnd''|].
  rewrite Forall_forall in *. intros x Hx. specialize (Hall x Hx).
  assert (a <> x) by (intros ->; contradiction). lia.
Qed.

Lemma sort_index_sorted_Z (m : list (Z * nat)) :
  NoDup (map fst m) ->
  StronglySorted (fun a b => (fst a < fst b)%Z) (sort_index m).
Proof.
  intros Hnd. apply (StronglySorted_map fst Z.lt).
  rewrite keys_sort_index. apply sort_keys_sorted_Z. exact Hnd.
Qed.

(** X7: the counts by release year and the counts by year added are in the
    order of increasing year, one entry for every year that some record
    has, with the number of records of that year. *)
Theorem year_counts_sorted (df : DataFrame) :
  StronglySorted (fun a b => (fst a < fst b)%Z) (release_year_analysis df)
  /\ StronglySorted (fun a b => (fst a < fst b)%Z) (time_series_analysis df)
  /\ (forall y c,
        In (y, c) (release_year_analysis df)
        <-> 0 < c
            /\ c = count_rows
                     (fun r => opt_eqb Z.eqb (release_year r) (Some y)) df)
  /\ (forall y c,
        In (y, c) (time_series_analysis df)
        <-> 0 < c
            /\ c = count_rows
                     (fun r => opt_eqb Z.eqb (year_added r) (Some y)) df).
Proof.
  assert (Hgen : forall (f : Row -> option Z),
             StronglySorted (fun a b => (fst a < fst b)%Z)
               (sort_index (value_counts (column f df)))
             /\ forall y c,
                  In (y, c) (sort_index (value_counts (column f df)))
                  <-> 0 < c
                      /\ c = count_rows
                               (fun r => opt_eqb Z.eqb (f r) (Some y)) df).
  { intros f.
    destruct (value_counts_sorted (column f df)) as [Hnd _].
    split; [apply sort_index_sorted_Z; exact Hnd|].
    intros y c. rewrite (sort_index_entries y c _ Hnd).
    rewrite value_counts_entries.
    change Z.eqb with (@key_eqb Z Z_key).
    rewrite <- (dropna_occurrences f y df).
    rewrite <- dropna_in, <- occurrences_pos.
    split; intros [Hp ->]; auto. }
  unfold release_year_analysis, time_series_analysis.
  destruct (Hgen release_year) as [H1 H2].
  destruct (Hgen year_added) as [H3 H4].
  split; [exact H1|]. split; [exact H3|]. split; [exact H2 | exact H4].
Qed.

(** ** Counts of the values of a list column *)

Lemma split_go_nonempty (sep : string) (s : string) :
  forall skip cur, PyStr.split_go sep skip cur s <> [].
Proof.
  induction s as [|c s IH]; intros skip cur; simpl;
    [intros E; discriminate E|].
  destruct skip as [|k]; [|apply IH].
  match goal with
  | |- (if ?b then _ else _) <> [] =>
      destruct b; [intros E; discriminate E | apply IH]
  end.
Qed.

Lemma dropna_app {K : Type} (l1 l2 : list (option K)) :
  dropna (l1 ++ l2) = dropna l1 ++ dropna l2.
Proof.
  induction l1 as [|[a|] l1 IH]; simpl; [reflexivity| |]; rewrite IH;
    reflexivity.
Qed.

Lemma dropna_present {K : Type} (l : list K) : dropna (map Some l) = l.
Proof. induction l as [|a l IH]; simpl; [|rewrite IH]; reflexivity. Qed.

(** The rows left of the exploded column once the missing ones are
    dropped: the values of the cells, cell after cell. *)
Lemma dropna_split_explode (col : list (option string)) :
  dropna (split_explode col) = flat_map cell_values col.
Proof.
  unfold split_explode, explode.
  induction col as [|x col IH]; simpl; [reflexivity|].
  rewrite dropna_app, IH. f_equal.
  destruct x as [s|]; simpl; [|reflexivity].
  pose proof (split_go_nonempty ", " s 0 "") as Hne.
  unfold PyStr.split.
  destruct (PyStr.split_go ", " 0 "" s) as [|v l]; [contradiction|].
  apply (dropna_present (v :: l)).
Qed.

Lemma occurrences_flat_map {A : Type} (f : A -> list string) (g : string)
    (l : list A) :
  occurrences g (flat_map f l)
  = list_sum (map (fun x => occurrences g (f x)) l).
Proof.
  induction l as [|x l IH]; simpl; [reflexivity|].
  rewrite occurrences_app, IH. reflexivity.
Qed.

Lemma length_flat_map {A B : Type} (f : A -> list B) (l : list A) :
  length (flat_map f l) = list_sum (map (fun x => length (f x)) l).
Proof.
  induction l as [|x l IH]; simpl; [reflexivity|].
  rewrite length_app, IH. reflexivity.
Qed.

Lemma split_explode_counts (f : Row -> option string) (df : DataFrame) :
  (forall g,
      get_count g (value_counts (split_explode (column f df)))
      = list_sum (map (fun e => occurrences g (cell_values (f (snd e)))) df))
  /\ list_sum (map snd (value_counts (split_explode (column f df))))
     = list_sum (map (fun e => length (cell_values (f (snd e)))) df).
Proof.
  split.
  - intros g. rewrite get_count_value_counts, dropna_split_explode.
    unfold column. rewrite occurrences_flat_map, map_map. reflexivity.
  - rewrite total_value_counts, dropna_split_explode.
    unfold column. rewrite length_flat_map, map_map. reflexivity.
Qed.

(** X8: in the counts by genre, by director and by cast member, the count
    of a value is the number of times it stands in the lists of the
    records, each list being the text of the cell split on ", ": a record
    without the cell adds nothing, a record adds one for every entry of its
    list (two for a value it lists twice), and the counts add up to the
    number of entries of all the lists. *)
Theorem list_column_counts (df : DataFrame) :
  (forall g,
      get_count g (genre_analysis df)
      = list_sum
          (map (fun e => occurrences g (cell_values (listed_in (snd e)))) df))
  /\ list_sum (map snd (genre_analysis df))
     = list_sum (map (fun e => length (cell_values (listed_in (snd e)))) df)
  /\ (forall g,
        get_count g (director_analysis df)
        = list_sum
            (map (fun e => occurrences g (cell_values (director (snd e))))
                 df))
  /\ (forall g,
        get_count g (cast_analysis df)
        = list_sum
            (map (fun e => occurrences g (cell_values (cast (snd e)))) df)).
Proof.
  unfold genre_analysis, director_analysis, cast_analysis.
  destruct (split_explode_counts listed_in df) as [H1 H2].
  destruct (split_explode_counts director df) as [H3 _].
  destruct (split_explode_counts cast df) as [H4 _].
  split; [exact H1|]. split; [exact H2|]. split; [exact H3 | exact H4].
Qed.

Example genre_counted_twice :
  genre_analysis [(0, with_listed_in "Dramas, Dramas" filled_row);
                  (1, with_listed_in "Comedies,  Dramas" filled_row)]
  = [("Dramas", 2); ("Comedies", 1); (" Dramas", 1)].
Proof. reflexivity. Qed.

(** ** The shape of a cross tabulation *)

Section CrossTabShape.

Context {A B : Type} `{PyKeyOk A} `{PyKeyOk B}.

Lemma groupby_size_keys (rows : list (option A * option B)) (p : A * B) :
  In p (map fst (groupby_size rows)) <-> In p (group_keys rows).
Proof.
  unfold groupby_size. rewrite keys_sort_index.
  rewrite <- (keys_Counter_in p (group_keys rows)).
  split; apply Permutation_in;
    [apply sort_keys_perm | symmetry; apply sort_keys_perm].
Qed.

Lemma sorted_unique_in {K : Type} `{PyKeyOk K} (x : K) (l : list K) :
  In x (sort_keys (unique l)) <-> In x l.
Proof.
  unfold unique. split; intros Hx.
  - apply (proj1 (keys_Counter_in _ _)).
    eapply Permutation_in; [apply sort_keys_perm | exact Hx].
  - eapply Permutation_in; [symmetry; apply sort_keys_perm|].
    apply (proj2 (keys_Counter_in _ _)). exact Hx.
Qed.

Lemma crosstab_index (rows : list (option A * option B)) (a : A) :
  In a (ct_index (crosstab rows)) <-> exists b, In (a, b) (group_keys rows).
Proof.
  unfold crosstab, unstack. cbn [ct_index].
  set (g := groupby_size rows).
  rewrite sorted_unique_in, in_map_iff. split.
  - intros [[[a' b] c] [E He]]. simpl in E. subst a'. exists b.
    apply groupby_size_keys. apply in_map_iff. exists (a, b, c). auto.
  - intros [b Hb]. apply groupby_size_keys in Hb. apply in_map_iff in Hb.
    destruct Hb as [e [E He]]. exists e. rewrite E. auto.
Qed.

Lemma crosstab_columns (rows : list (option A * option B)) (b : B) :
  In b (ct_columns (crosstab rows)) <-> exists a, In (a, b) (group_keys rows).
Proof.
  unfold crosstab, unstack. cbn [ct_columns].
  set (g := groupby_size rows).
  rewrite sorted_unique_in, in_map_iff. split.
  - intros [[[a b'] c] [E He]]. simpl in E. subst b'. exists a.
    apply groupby_size_keys. apply in_map_iff. exists (a, b, c). auto.
  - intros [a Ha]. apply groupby_size_keys in Ha. apply in_map_iff in Ha.
    destruct Ha as [e [E He]]. exists e. rewrite E. auto.
Qed.

Lemma crosstab_labels_nodup (rows : list (option A * option B)) :
  NoDup (ct_index (crosstab rows)) /\ NoDup (ct_columns (crosstab rows)).
Proof.
  unfold crosstab, unstack. cbn [ct_index ct_columns].
  split; (eapply Permutation_NoDup;
          [symmetry; apply sort_keys_perm | apply keys_Counter_nodup]).
Qed.

End CrossTabShape.

(** X9: a cross tabulation has one row of counts for every label of its
    index and one count for every column in each row; no label comes twice;
    the labels of the index are the outer keys of the records that have
    both keys, the columns are the inner keys of these records; no row of
    the table is all zero. *)
Theorem crosstab_shape {A B : Type} `{PyKeyOk A} `{PyKeyOk B}
    (rows : list (option A * option B)) :
  let t := crosstab rows in
  length (ct_values t) = length (ct_index t)
  /\ Forall (fun r => length r = length (ct_columns t)) (ct_values t)
  /\ NoDup (ct_index t) /\ NoDup (ct_columns t)
  /\ (forall a, In a (ct_index t) <-> exists b, In (Some a, Some b) rows)
  /\ (forall b, In b (ct_columns t) <-> exists a, In (Some a, Some b) rows)
  /\ (forall a, In a (ct_index t) -> 1 <= row_total t a).
Proof.
  intros t.
  assert (Hi : forall a, In a (ct_index t)
                         <-> exists b, In (Some a, Some b) rows).
  { intros a. unfold t. rewrite crosstab_index.
    split; intros [b Hb]; exists b; apply (group_keys_in (a, b)); exact Hb. }
  split; [|split; [|split; [|split; [|split; [|split]]]]].
  - unfold t, crosstab, unstack. cbn [ct_values ct_index].
    apply length_map.
  - unfold t, crosstab, unstack. cbn [ct_values ct_columns].
    apply Forall_forall. intros r Hr. apply in_map_iff in Hr.
    destruct Hr as [a [<- _]]. apply length_map.
  - apply crosstab_labels_nodup.
  - apply crosstab_labels_nodup.
  - exact Hi.
  - intros b. unfold t. rewrite crosstab_columns.
    split; intros [a Ha]; exists a; apply (group_keys_in (a, b)); exact Ha.
  - intros a Ha. unfold t. rewrite row_total_count.
    apply Hi in Ha. destruct Ha as [b Hb].
    apply (group_keys_in (a, b)) in Hb.
    assert (Hf : In (a, b) (filter (fun p => key_eqb a (fst p))
                               (group_keys rows))).
    { apply filter_In. split; [exact Hb | apply key_eqb_refl]. }
    destruct (filter (fun p => key_eqb a (fst p)) (group_keys rows));
      [destruct Hf | simpl; lia].
Qed.

Lemma crosstab_shape_witness :
  ct_index (rating_by_year frame_missing_rating) = [2020%Z]
  /\ 1 <= row_total (rating_by_year frame_missing_rating) 2020%Z.
Proof.
  split; [reflexivity|].
  apply (@crosstab_shape Z string _ Z_key_ok _ string_key_ok
           (column (fun r => (release_year r, rating r))
                   frame_missing_rating)).
  simpl. auto.
Defined.

(** ** More on the search *)

Lemma lstrip_spaces (s : string) :
  PyStr.all_chars PyStr.is_space (PyStr.lstrip s)
  = PyStr.all_chars PyStr.is_space s.
Proof.
  induction s as [|c s IH]; simpl; [reflexivity|].
  destruct (PyStr.is_space c) eqn:E; simpl; [exact IH|].
  rewrite E. reflexivity.
Qed.

Lemma lstrip_empty (s : string) :
  PyStr.lstrip s = "" <-> PyStr.all_chars PyStr.is_space s = true.
Proof.
  induction s as [|c s IH]; simpl; [tauto|].
  destruct (PyStr.is_space c); simpl; [exact IH|].
  split; discriminate.
Qed.

Lemma rev_string_nil (s : string) :
  PyStr.rev_string "" s = "" <-> s = "".
Proof.
  split; [|intros ->; reflexivity].
  intros E. apply rev_string_empty in E. tauto.
Qed.

(** A text strips to nothing exactly when it is white space only. *)
Lemma strip_empty (s : string) :
  PyStr.strip s = "" <-> PyStr.all_chars PyStr.is_space s = true.
Proof.
  unfold PyStr.strip, PyStr.rstrip.
  rewrite rev_string_nil, lstrip_empty, rev_string_all. simpl.
  apply eq_iff_eq_true. apply lstrip_spaces.
Qed.

Lemma search_content_inv {engine : ReEngine} (df : DataFrame)
    (input : string) (m : DataFrame) :
  search_content df input = Ok (Matches m) ->
  PyStr.strip input <> ""
  /\ exists found,
       re_compile (PyStr.strip input) = Ok found
       /\ m = drop_duplicates
                (select (fun r => cell_test found (title r)) df
                 ++ select (fun r => cell_test found (cast r)) df
                 ++ select (fun r => cell_test found (director r)) df
                 ++ select (fun r => cell_test found (description r)) df).
Proof.
  unfold search_content.
  destruct (String.eqb_spec (PyStr.strip input) "") as [E|Hne];
    [discriminate|].
  unfold str_contains.
  destruct (re_compile (PyStr.strip input)) as [found|e]; simpl;
    [|discriminate].
  intros H. inversion H. split; [exact Hne|]. exists found. auto.
Qed.

(** X11: the search answers that there is no query exactly when the line
    typed is empty or white space only; the engine of regular expressions
    is not called then. *)
Theorem blank_query {engine : ReEngine} (df : DataFrame) (input : string) :
  search_content df input = Ok NoQuery
  <-> PyStr.all_chars PyStr.is_space input = true.
Proof.
  rewrite <- strip_empty. unfold search_content.
  destruct (String.eqb_spec (PyStr.strip input) "") as [E|Hne].
  - tauto.
  - split; [|contradiction]. unfold str_contains.
    destruct (re_compile (PyStr.strip input)); simpl; discriminate.
Qed.

Lemma map_nodup_injective {A B : Type} (f : A -> B) (l : list A) :
  NoDup l -> (forall x y, In x l -> In y l -> f x = f y -> x = y) ->
  NoDup (map f l).
Proof.
  induction 1 as [|a l Hn Hnd IH]; intros Hinj; simpl; constructor.
  - rewrite in_map_iff. intros [x [E Hx]].
    assert (x = a) by (apply Hinj; simpl; auto). subst. contradiction.
  - apply IH. intros x y Hx Hy. apply Hinj; simpl; auto.
Qed.

Lemma label_determines_row (df : DataFrame) (x y : nat * Row) :
  NoDup (map fst df) -> In x df -> In y df -> fst x = fst y -> x = y.
Proof.
  induction df as [|e df IH]; simpl; [tauto|].
  intros Hnd Hx Hy E. inversion Hnd as [|? ? Hn Hnd']. subst.
  destruct Hx as [->|Hx]; destruct Hy as [->|Hy].
  - reflexivity.
  - exfalso. apply Hn. rewrite E. apply in_map. exact Hy.
  - exfalso. apply Hn. rewrite <- E. apply in_map. exact Hx.
  - apply IH; assumption.
Qed.

(** X12: the rows the search returns are rows of the frame, with their
    labels, each matching the query in one of the four columns; they are
    not more than the rows of the frame, and no label comes twice when the
    labels of the frame are different. *)
Theorem search_rows_of_frame {engine : ReEngine} (df : DataFrame)
    (input : string) (m : DataFrame) :
  search_content df input = Ok (Matches m) ->
  (exists found,
      re_compile (PyStr.strip input) = Ok found
      /\ forall e,
           In e m ->
           In e df
           /\ cell_test found (title (snd e)) || cell_test found (cast (snd e))
              || cell_test found (director (snd e))
              || cell_test found (description (snd e)) = true)
  /\ length m <= length df
  /\ (NoDup (map fst df) -> NoDup (map fst m)).
Proof.
  intros Hm. destruct (search_content_inv df input m Hm)
    as [_ [found [Hc ->]]].
  set (all := select (fun r => cell_test found (title r)) df
              ++ select (fun r => cell_test found (cast r)) df
              ++ select (fun r => cell_test found (director r)) df
              ++ select (fun r => cell_test found (description r)) df).
  assert (Hsub : forall e, In e (drop_duplicates all) ->
            In e df
            /\ cell_test found (title (snd e))
               || cell_test found (cast (snd e))
               || cell_test found (director (snd e))
               || cell_test found (description (snd e)) = true).
  { intros e He. apply (drop_duplicates_subset all [] e) in He.
    unfold all, select in He. rewrite !in_app_iff, !filter_In in He.
    rewrite !orb_true_iff. tauto. }
  assert (Hnd : NoDup (drop_duplicates all)).
  { apply (NoDup_map_inv snd). apply drop_duplicates_nodup. }
  split; [exists found; split; [exact Hc | exact Hsub]|]. split.
  - apply NoDup_incl_length; [exact Hnd|].
    intros e He. apply (Hsub e He).
  - intros Hl. apply map_nodup_injective; [exact Hnd|].
    intros x y Hx Hy. apply (label_determines_row df x y Hl).
    + apply (Hsub x Hx).
    + apply (Hsub y Hy).
Qed.

Lemma search_rows_of_frame_witness :
  exists m,
    search_content frame_twins "twin" = Ok (Matches m)
    /\ length m <= 3.
Proof.
  eexists. split; [reflexivity|].
  apply (@search_rows_of_frame fragment_engine frame_twins "twin" _ eq_refl).
Defined.

Lemma lower_nonempty (s : string) : PyStr.lower s = "" -> s = "".
Proof. destruct s; [reflexivity | discriminate]. Qed.

(** X18: with the engine of the fragment, two queries without special
    characters that differ only in the case of their letters give the same
    answer. *)
Theorem search_ignores_case (df : DataFrame) (input1 input2 : string) :
  is_plain (PyStr.strip input1) = true ->
  is_plain (PyStr.strip input2) = true ->
  PyStr.lower (PyStr.strip input1) = PyStr.lower (PyStr.strip input2) ->
  search_content df input1 = search_content df input2.
Proof.
  intros P1 P2 Hl.
  destruct (String.eqb_spec (PyStr.strip input1) "") as [E1|N1].
  - assert (E2 : PyStr.strip input2 = "").
    { apply lower_nonempty. rewrite <- Hl, E1. reflexivity. }
    unfold search_content. rewrite E1, E2. reflexivity.
  - assert (N2 : PyStr.strip input2 <> "").
    { intros E2. apply N1. apply lower_nonempty. rewrite Hl, E2.
      reflexivity. }
    assert (Hc : forall q, is_plain q = true ->
              re_compile q = Ok (Re.search (Re.literal q))).
    { intros q Hq. unfold re_compile, fragment_engine, Re.compile_search.
      rewrite (compile_plain _ Hq). reflexivity. }
    rewrite (search_content_eq df input1 _ N1 (Hc _ P1)).
    rewrite (search_content_eq df input2 _ N2 (Hc _ P2)).
    assert (Ht : forall x,
              cell_test (Re.search (Re.literal (PyStr.strip input1))) x
              = cell_test (Re.search (Re.literal (PyStr.strip input2))) x).
    { intros [s|]; [|reflexivity]. simpl.
      rewrite !search_literal, Hl. reflexivity. }
    assert (Hs : forall col : Row -> option string,
              select (fun r => cell_test
                                 (Re.search (Re.literal (PyStr.strip input1)))
                                 (col r)) df
              = select (fun r => cell_test
                                   (Re.search
                                      (Re.literal (PyStr.strip input2)))
                                   (col r)) df).
    { intros col. apply filter_ext. intros e. apply Ht. }
    rewrite (Hs title), (Hs cast), (Hs director), (Hs description).
    reflexivity.
Qed.

Lemma search_ignores_case_witness :
  search_content frame_smith "SMITH" = search_content frame_smith " smith ".
Proof.
  apply (search_ignores_case frame_smith "SMITH" " smith "); reflexivity.
Defined.

(** ** What is printed *)

Lemma title_lines_head (idx : nat) (row : Row) :
  filter is_title_line (row_head idx row)
  = [TitleLine idx (title row) (release_year row)]
  /\ forall n, ~ In (MoreLine n) (row_head idx row).
Proof.
  split; [reflexivity|]. intros n H. simpl in H.
  destruct H as [H|[H|[H|[H|[]]]]]; discriminate.
Qed.

Lemma print_row_cases (idx : nat) (row : Row) :
  (description row = None
   /\ print_row idx row = (row_head idx row, Some TypeError))
  \/ (exists d,
        description row = Some d
        /\ print_row idx row
           = (row_head idx row ++ [DescriptionLine (str_prefix 100 d)], None)).
Proof.
  unfold print_row. destruct (description row) as [d|]; [right|left]; eauto.
Qed.

Lemma show_rows_from_spec (rows : DataFrame) :
  forall idx,
    (snd (show_rows_from idx rows) = Some TypeError
     <-> exists e, In e rows /\ description (snd e) = None)
    /\ (snd (show_rows_from idx rows) = None ->
        filter is_title_line (fst (show_rows_from idx rows))
        = numbered idx rows).
Proof.
  induction rows as [|[i row] rows IH]; intros idx.
  - simpl. split; [|reflexivity]. split; [discriminate | intros [e [[] _]]].
  - cbn [show_rows_from numbered].
    destruct (print_row_cases idx row) as [[Hd ->]|[d [Hd ->]]].
    + cbn [fst snd]. split; [|discriminate].
      split; [|reflexivity]. intros _. exists (i, row).
      split; [left; reflexivity | exact Hd].
    + destruct (IH (S idx)) as [IH1 IH2].
      destruct (show_rows_from (S idx) rows) as [later e].
      cbn [fst snd] in *. split.
      * rewrite IH1. split.
        -- intros [x [Hx Hm]]. exists x. simpl. auto.
        -- intros [x [[<-|Hx] Hm]]; [simpl in Hm; congruence|].
           exists x. auto.
      * intros He. rewrite !filter_app, (IH2 He). reflexivity.
Qed.

Lemma no_more_in_row (idx : nat) (row : Row) (d : string) (n : nat) :
  ~ In (MoreLine n) (row_head idx row ++ [DescriptionLine d]).
Proof.
  simpl. intros H.
  destruct H as [H|[H|[H|[H|[H|[]]]]]]; discriminate.
Qed.

Lemma show_matches_from_spec (total : nat) (rows : DataFrame) :
  forall idx,
    (snd (show_matches_from total idx rows) = Some TypeError
     <-> exists e,
           In e (firstn (S (10 - idx)) rows) /\ description (snd e) = None)
    /\ (snd (show_matches_from total idx rows) = None ->
        filter is_title_line (fst (show_matches_from total idx rows))
        = numbered idx (firstn (S (10 - idx)) rows)
        /\ forall n,
             In (MoreLine n) (fst (show_matches_from total idx rows))
             <-> S (10 - idx) <= length rows /\ n = total - 10).
Proof.
  induction rows as [|[i row] rows IH]; intros idx.
  - simpl. split.
    + split; [discriminate | intros [e [[] _]]].
    + intros _. split; [reflexivity|]. intros n. split; [tauto | lia].
  - cbn [show_matches_from firstn numbered].
    destruct (print_row_cases idx row) as [[Hd ->]|[d [Hd ->]]].
    + cbn [fst snd]. split; [|discriminate].
      split; [|reflexivity]. intros _. exists (i, row).
      split; [left; reflexivity | exact Hd].
    + destruct (Nat.leb_spec 10 idx) as [Hge|Hlt].
      * replace (10 - idx) with 0 by lia. cbn [firstn fst snd numbered].
        split.
        -- split; [discriminate|].
           intros [x [[<-|[]] Hm]]. simpl in Hm. congruence.
        -- intros _. split; [rewrite !filter_app; reflexivity|].
           intros n. rewrite in_app_iff. split.
           ++ intros [H|[H|[]]]; [destruct (no_more_in_row _ _ _ _ H)|].
              inversion H. simpl. lia.
           ++ intros [_ ->]. right. left. reflexivity.
      * specialize (IH (S idx)).
        replace (10 - idx) with (S (10 - S idx)) by lia.
        destruct IH as [IH1 IH2].
        destruct (show_matches_from total (S idx) rows) as [later e].
        cbn [fst snd] in *. split.
        -- rewrite IH1. split.
           ++ intros [x [Hx Hm]]. exists x. split; [right; exact Hx|exact Hm].
           ++ intros [x [[<-|Hx] Hm]]; [simpl in Hm; congruence|].
              exists x. auto.
        -- intros He. destruct (IH2 He) as [H1 H2]. split.
           ++ rewrite !filter_app, H1. reflexivity.
           ++ intros n. rewrite in_app_iff, H2. simpl length. split.
              ** intros [H|H]; [destruct (no_more_in_row _ _ _ _ H)|].
                 lia.
              ** intros [Hl ->]. right. lia.
Qed.

(** X13: when nothing raises, the search prints the rows of the result in
    their order, numbered from 1, and not more than ten of them; after the
    tenth it prints how many results are left, also when none is left: the
    line stands exactly when there are ten results or more.  Without any
    result it prints only that nothing was found. *)
Theorem search_prints_ten (query : string) (m : DataFrame) :
  snd (show_matches query m) = None ->
  filter is_title_line (fst (show_matches query m))
  = numbered 1 (firstn 10 m)
  /\ (forall n,
        In (MoreLine n) (fst (show_matches query m))
        <-> 10 <= length m /\ n = length m - 10)
  /\ (fst (show_matches query m) = [NoResultsLine query] <-> m = []).
Proof.
  unfold show_matches. destruct m as [|e m]; intros He.
  - simpl. split; [reflexivity|]. split; [|tauto].
    intros n. split; [intros [H|[]]; discriminate | lia].
  - set (rows := e :: m) in *.
    destruct (show_matches_from_spec (length rows) rows 1) as [_ H].
    change (S (10 - 1)) with 10 in H.
    destruct (show_matches_from (length rows) 1 rows) as [lines err].
    cbn [fst snd] in *. destruct (H He) as [H1 H2].
    split; [exact H1|]. split.
    + intros n. rewrite <- H2. simpl. split; [|auto].
      intros [E|Hin]; [discriminate | exact Hin].
    + split; discriminate.
Qed.

Lemma search_prints_ten_witness :
  filter is_title_line (fst (show_matches "twin" frame_twins))
  = numbered 1 frame_twins.
Proof.
  apply (search_prints_ten "twin" frame_twins). reflexivity.
Defined.

(** X14: printing raises [TypeError] exactly when a row to print has no
    description: one of the first ten results of the search, one of the
    rows of the recommendation. *)
Theorem missing_description_raises (query : string) (m : DataFrame)
    (found : nat) (rows : DataFrame) :
  (snd (show_matches query m) = Some TypeError
   <-> exists e, In e (firstn 10 m) /\ description (snd e) = None)
  /\ (snd (show_recommendation (Recommendations found rows)) = Some TypeError
      <-> exists e, In e rows /\ description (snd e) = None)
  /\ snd (show_recommendation NoMatch) = None.
Proof.
  split; [|split; [|reflexivity]].
  - unfold show_matches. destruct m as [|e m].
    + simpl. split; [discriminate | intros [x [[] _]]].
    + destruct (show_matches_from_spec (length (e :: m)) (e :: m) 1)
        as [H _].
      change (S (10 - 1)) with 10 in H.
      destruct (show_matches_from (length (e :: m)) 1 (e :: m))
        as [lines err].
      exact H.
  - unfold show_recommendation.
    destruct (show_rows_from_spec rows 1) as [H _].
    destruct (show_rows_from 1 rows) as [lines err]. exact H.
Qed.

Example title_match_without_description :
  show_matches "abc" [(0, with_title "abc" blank_row)]
  = ([FoundLine 1 "abc"; TitleLine 1 (Some "abc") None; TypeLine "TV Show";
      GenreLine None; RatingLine None],
     Some TypeError).
Proof. reflexivity. Qed.

(** ** The prompts *)

Lemma cell_seen_iff (x : option string) (seen : list (option string)) :
  existsb (opt_eqb String.eqb x) seen = true <-> In x seen.
Proof.
  rewrite existsb_exists. split.
  - intros [y [Hy E]].
    apply (opt_eqb_spec String.eqb String.eqb_eq) in E. subst. exact Hy.
  - intros Hin. exists x. split; [exact Hin|].
    apply (opt_eqb_spec String.eqb String.eqb_eq). reflexivity.
Qed.

Lemma unique_cells_from_spec (col : list (option string)) :
  forall seen,
    NoDup (unique_cells_from seen col)
    /\ forall x,
         In x (unique_cells_from seen col) <-> In x col /\ ~ In x seen.
Proof.
  induction col as [|c col IH]; intros seen; simpl.
  - split; [constructor | tauto].
  - destruct (existsb (opt_eqb String.eqb c) seen) eqn:E.
    + apply cell_seen_iff in E. destruct (IH seen) as [H1 H2].
      split; [exact H1|]. intros x. rewrite H2. split; [tauto|].
      intros [[<-|Hin] Hn]; [contradiction | tauto].
    + assert (Hc : ~ In c seen).
      { intros Hin. apply cell_seen_iff in Hin. congruence. }
      destruct (IH (c :: seen)) as [H1 H2]. split.
      * constructor; [|exact H1]. rewrite H2. simpl. tauto.
      * intros x. simpl. rewrite H2. simpl. split.
        -- intros [<-|[Hin Hn]]; [tauto|]. tauto.
        -- intros [[<-|Hin] Hn]; [tauto|].
           destruct (opt_eqb String.eqb c x) eqn:Ex.
           ++ apply (opt_eqb_spec String.eqb String.eqb_eq) in Ex. tauto.
           ++ right. split; [exact Hin|]. intros [->|H]; [|tauto].
              assert (opt_eqb String.eqb x x = true)
                by (apply (opt_eqb_spec String.eqb String.eqb_eq);
                    reflexivity).
              congruence.
Qed.

Lemma all_present_spec (cells : list (option string)) :
  (all_present cells = None <-> In None cells)
  /\ forall parts, all_present cells = Some parts <-> cells = map Some parts.
Proof.
  induction cells as [|[s|] cells [IH1 IH2]]; simpl.
  - split; [split; [discriminate | tauto]|].
    intros parts. split.
    + intros E. inversion E. reflexivity.
    + destruct parts; [reflexivity | discriminate].
  - split.
    + destruct (all_present cells); simpl.
      * split; [discriminate|]. intros [E|Hin]; [discriminate|].
        apply IH1 in Hin. discriminate.
      * split; [|reflexivity]. intros _. right. apply IH1. reflexivity.
    + intros parts. destruct (all_present cells) as [ps|]; simpl.
      * split.
        -- intros E. inversion E. subst. simpl. f_equal.
           apply IH2. reflexivity.
        -- destruct parts as [|p parts]; [discriminate|]. simpl.
           intros E. inversion E. subst.
           assert (Some ps = Some parts) by (apply IH2; reflexivity).
           congruence.
      * split; [discriminate|].
        destruct parts as [|p parts]; [discriminate|]. simpl.
        intros E. inversion E. subst.
        assert (None = Some parts) by (apply IH2; reflexivity).
        discriminate.
  - split; [split; [auto | reflexivity]|].
    intros parts. split; [discriminate|].
    destruct parts; discriminate.
Qed.

Lemma firstn_in {A : Type} (n : nat) (l : list A) (x : A) :
  In x (firstn n l) -> In x l.
Proof.
  intros Hin. rewrite <- (firstn_skipn n l). apply in_or_app. left.
  exact Hin.
Qed.

Lemma split_explode_present (col : list (option string)) :
  In None (split_explode col) <-> In None col.
Proof.
  unfold split_explode, explode.
  induction col as [|x col IH]; simpl; [tauto|].
  rewrite in_app_iff, IH. destruct x as [s|]; simpl.
  - pose proof (split_go_nonempty ", " s 0 "") as Hne.
    unfold PyStr.split.
    destruct (PyStr.split_go ", " 0 "" s) as [|v l]; [contradiction|].
    split.
    + intros [[E|Hin]|Hin]; [discriminate| |auto].
      apply in_map_iff in Hin. destruct Hin as [y [E _]]. discriminate.
    + intros [E|Hin]; [discriminate | auto].
  - split; [intros [[E|[]]|Hin]; auto | intros [E|Hin]; auto].
Qed.

(** X15: the line of the available ratings raises [TypeError] exactly when
    some record has no rating; otherwise it lists, separated by ", ", the
    ratings of the records, each once.  The line of the available genres
    is printed whenever no record lacks its genres. *)
Theorem recommender_prompts (df : DataFrame) :
  (available_ratings df = inl TypeError
   <-> exists e, In e df /\ rating (snd e) = None)
  /\ (forall text,
        available_ratings df = inr text ->
        exists parts,
          text = PyStr.join ", " parts
          /\ NoDup parts
          /\ forall r, In r parts <-> In (Some r) (column rating df))
  /\ ((forall e, In e df -> listed_in (snd e) <> None) ->
      exists text, available_genres df = inr text).
Proof.
  destruct (unique_cells_from_spec (column rating df) []) as [Hnd Hin].
  fold (unique_cells (column rating df)) in Hnd, Hin.
  destruct (all_present_spec (unique_cells (column rating df))) as [Hn Hs].
  unfold available_ratings, join_cells.
  split; [|split].
  - destruct (all_present (unique_cells (column rating df))) eqn:E.
    + split; [discriminate|].
      intros [e [He Hr]]. exfalso.
      assert (Hc : In None (unique_cells (column rating df))).
      { apply Hin. split; [|tauto]. unfold column. rewrite <- Hr.
        apply in_map_iff. exists e. auto. }
      apply Hn in Hc. discriminate.
    + split; [|reflexivity]. intros _.
      assert (Hc : In None (unique_cells (column rating df)))
        by (apply Hn; reflexivity).
      apply Hin in Hc. destruct Hc as [Hc _].
      unfold column in Hc. apply in_map_iff in Hc.
      destruct Hc as [e [Hr He]]. exists e. auto.
  - intros text.
    destruct (all_present (unique_cells (column rating df))) as [parts|]
      eqn:E; [|discriminate].
    intros H. inversion H. exists parts.
    assert (Hp : unique_cells (column rating df) = map Some parts)
      by (apply Hs; reflexivity).
    rewrite Hp in Hnd, Hin. split; [reflexivity|]. split.
    + apply (NoDup_map_inv Some). exact Hnd.
    + intros r. split.
      * intros Hr. apply (Hin (Some r)). apply in_map. exact Hr.
      * intros Hr. assert (Hm : In (Some r) (map Some parts)).
        { apply Hin. split; [exact Hr | tauto]. }
        apply in_map_iff in Hm. destruct Hm as [y [Ey Hy]].
        inversion Ey. subst. exact Hy.
  - intros Hall. unfold available_genres, join_cells.
    set (cells := firstn 10 (unique_cells
                               (split_explode (column listed_in df)))).
    destruct (all_present_spec cells) as [Hn' _].
    destruct (all_present cells) eqn:E; [eexists; reflexivity|].
    exfalso.
    assert (Hc : In None cells) by (apply Hn'; reflexivity).
    unfold cells in Hc. apply firstn_in in Hc.
    apply (proj1 (proj2 (unique_cells_from_spec _ []) None)) in Hc.
    destruct Hc as [Hc _].
    apply (proj1 (split_explode_present _)) in Hc. unfold column in Hc.
    apply in_map_iff in Hc. destruct Hc as [e [Hl He]].
    apply (Hall e He Hl).
Qed.

Lemma recommender_prompts_witness :
  available_ratings frame_missing_rating = inl TypeError
  /\ exists text, available_genres frame_twins = inr text.
Proof.
  split.
  - apply (proj1 (recommender_prompts frame_missing_rating)).
    exists (1, with_year_rating (Some 2020%Z) None blank_row).
    split; [simpl; auto | reflexivity].
  - apply (proj2 (proj2 (recommender_prompts frame_twins))).
    intros e [<-|[<-|[<-|[]]]]; discriminate.
Defined.

(** ** More on the recommender *)

Lemma filter_and_sample_run {engine : ReEngine} (df : DataFrame)
    (ct : option string) (genre rating_pref : string)
    (random_state : list nat) (test : option (option string -> bool)) :
  genre_filter genre = Ok test ->
  let cand := candidates df ct test rating_pref in
  filter_and_sample df ct genre rating_pref random_state
  = match cand with
    | [] => Ok NoMatch
    | _ :: _ =>
        Ok (Recommendations (length cand)
              (take cand (choice (length cand) (Nat.min 5 (length cand))
                            random_state)))
    end.
Proof.
  intros Hg cand.
  pose proof (filters_are_candidates df ct test rating_pref) as Hc.
  cbn zeta in Hc. fold cand in Hc.
  unfold filter_and_sample, genre_filter in *.
  assert (Hs : forall l : DataFrame,
            sample (Nat.min 5 (length l)) l random_state
            = Ok (take l (choice (length l) (Nat.min 5 (length l))
                            random_state))).
  { intros l. unfold sample.
    assert (Hle : Nat.min 5 (length l) <= length l) by apply Nat.le_min_r.
    apply Nat.ltb_ge in Hle. rewrite Hle. reflexivity. }
  destruct (String.eqb genre "") eqn:Eg.
  - inversion Hg. subst test. cbn [bind]. cbn [bind] in Hc. rewrite Hc.
    destruct cand; [reflexivity|]. rewrite Hs. reflexivity.
  - destruct (str_contains genre) as [f|] eqn:Ef; [|discriminate].
    cbn [bind] in Hg. inversion Hg. subst test. cbn [bind]. rewrite Hc.
    destruct cand; [reflexivity|]. rewrite Hs. reflexivity.
Qed.

(** When the two lines of the prompts are printed, the method is the filter
    and the sample. *)
Lemma content_recommender_run {engine : ReEngine} (df : DataFrame)
    (ct : option string) (genre rating_pref : string)
    (random_state : list nat) (test : option (option string -> bool))
    (genres_line ratings_line : string) :
  available_genres df = inr genres_line ->
  available_ratings df = inr ratings_line ->
  genre_filter genre = Ok test ->
  let cand := candidates df ct test rating_pref in
  content_recommender df ct genre rating_pref random_state
  = match cand with
    | [] => Ok NoMatch
    | _ :: _ =>
        Ok (Recommendations (length cand)
              (take cand (choice (length cand) (Nat.min 5 (length cand))
                            random_state)))
    end.
Proof.
  intros Hgl Hrl Hg. unfold content_recommender. rewrite Hgl, Hrl.
  cbn [printed bind]. apply filter_and_sample_run. exact Hg.
Qed.

Lemma content_recommender_ok {engine : ReEngine} (df : DataFrame)
    (ct : option string) (genre rating_pref : string)
    (random_state : list nat) (o : recommendation) :
  content_recommender df ct genre rating_pref random_state = Ok o ->
  (exists genres_line, available_genres df = inr genres_line)
  /\ (exists ratings_line, available_ratings df = inr ratings_line)
  /\ exists test, genre_filter genre = Ok test.
Proof.
  unfold content_recommender.
  destruct (available_genres df) as [e|gl]; [discriminate|].
  destruct (available_ratings df) as [e|rl]; [discriminate|].
  cbn [printed bind]. unfold filter_and_sample, genre_filter.
  intros Hrun. split; [eexists; reflexivity|].
  split; [eexists; reflexivity|].
  destruct (String.eqb genre ""); [eexists; reflexivity|].
  destruct (str_contains genre) as [f|e]; cbn [bind] in *;
    [eexists; reflexivity | discriminate].
Qed.

Lemma candidates_spec (df : DataFrame) (ct : option string)
    (test : option (option string -> bool)) (rating_pref : string)
    (e : nat * Row) :
  In e (candidates df ct test rating_pref)
  <-> In e df
      /\ (forall c, ct = Some c -> content_type (snd e) = c)
      /\ (forall f, test = Some f -> f (listed_in (snd e)) = true)
      /\ (rating_pref <> ""
          -> rating (snd e) = Some (PyStr.upper rating_pref)).
Proof.
  unfold candidates, select. rewrite filter_In, !andb_true_iff, orb_true_iff.
  rewrite (opt_eqb_spec String.eqb String.eqb_eq), String.eqb_eq.
  assert (H1 : match ct with
               | Some c => String.eqb (content_type (snd e)) c
               | None => true
               end = true
               <-> forall c, ct = Some c -> content_type (snd e) = c).
  { destruct ct as [c|].
    - rewrite String.eqb_eq. split.
      + intros E c' Hc. inversion Hc as [Hcc]. rewrite <- Hcc. exact E.
      + intros H. apply H. reflexivity.
    - split; [discriminate | reflexivity]. }
  assert (H2 : match test with
               | Some f => f (listed_in (snd e))
               | None => true
               end = true
               <-> forall f, test = Some f -> f (listed_in (snd e)) = true).
  { destruct test as [f|].
    - split.
      + intros E f' Hf. inversion Hf as [Hff]. rewrite <- Hff. exact E.
      + intros H. apply H. reflexivity.
    - split; [discriminate | reflexivity]. }
  rewrite H1, H2.
  destruct (string_dec rating_pref "") as [->|Hne]; tauto.
Qed.

(** C8, as the code has it: when the two lines of the prompts are printed
    and the genre preference is empty or the engine of regular expressions
    compiles it, whatever the engine, the candidates are the records that
    pass the three tests together.  With no candidate the outcome is the
    no-match message, printed without error; otherwise it is a sample of
    [min 5 n] of the [n] candidates, taken at pairwise different positions
    of the candidate list, hence rows of the candidate list, with pairwise
    different labels when the labels of the frame are; printing the sample
    raises [TypeError] exactly when one of its rows has no description. *)
Theorem recommender_sample {engine : ReEngine} (df : DataFrame) (ct : option string)
    (genre rating_pref : string) (random_state : list nat)
    (test : option (option string -> bool))
    (genres_line ratings_line : string) :
  available_genres df = inr genres_line ->
  available_ratings df = inr ratings_line ->
  genre_filter genre = Ok test ->
  let cand := candidates df ct test rating_pref in
  (forall e,
      In e cand
      <-> In e df
          /\ (forall c, ct = Some c -> content_type (snd e) = c)
          /\ (forall f, test = Some f -> f (listed_in (snd e)) = true)
          /\ (rating_pref <> ""
              -> rating (snd e) = Some (PyStr.upper rating_pref)))
  /\ (cand = [] ->
      content_recommender df ct genre rating_pref random_state = Ok NoMatch
      /\ show_recommendation NoMatch = ([NoMatchLine], None))
  /\ (cand <> [] ->
      exists positions,
        content_recommender df ct genre rating_pref random_state
        = Ok (Recommendations (length cand) (take cand positions))
        /\ length positions = Nat.min 5 (length cand)
        /\ NoDup positions
        /\ Forall (fun i => i < length cand) positions
        /\ length (take cand positions) = Nat.min 5 (length cand)
        /\ (forall e, In e (take cand positions) -> In e cand)
        /\ (NoDup (map fst df) -> NoDup (map fst (take cand positions)))
        /\ (snd (show_recommendation
                   (Recommendations (length cand) (take cand positions)))
            = Some TypeError
            <-> exists e,
                  In e (take cand positions) /\ description (snd e) = None)).
Proof.
  intros Hgl Hrl Hg cand.
  pose proof (content_recommender_run df ct genre rating_pref random_state
                test genres_line ratings_line Hgl Hrl Hg) as Hrun.
  cbn zeta in Hrun. fold cand in Hrun.
  split; [intros e; apply candidates_spec|]. split.
  - intros E. rewrite Hrun, E. split; reflexivity.
  - intros Hne. rewrite Hrun.
    destruct cand as [|e0 rest] eqn:Ec; [congruence|]. rewrite <- Ec.
    set (n := Nat.min 5 (length cand)).
    assert (Hn : n <= length cand) by apply Nat.le_min_r.
    destruct (choice_spec (length cand) n random_state Hn) as [H1 [H2 H3]].
    exists (choice (length cand) n random_state).
    split; [reflexivity|].
    split; [exact H1|]. split; [exact H2|]. split; [exact H3|].
    split; [rewrite take_length; assumption|]. split; [|split].
    + intros e He. apply take_in in He. destruct He as [i [_ Hi]].
      apply nth_error_In in Hi. exact Hi.
    + intros Hdf. apply take_labels; [|exact H2].
      unfold cand, candidates. apply select_labels. exact Hdf.
    + unfold show_recommendation.
      destruct (show_rows_from_spec
                  (take cand (choice (length cand) n random_state)) 1)
        as [H _].
      destruct (show_rows_from 1 _) as [lines err]. exact H.
Qed.

Lemma recommender_sample_witness :
  exists positions,
    content_recommender frame_twins None "" "" [4; 1]
    = Ok (Recommendations 3 (take frame_twins positions))
    /\ length positions = 3
    /\ NoDup positions.
Proof.
  destruct (@recommender_sample fragment_engine frame_twins None "" ""
              [4; 1] None _ _ eq_refl eq_refl eq_refl)
    as [_ [_ H]].
  destruct H as [positions [E [L [N _]]]]; [discriminate|].
  exists positions. split; [exact E|]. split; [exact L | exact N].
Defined.

(** C8 as stated fails: with the genre preference "(" the recommender
    raises the error of the compiler of regular expressions, and on a frame
    in which a record has no rating it raises [TypeError] when it prints the
    ratings, before anything is filtered. *)
Lemma recommender_raises_on_open_parenthesis :
  content_recommender frame_twins (Some "Movie") "(" "PG" [] = Raise ReError
  /\ content_recommender frame_unrated None "" "" []
     = Raise (PrintError TypeError).
Proof. split; reflexivity. Qed.

Lemma available_ratings_raise (df : DataFrame) :
  (exists e, In e df /\ rating (snd e) = None) ->
  available_ratings df = inl TypeError.
Proof.
  intros [e [He Hr]]. unfold available_ratings, join_cells.
  destruct (all_present_spec (unique_cells (column rating df))) as [Hn _].
  assert (Hc : In None (unique_cells (column rating df))).
  { apply (proj2 (unique_cells_from_spec (column rating df) [])).
    split; [|tauto]. unfold column. rewrite <- Hr.
    apply in_map_iff. exists e. auto. }
  apply Hn in Hc. rewrite Hc. reflexivity.
Qed.

(** X21: the two lines of the prompts are printed before anything is
    filtered.  When one of them raises [TypeError], as when some record has
    no rating, the method raises [TypeError], whatever the answers are and
    whether the genre compiles or not; the method comes to an outcome only
    on a frame in which every record has a rating and both lines are
    printed. *)
Theorem prompts_come_first {engine : ReEngine} (df : DataFrame)
    (ct : option string) (genre rating_pref : string)
    (random_state : list nat) :
  (available_genres df = inl TypeError
   \/ available_ratings df = inl TypeError ->
   content_recommender df ct genre rating_pref random_state
   = Raise (PrintError TypeError))
  /\ ((exists e, In e df /\ rating (snd e) = None) ->
      content_recommender df ct genre rating_pref random_state
      = Raise (PrintError TypeError))
  /\ (forall o,
        content_recommender df ct genre rating_pref random_state = Ok o ->
        (forall e, In e df -> rating (snd e) <> None)
        /\ exists genres_line ratings_line,
             available_genres df = inr genres_line
             /\ available_ratings df = inr ratings_line).
Proof.
  assert (H1 : available_genres df = inl TypeError
               \/ available_ratings df = inl TypeError ->
               content_recommender df ct genre rating_pref random_state
               = Raise (PrintError TypeError)).
  { unfold content_recommender. intros [E|E].
    - rewrite E. reflexivity.
    - rewrite E. destruct (available_genres df) as [[]|gl]; reflexivity. }
  split; [exact H1|]. split.
  - intros Hex. apply H1. right. apply available_ratings_raise. exact Hex.
  - intros o Hrun. split.
    + intros e He Hr.
      assert (Hraise : content_recommender df ct genre rating_pref
                         random_state = Raise (PrintError TypeError)).
      { apply H1. right. apply available_ratings_raise. exists e. auto. }
      congruence.
    + destruct (content_recommender_ok _ _ _ _ _ _ Hrun)
        as [[gl Hgl] [[rl Hrl] _]].
      exists gl, rl. auto.
Qed.

Lemma prompts_come_first_witness :
  content_recommender frame_unrated (Some "Movie") "(" "PG" [0]
  = Raise (PrintError TypeError).
Proof.
  apply (proj1 (proj2 (@prompts_come_first fragment_engine frame_unrated
                         (Some "Movie") "(" "PG" [0]))).
  exists (1, with_year_rating (Some 2020%Z) None filled_row).
  split; [simpl; auto | reflexivity].
Defined.

Lemma take_shift (x : nat * Row) (l : DataFrame) (positions : list nat) :
  take (x :: l) (map S positions) = take l positions.
Proof.
  unfold take. induction positions as [|i ps IH]; simpl; [reflexivity|].
  rewrite IH. reflexivity.
Qed.

Lemma take_all (l : DataFrame) : take l (seq 0 (length l)) = l.
Proof.
  induction l as [|x l IH]; [reflexivity|].
  cbn [length seq]. rewrite <- seq_shift.
  change (take (x :: l) (0 :: map S (seq 0 (length l))))
    with (x :: take (x :: l) (map S (seq 0 (length l)))).
  rewrite take_shift, IH. reflexivity.
Qed.

(** X16: when the two lines of the prompts are printed and one to five
    candidates are left, the recommender returns all of them, each once, in
    the order the random state gives. *)
Theorem few_candidates_all_returned {engine : ReEngine} (df : DataFrame)
    (ct : option string) (genre rating_pref : string)
    (random_state : list nat) (test : option (option string -> bool))
    (genres_line ratings_line : string) :
  available_genres df = inr genres_line ->
  available_ratings df = inr ratings_line ->
  genre_filter genre = Ok test ->
  let cand := candidates df ct test rating_pref in
  1 <= length cand <= 5 ->
  exists rows,
    content_recommender df ct genre rating_pref random_state
    = Ok (Recommendations (length cand) rows)
    /\ Permutation rows cand.
Proof.
  intros Hgl Hrl Hg cand Hlen.
  pose proof (content_recommender_run df ct genre rating_pref random_state
                test genres_line ratings_line Hgl Hrl Hg) as Hrun.
  cbn zeta in Hrun. fold cand in Hrun.
  destruct cand as [|e0 rest] eqn:Ec; [simpl in Hlen; lia|].
  rewrite <- Ec in *. eexists. split; [exact Hrun|].
  replace (Nat.min 5 (length cand)) with (length cand) by lia.
  destruct (choice_spec (length cand) (length cand) random_state
              (Nat.le_refl _)) as [H1 [H2 H3]].
  set (ps := choice (length cand) (length cand) random_state) in *.
  assert (Hp : Permutation ps (seq 0 (length cand))).
  { apply NoDup_Permutation_bis; [exact H2 | rewrite length_seq; lia|].
    intros i Hi. apply in_seq. rewrite Forall_forall in H3.
    specialize (H3 i Hi). lia. }
  rewrite <- (take_all cand) at 2. unfold take.
  apply Permutation_flat_map. exact Hp.
Qed.

Lemma few_candidates_all_returned_witness :
  exists rows,
    content_recommender frame_twins None "" "" [4; 1]
    = Ok (Recommendations 3 rows)
    /\ Permutation rows frame_twins.
Proof.
  apply (@few_candidates_all_returned fragment_engine frame_twins None "" ""
           [4; 1] None _ _ eq_refl eq_refl eq_refl).
  simpl. lia.
Defined.

Lemma to_upper_not_lower (c : ascii) :
  PyStr.is_lower (PyStr.to_upper c) = false.
Proof. destruct c as [[] [] [] [] [] [] [] []]; reflexivity. Qed.

Lemma upper_no_lower (s : string) :
  PyStr.all_chars (fun c => negb (PyStr.is_lower c)) (PyStr.upper s) = true.
Proof.
  induction s as [|c s IH]; simpl; [reflexivity|].
  rewrite to_upper_not_lower, IH. reflexivity.
Qed.

(** X17: a rating preference is compared, in upper case, with the rating as
    it is stored.  Every recommended row has the upper-cased preference as
    its rating, so a record whose stored rating has a lower-case letter is
    never recommended for a rating; two preferences that differ only in
    case give the same outcome. *)
Theorem rating_preference_upper {engine : ReEngine} (df : DataFrame)
    (ct : option string) (genre rating_pref : string)
    (random_state : list nat) :
  rating_pref <> "" ->
  (forall found rows,
      content_recommender df ct genre rating_pref random_state
      = Ok (Recommendations found rows) ->
      forall e,
        In e rows ->
        rating (snd e) = Some (PyStr.upper rating_pref)
        /\ forall stored,
             rating (snd e) = Some stored ->
             PyStr.all_chars (fun c => negb (PyStr.is_lower c)) stored
             = true)
  /\ (forall other,
        other <> "" ->
        PyStr.upper other = PyStr.upper rating_pref ->
        content_recommender df ct genre other random_state
        = content_recommender df ct genre rating_pref random_state).
Proof.
  intros Hne. split.
  - intros found rows Hrun e He.
    destruct (content_recommender_ok _ _ _ _ _ _ Hrun)
      as [[gl Hgl] [[rl Hrl] [test Hg]]].
    rewrite (content_recommender_run df ct genre rating_pref random_state
               test gl rl Hgl Hrl Hg) in Hrun.
    cbn zeta in Hrun.
    destruct (candidates df ct test rating_pref) as [|e0 rest] eqn:Ec;
      [discriminate|].
    rewrite <- Ec in Hrun. inversion Hrun. subst rows.
    apply take_in in He. destruct He as [i [_ Hi]].
    apply nth_error_In in Hi. unfold candidates, select in Hi.
    apply filter_In in Hi. destruct Hi as [_ Hi].
    apply andb_true_iff in Hi. destruct Hi as [_ Hi].
    apply String.eqb_neq in Hne. rewrite Hne in Hi. simpl in Hi.
    apply (opt_eqb_spec String.eqb String.eqb_eq) in Hi.
    split; [exact Hi|]. intros stored Hs. rewrite Hs in Hi.
    inversion Hi. apply upper_no_lower.
  - intros other Ho Hu. unfold content_recommender, filter_and_sample.
    apply String.eqb_neq in Hne, Ho. rewrite Hne, Ho, Hu. reflexivity.
Qed.

Lemma rating_preference_upper_witness :
  content_recommender frame_twins None "" "pg" [0]
  = content_recommender frame_twins None "" "PG" [0].
Proof.
  apply (@rating_preference_upper fragment_engine frame_twins None "" "PG"
           [0]); [discriminate | discriminate | reflexivity].
Defined.

(** ** More on the keywords *)

Lemma to_lower_not_upper (c : ascii) :
  PyStr.is_upper (PyStr.to_lower c) = false.
Proof. destruct c as [[] [] [] [] [] [] [] []]; reflexivity. Qed.

Lemma lower_no_upper (s : string) :
  PyStr.all_chars (fun c => negb (PyStr.is_upper c)) (PyStr.lower s) = true.
Proof.
  induction s as [|c s IH]; simpl; [reflexivity|].
  rewrite to_lower_not_upper, IH. reflexivity.
Qed.

Lemma all_chars_append (p : ascii -> bool) (s1 s2 : string) :
  PyStr.all_chars p (s1 ++ s2)%string
  = PyStr.all_chars p s1 && PyStr.all_chars p s2.
Proof.
  induction s1 as [|c s1 IH]; simpl; [reflexivity|].
  rewrite IH. apply andb_assoc.
Qed.

Lemma all_chars_join (p : ascii -> bool) (sep : string) (parts : list string) :
  PyStr.all_chars p sep = true ->
  (forall x, In x parts -> PyStr.all_chars p x = true) ->
  PyStr.all_chars p (PyStr.join sep parts) = true.
Proof.
  intros Hsep. unfold PyStr.join.
  induction parts as [|x parts IH]; intros Hall; [reflexivity|].
  simpl. destruct parts as [|y parts].
  - apply Hall. left. reflexivity.
  - rewrite !all_chars_append, Hsep.
    rewrite (Hall x (or_introl eq_refl)). simpl.
    apply IH. intros z Hz. apply Hall. right. exact Hz.
Qed.

(** The characters of the tokens of [str.split()] are characters of the
    text. *)
Lemma split_ws_chars (p : ascii -> bool) (s : string) :
  forall cur w,
    PyStr.all_chars p cur = true ->
    PyStr.all_chars p s = true ->
    In w (PyStr.split_ws_go cur s) ->
    PyStr.all_chars p w = true.
Proof.
  induction s as [|c s IH]; intros cur w Hcur Hs; simpl.
  - destruct cur as [|a cur]; [intros []|].
    intros [<-|[]]. rewrite rev_string_all. exact Hcur.
  - simpl in Hs. apply andb_true_iff in Hs. destruct Hs as [Hc Hs].
    destruct (PyStr.is_space c).
    + destruct cur as [|a cur]; [apply IH; auto|].
      intros [<-|Hin]; [rewrite rev_string_all; exact Hcur|].
      apply (IH "" w eq_refl Hs Hin).
    + apply IH; [|exact Hs]. simpl. rewrite Hc, Hcur. reflexivity.
Qed.

(** *** The tokens of a text *)

Lemma append_assoc (s1 s2 s3 : string) :
  ((s1 ++ s2) ++ s3 = s1 ++ (s2 ++ s3))%string.
Proof. induction s1 as [|c s1 IH]; simpl; [reflexivity | rewrite IH; reflexivity]. Qed.

Lemma rev_string_app (s : string) :
  forall acc,
    PyStr.rev_string acc s = (PyStr.rev_string "" s ++ acc)%string.
Proof.
  induction s as [|c s IH]; intros acc; simpl; [reflexivity|].
  rewrite (IH (String c acc)), (IH (String c "")), append_assoc.
  reflexivity.
Qed.

Lemma weave_cons (c : ascii) (g : string) (gaps tokens : list string) :
  weave (String c g :: gaps) tokens = String c (weave (g :: gaps) tokens).
Proof. destruct tokens; reflexivity. Qed.

Lemma weave_step (g t : string) (gaps tokens : list string) :
  weave (g :: gaps) (t :: tokens) = (g ++ t ++ weave gaps tokens)%string.
Proof. reflexivity. Qed.

(** [str.split()] cuts the text into its tokens and the gaps around them:
    the gaps are white space, the gaps between two tokens are not empty,
    and gaps and tokens in turn make up the text. *)
Lemma split_ws_weave (s : string) :
  forall cur,
    PyStr.all_chars (fun c => negb (PyStr.is_space c)) cur = true ->
    exists gaps,
      length gaps = S (length (PyStr.split_ws_go cur s))
      /\ weave gaps (PyStr.split_ws_go cur s)
         = (PyStr.rev_string "" cur ++ s)%string
      /\ Forall (fun g => PyStr.all_chars PyStr.is_space g = true) gaps
      /\ Forall (fun g => g <> "") (inner_gaps gaps).
Proof.
  induction s as [|c s IH]; intros cur Hcur.
  - destruct cur as [|a cur].
    + exists [""]. repeat split; repeat constructor.
    + exists [""; ""]. cbn [PyStr.split_ws_go length weave].
      repeat split; repeat constructor.
  - cbn [PyStr.split_ws_go]. destruct (PyStr.is_space c) eqn:Ec.
    + destruct (IH "" eq_refl) as [gaps [Hl [Hw [Hb Hi]]]].
      destruct gaps as [|g0 rest]; [discriminate|].
      cbn [PyStr.rev_string append] in Hw.
      inversion Hb as [|? ? Hg0 Hrest]. subst.
      destruct cur as [|a cur].
      * exists (String c g0 :: rest). split; [exact Hl|]. split.
        { rewrite weave_cons, Hw. reflexivity. }
        split; [|exact Hi].
        constructor; [|exact Hrest]. simpl. rewrite Ec, Hg0. reflexivity.
      * exists ("" :: String c g0 :: rest). split; [simpl in *; lia|].
        split.
        { rewrite weave_step, weave_cons, Hw. reflexivity. }
        split.
        { constructor; [reflexivity|]. constructor; [|exact Hrest].
          simpl. rewrite Ec, Hg0. reflexivity. }
        unfold inner_gaps in *. cbn [tl] in *.
        destruct rest as [|g1 rest]; [constructor|].
        cbn [removelast]. constructor; [discriminate | exact Hi].
    + destruct (IH (String c cur)) as [gaps [Hl [Hw [Hb Hi]]]].
      { simpl. rewrite Ec, Hcur. reflexivity. }
      exists gaps. split; [exact Hl|]. split; [|split; assumption].
      rewrite Hw. cbn [PyStr.rev_string].
      rewrite (rev_string_app cur (String c "")), append_assoc.
      reflexivity.
Qed.

Lemma occurrences_count_occ (w : string) (l : list string) :
  occurrences w l = count_occ string_dec l w.
Proof.
  induction l as [|x l IH]; [reflexivity|].
  cbn [occurrences count_occ]. rewrite IH.
  change (key_eqb w x) with (String.eqb w x).
  destruct (string_dec x w) as [->|Hne].
  - rewrite String.eqb_refl. reflexivity.
  - destruct (String.eqb_spec w x) as [->|_]; [contradiction | reflexivity].
Qed.

Lemma in_set_spec (w : string) (set : list string) :
  in_set w set = false <-> ~ In w set.
Proof.
  unfold in_set. split.
  - intros E Hin.
    assert (Ht : existsb (String.eqb w) set = true).
    { apply existsb_exists. exists w. split; [exact Hin|].
      apply String.eqb_refl. }
    congruence.
  - intros Hn. destruct (existsb (String.eqb w) set) eqn:E; [|reflexivity].
    apply existsb_exists in E. destruct E as [x [Hx E]].
    apply String.eqb_eq in E. subst. contradiction.
Qed.

Lemma all_descriptions_text (df : DataFrame) :
  all_descriptions df
  = String.concat " "
      (map (fun e => match description (snd e) with
                     | Some d => PyStr.lower d
                     | None => ""
                     end) df).
Proof.
  unfold all_descriptions, PyStr.join, column. rewrite !map_map.
  f_equal. apply map_ext. intros e.
  destruct (description (snd e)); reflexivity.
Qed.

(** C7, as the code has it: the descriptions are put in lower case, a
    missing one counting as empty, and joined by single spaces; the words
    that the method splits this text into are its maximal runs without
    white space: together with gaps of white space, not empty between two
    words, they make up the text.  The counter
    that the method returns has one entry for every token that is no stop
    word and has four characters or more, with the number of occurrences of
    the token, in the order of the first occurrences: it is not ranked.
    The entries printed are the first ten of the ranking of the counter by
    decreasing count, equal counts in the order of first occurrence among
    the tokens. *)
Theorem keyword_counts (df : DataFrame) :
  let text :=
    String.concat " "
      (map (fun e => match description (snd e) with
                     | Some d => PyStr.lower d
                     | None => ""
                     end) df) in
  let tokens := words df in
  exists gaps ranked,
    length gaps = S (length tokens)
    /\ weave gaps tokens = text
    /\ Forall (fun g => PyStr.all_chars PyStr.is_space g = true) gaps
    /\ Forall (fun g => g <> "") (inner_gaps gaps)
    /\ Forall (fun w =>
                 w <> ""
                 /\ PyStr.all_chars (fun c => negb (PyStr.is_space c)) w
                    = true
                 /\ PyStr.all_chars (fun c => negb (PyStr.is_upper c)) w
                    = true)
              tokens
    /\ (forall w c,
          In (w, c) (keyword_analysis df)
          <-> In w tokens /\ ~ In w stop_words /\ 4 <= String.length w
              /\ c = count_occ string_dec tokens w)
    /\ NoDup (map fst (keyword_analysis df))
    /\ StronglySorted
         (fun a b => first_index (fst a) tokens < first_index (fst b) tokens)
         (keyword_analysis df)
    /\ Permutation ranked (keyword_analysis df)
    /\ StronglySorted (ranked_before tokens) ranked
    /\ top_keywords df = firstn 10 ranked.
Proof.
  intros text tokens. subst tokens.
  assert (Htext : all_descriptions df = text) by apply all_descriptions_text.
  destruct (split_ws_weave (all_descriptions df) "" eq_refl)
    as [gaps [Hl [Hw [Hb Hi]]]].
  cbn [PyStr.rev_string append] in Hw. rewrite Htext in Hw at 2.
  exists gaps, (sort_desc (keyword_analysis df)).
  fold (PyStr.split_ws (all_descriptions df)) in Hl, Hw.
  fold (words df) in Hl, Hw.
  set (fw := filter keep_word (words df)).
  assert (Hkeep : forall w, keep_word w = true
                            <-> ~ In w stop_words /\ 4 <= String.length w).
  { intros w. rewrite keep_word_constants, keep_word_with_spec, in_set_spec.
    tauto. }
  assert (Hfw : forall w c, In (w, c) (Counter fw) -> keep_word w = true).
  { intros w c Hin. apply Counter_entries in Hin. destruct Hin as [Hin _].
    unfold fw in Hin. apply filter_In in Hin. tauto. }
  split; [exact Hl|]. split; [exact Hw|]. split; [exact Hb|].
  split; [exact Hi|]. split; [|split; [|split; [|split; [|split; [|split]]]]].
  - apply Forall_forall. intros w Hin.
    destruct (split_ws_tokens (all_descriptions df) "" w eq_refl Hin)
      as [Hne Hsp].
    split; [exact Hne|]. split; [exact Hsp|].
    apply (split_ws_chars _ (all_descriptions df) "" w eq_refl);
      [|exact Hin].
    unfold all_descriptions. apply all_chars_join; [reflexivity|].
    intros x Hx. apply in_map_iff in Hx. destruct Hx as [y [<- _]].
    apply lower_no_upper.
  - intros w c. unfold keyword_analysis, filtered_words. fold fw.
    rewrite Counter_entries, <- occurrences_count_occ. unfold fw.
    rewrite filter_In, Hkeep. split.
    + intros [[Hin Hk] ->].
      rewrite occurrences_filter by (apply Hkeep; exact Hk). tauto.
    + intros [Hin [Hs [Hlen ->]]].
      rewrite occurrences_filter by (apply Hkeep; tauto). tauto.
  - apply keys_Counter_nodup.
  - unfold keyword_analysis, filtered_words. fold fw.
    apply StronglySorted_weaken
      with (R := fun a b : string * nat =>
                   first_index (fst a) fw < first_index (fst b) fw).
    + intros [a ca] [b cb] Ha Hb' Hr. cbn [fst] in *.
      apply (first_index_filter keep_word a b (words df)
               (Hfw a ca Ha) (Hfw b cb Hb')).
      exact Hr.
    + apply (StronglySorted_map fst
               (fun a b => first_index a fw < first_index b fw)).
      apply keys_Counter_order.
  - apply sort_desc_perm.
  - unfold keyword_analysis, filtered_words. fold fw.
    apply StronglySorted_weaken
      with (R := fun a b : string * nat =>
                   snd b < snd a
                   \/ (snd a = snd b
                       /\ first_index (fst a) fw < first_index (fst b) fw)).
    + intros [a ca] [b cb] Ha Hb' Hr.
      apply (Permutation_in _ (sort_desc_perm _)) in Ha, Hb'.
      unfold ranked_before. cbn [fst snd] in *.
      destruct Hr as [Hr|[He Hr]]; [left; exact Hr|].
      right. split; [exact He|].
      apply (first_index_filter keep_word a b (words df)
               (Hfw a ca Ha) (Hfw b cb Hb')).
      exact Hr.
    + apply (sort_desc_sorted (fun k => first_index k fw)).
      apply (StronglySorted_map fst
               (fun a b => first_index a fw < first_index b fw)).
      apply keys_Counter_order.
  - reflexivity.
Qed.

(** C7 as stated fails: the counter returned is in the order of the first
    occurrences, here with increasing counts; only the ten entries printed
    are ranked. *)
Lemma keyword_analysis_unranked :
  keyword_analysis frame_three_words
  = [("aaaa", 1); ("bbbb", 2); ("cccc", 3)]
  /\ top_keywords frame_three_words
     = [("cccc", 3); ("bbbb", 2); ("aaaa", 1)].
Proof. split; reflexivity. Qed.

(** X19: no keyword of the counter has an upper-case letter, is a stop word
    or has fewer than four characters; the counts, none of them zero, add
    up to the number of the words that are kept; not more than ten entries
    of the counter are printed. *)
Theorem keywords_case_folded (df : DataFrame) :
  (forall w c,
      In (w, c) (keyword_analysis df) ->
      PyStr.all_chars (fun a => negb (PyStr.is_upper a)) w = true
      /\ in_set w stop_words = false
      /\ 4 <= String.length w
      /\ 0 < c)
  /\ list_sum (map snd (keyword_analysis df)) = length (filtered_words df)
  /\ length (top_keywords df) <= 10
  /\ (forall e, In e (top_keywords df) -> In e (keyword_analysis df)).
Proof.
  unfold keyword_analysis. split; [|split; [|split]].
  - intros w c Hin. apply Counter_entries in Hin. destruct Hin as [Hin ->].
    assert (Hpos : 0 < occurrences w (filtered_words df))
      by (apply occurrences_pos; exact Hin).
    unfold filtered_words in Hin. apply filter_In in Hin.
    destruct Hin as [Hw Hk].
    rewrite keep_word_constants in Hk. apply keep_word_with_spec in Hk.
    split; [|tauto].
    apply (split_ws_chars _ (all_descriptions df) "" w eq_refl);
      [|exact Hw].
    unfold all_descriptions. apply all_chars_join; [reflexivity|].
    intros x Hx. apply in_map_iff in Hx. destruct Hx as [y [<- _]].
    apply lower_no_upper.
  - apply total_Counter.
  - unfold top_keywords, most_common. apply firstn_le_length.
  - intros e He. unfold top_keywords, most_common in He.
    apply firstn_in in He.
    apply (Permutation_in _ (sort_desc_perm _) He).
Qed.

(** ** More on the genre pairs *)

Lemma StronglySorted_firstn {A : Type} (R : A -> A -> Prop) (n : nat)
    (l : list A) :
  StronglySorted R l -> StronglySorted R (firstn n l).
Proof.
  intros Hs. revert n. induction Hs as [|a l Hs IH Hall]; intros n.
  - rewrite firstn_nil. constructor.
  - destruct n as [|n]; simpl; constructor; [apply IH|].
    apply Forall_forall. intros x Hx. apply firstn_in in Hx.
    rewrite Forall_forall in Hall. apply Hall. exact Hx.
Qed.

Lemma most_common_decreasing {K : Type} `{PyKeyOk K} (n : option nat)
    (l : list K) :
  StronglySorted (fun a b => snd b <= snd a) (most_common n (Counter l)).
Proof.
  assert (Hs : StronglySorted (fun a b : K * nat => snd b <= snd a)
                 (sort_desc (Counter l))).
  { apply StronglySorted_weaken
      with (R := fun a b : K * nat =>
                   snd b < snd a
                   \/ (snd a = snd b
                       /\ first_index (fst a) l < first_index (fst b) l)).
    - intros a b _ _ Hr. lia.
    - apply (sort_desc_sorted (fun k => first_index k l)).
      apply (StronglySorted_map fst
               (fun a b => first_index a l < first_index b l)).
      apply keys_Counter_order. }
  destruct n as [k|]; simpl; [apply StronglySorted_firstn|]; exact Hs.
Qed.

(** X10: the counts of the genre pairs add up to the number of pairs of
    positions of the genre lists, [k (k - 1) / 2] for a record with [k]
    genres, so nothing for a record with fewer than two; the pairs drawn
    are at most ten entries of the counter, by decreasing count. *)
Theorem genre_pair_totals (df : DataFrame) :
  2 * list_sum (map snd (pair_counts df))
  = list_sum
      (map (fun e => length (genres_of (listed_in (snd e)))
                     * (length (genres_of (listed_in (snd e))) - 1)) df)
  /\ length (top_pairs df) <= 10
  /\ StronglySorted (fun a b => snd b <= snd a) (top_pairs df)
  /\ (forall e, In e (top_pairs df) -> In e (pair_counts df)).
Proof.
  unfold top_pairs, pair_counts. split; [|split; [|split]].
  - rewrite total_Counter. unfold genre_pairs, column.
    induction df as [|e df IH]; simpl; [reflexivity|].
    rewrite length_app, cell_pairs_eq, <- IH.
    pose proof (pairs_of_length (genres_of (listed_in (snd e)))). lia.
  - unfold most_common. apply firstn_le_length.
  - apply most_common_decreasing.
  - intros e He. unfold most_common in He. apply firstn_in in He.
    apply (Permutation_in _ (sort_desc_perm _) He).
Qed.
